(** * AdversaRL: the curriculum loop and the stream bridge, embedded and verified

    A shallow embedding of the parts of the [adversarl] package that the
    specification's testable properties talk about:

    - [adversarl/curriculum/failure_detector.py]  (module [FailureDetector])
    - [adversarl/curriculum/llm_judge.py]         (module [LLMJudge])
    - [adversarl/training/train.py]               (module [CurriculumCallback])
    - [adversarl/envs/odyssey_env.py]             (module [OdysseyEnv])
    - [adversarl/envs/odyssey_client.py]          (module [OdysseyClient])
    - [adversarl/envs/odyssey_mock.py]            (module [MockOdysseyClient])
    - [adversarl/curriculum/strategies.py]        (module [Strategies])
    - [adversarl/curriculum/controller.py]        (module [CurriculumController])
    - [adversarl/specification/spec_loader.py]    (module [SpecLoader])
    - [main.py]                                   (module [TrainingSimulator])

    Python objects become records of their attributes, methods become
    computations in a state-and-exception monad over that record, Python
    [float]s are IEEE binary64 numbers (Rocq's primitive floats), Python
    [int]s are [Z], and the tally [dict] of the detector is a
    [gmap string Z]. *)

From Stdlib Require Import ZArith Uint63 Floats String Ascii List Bool Lia.
From stdpp Require Import gmap strings list pretty.
Import ListNotations.

#[local] Set Warnings "-inexact-float,-register-all".
#[local] Open Scope Z_scope.

(* ===================================================================== *)
(** * Python runtime: exceptions and the method monad                     *)
(* ===================================================================== *)

(** The exception classes the embedded code can meet.  All of them derive
    from [Exception], so a handler [except Exception] (and a bare
    [except:]) catches every one.  (What derives from [BaseException]
    only, such as [KeyboardInterrupt], is not an outcome of the model.) *)
Inductive exn_class : Type :=
  | TypeError | AttributeError | IndexError | KeyError | ValueError
  | OverflowError | ZeroDivisionError | RuntimeError
  | JSONDecodeError        (* json.loads *)
  | QueueFull | QueueEmpty (* queue.Full, queue.Empty *)
  | ServiceError.          (* whatever the remote API client raises *)

Record exn : Type := Exception { exn_cls : exn_class; exn_str : string }.

Inductive result (A : Type) : Type :=
  | Ok (a : A)
  | Raise (e : exn).
Arguments Ok {A} a.
Arguments Raise {A} e.

(** A method of an object whose attributes are [S]: it reads and mutates
    [self] and either returns or raises.  Mutations made before an
    exception is raised stay. *)
Definition Py (S A : Type) : Type := S -> result A * S.

Definition ret {S A} (a : A) : Py S A := fun s => (Ok a, s).
Definition raise {S A} (e : exn) : Py S A := fun s => (Raise e, s).
Definition bind {S A B} (c : Py S A) (k : A -> Py S B) : Py S B :=
  fun s => match c s with
           | (Ok a, s') => k a s'
           | (Raise e, s') => (Raise e, s')
           end.
Definition get {S} : Py S S := fun s => (Ok s, s).
Definition modify {S} (f : S -> S) : Py S unit := fun s => (Ok tt, f s).
Definition lift {S A} (r : result A) : Py S A := fun s => (r, s).

Notation "x <~ c ;; k" := (bind c (fun x => k))
  (at level 63, c at next level, right associativity).
Notation "c ;;; k" := (bind c (fun _ => k))
  (at level 63, right associativity).

(** [try: body  except Exception as e: handler e]. *)
Definition try_except {S A} (body : Py S A) (handler : exn -> Py S A) : Py S A :=
  fun s => match body s with
           | (Ok a, s') => (Ok a, s')
           | (Raise e, s') => handler e s'
           end.

(** [try: body  except cls: handler]: other classes propagate. *)
Definition exn_class_eqb (a b : exn_class) : bool :=
  match a, b with
  | TypeError, TypeError | AttributeError, AttributeError
  | IndexError, IndexError | KeyError, KeyError | ValueError, ValueError
  | OverflowError, OverflowError | ZeroDivisionError, ZeroDivisionError
  | RuntimeError, RuntimeError | JSONDecodeError, JSONDecodeError
  | QueueFull, QueueFull | QueueEmpty, QueueEmpty
  | ServiceError, ServiceError => true
  | _, _ => false
  end.

Definition try_except_class {S A} (body : Py S A) (cls : exn_class)
    (handler : Py S A) : Py S A :=
  fun s => match body s with
           | (Ok a, s') => (Ok a, s')
           | (Raise e, s') =>
               if exn_class_eqb (exn_cls e) cls then handler s' else (Raise e, s')
           end.

(** [for x in xs: body x]. *)
Fixpoint for_each {S X} (xs : list X) (body : X -> Py S unit) : Py S unit :=
  match xs with
  | [] => ret tt
  | x :: xs' => body x ;;; for_each xs' body
  end.

(* ===================================================================== *)
(** * Python runtime: numbers                                             *)
(* ===================================================================== *)

(** Built-in [min(a, b)] and [max(a, b)] on floats: the first argument is
    kept unless the second compares strictly below (above) it.  With a NaN
    every comparison is false, so the first argument wins. *)
Definition py_min (a b : float) : float := if (b <? a)%float then b else a.
Definition py_max (a b : float) : float := if (a <? b)%float then b else a.

(** [float(z)] for an [int] [z]: the nearest binary64 number, ties to
    even; [OverflowError] when that is out of range. *)
Definition int_to_float (z : Z) : result float :=
  match binary_normalize prec emax z 0 false with
  | S754_infinity _ =>
      Raise (Exception OverflowError "int too large to convert to float")
  | sf => Ok (SF2Prim sf)
  end.

(** The float nearest to a container size or count [n] (an [int] in
    [0, 2^63), as [len] and a [sum] of booleans produce). *)
Definition size_to_float (n : Z) : float := PrimFloat.of_uint63 (Uint63.of_Z n).

(** [a / b] (true division) where [a] and [b] are sizes or counts.  Below
    2^53 both operands convert exactly, and the float quotient is then the
    correctly rounded quotient that Python computes. *)
Definition int_true_divide (a b : Z) : result float :=
  if (b =? 0)%Z then Raise (Exception ZeroDivisionError "division by zero")
  else Ok (size_to_float a / size_to_float b)%float.

(** [sum(bs)] on a sequence of [bool]s: [True] counts 1. *)
Definition py_sum_bools (bs : list bool) : Z :=
  fold_left (fun acc (b : bool) => acc + Z.b2z b) bs 0.

(** [len(xs)]. *)
Definition len {A} (xs : list A) : Z := Z.of_nat (length xs).

(* ===================================================================== *)
(** * Python runtime: strings                                             *)
(* ===================================================================== *)

(** Texts are modelled over the ASCII range, where [str.lower] maps
    [A]..[Z] to [a]..[z] and leaves everything else alone. *)
Definition lower_ascii (c : ascii) : ascii :=
  let n := nat_of_ascii c in
  if ((65 <=? n)%nat && (n <=? 90)%nat)%bool then ascii_of_nat (n + 32) else c.

Fixpoint lower (s : string) : string :=
  match s with
  | EmptyString => EmptyString
  | String c s' => String (lower_ascii c) (lower s')
  end.

(** [needle in hay] on strings: [needle] occurs as a substring. *)
Fixpoint py_in (needle hay : string) : bool :=
  if String.prefix needle hay then true
  else match hay with
       | EmptyString => false
       | String _ hay' => py_in needle hay'
       end.

(** Truth value of an [Optional[str]]: [None] and the empty string are false. *)
Definition truthy (o : option string) : bool :=
  match o with
  | None | Some EmptyString => false
  | Some _ => true
  end.

(** [collections.deque(maxlen=n).append(x)]: append on the right, then drop
    one item on the left if the bound is exceeded. *)
Definition deque_append {A} (maxlen : Z) (d : list A) (x : A) : list A :=
  let d' := d ++ [x] in
  if (maxlen <? len d')%Z then tail d' else d'.

(* ===================================================================== *)
(** * adversarl/curriculum/failure_detector.py                            *)
(* ===================================================================== *)

Module FailureDetector.

Record t : Type := mk {
  window_size : Z;
  min_success_rate : float;
  categories : list string;
  episode_rewards : list float;      (* deque(maxlen=window_size) *)
  episode_successes : list bool;     (* deque(maxlen=window_size) *)
  episode_lengths : list Z;          (* deque(maxlen=window_size) *)
  failure_counts : gmap string Z;
  current_conditions : string
}.

Definition default_window_size : Z := 100.
Definition default_min_success_rate : float := 0.3%float.
Definition default_categories : list string :=
  ["lighting"; "occlusion"; "visual"; "distraction"]%string.

(** [{cat: 0 for cat in categories}] *)
Definition zero_counts (cats : list string) : gmap string Z :=
  fold_left (fun m cat => <[cat := 0]> m) cats ∅.

(** [__init__]: [deque(maxlen=...)] refuses a negative bound, and
    [categories or [...]] replaces [None] and the empty list. *)
Definition __init__ (window_size : Z) (min_success_rate : float)
    (categories : option (list string)) : result t :=
  let cats := match categories with
              | None | Some [] => default_categories
              | Some cs => cs
              end in
  if (window_size <? 0)%Z
  then Raise (Exception ValueError "maxlen must be non-negative")
  else Ok (mk window_size min_success_rate cats [] [] []
              (zero_counts cats) "neutral").

Definition append_windows (reward : float) (success : bool) (length : Z)
    (self : t) : t :=
  mk (window_size self) (min_success_rate self) (categories self)
     (deque_append (window_size self) (episode_rewards self) reward)
     (deque_append (window_size self) (episode_successes self) success)
     (deque_append (window_size self) (episode_lengths self) length)
     (failure_counts self) (current_conditions self).

Definition set_current_conditions (c : string) (self : t) : t :=
  mk (window_size self) (min_success_rate self) (categories self)
     (episode_rewards self) (episode_successes self) (episode_lengths self)
     (failure_counts self) c.

Definition set_failure_counts (m : gmap string Z) (self : t) : t :=
  mk (window_size self) (min_success_rate self) (categories self)
     (episode_rewards self) (episode_successes self) (episode_lengths self)
     m (current_conditions self).

(** [self.failure_counts[category] += 1]: reading a missing key raises. *)
Definition increment (category : string) : Py t unit :=
  fun self =>
    match failure_counts self !! category with
    | Some n => (Ok tt, set_failure_counts (<[category := n + 1]> (failure_counts self)) self)
    | None => (Raise (Exception KeyError category), self)
    end.

Definition record_episode (reward : float) (success : bool) (length : Z)
    (conditions : option string) : Py t unit :=
  modify (append_windows reward success length) ;;;
  (if truthy conditions
   then modify (set_current_conditions (default EmptyString conditions))
   else ret tt) ;;;
  if (negb success && truthy conditions)%bool then
    let lowered := lower (default EmptyString conditions) in
    self <~ get ;;
    for_each (categories self) (fun category =>
      if py_in category lowered then increment category else ret tt)
  else ret tt.

Definition get_success_rate : Py t float :=
  self <~ get ;;
  match episode_successes self with
  | [] => ret 0%float
  | _ => lift (int_true_divide (py_sum_bools (episode_successes self))
                               (len (episode_successes self)))
  end.

Definition should_adapt : Py t bool :=
  self <~ get ;;
  if (len (episode_successes self) <? window_size self / 2)%Z
  then ret false
  else
    success_rate <~ get_success_rate ;;
    ret (success_rate <? min_success_rate self)%float.

Definition reset_statistics : Py t unit :=
  modify (fun self =>
    mk (window_size self) (min_success_rate self) (categories self)
       [] [] [] (zero_counts (categories self)) (current_conditions self)).

(** One finished episode, as [record_episode] receives it. *)
Record episode : Type := Episode {
  ep_reward : float;
  ep_success : bool;
  ep_length : Z;
  ep_conditions : option string
}.

Definition record (e : episode) : Py t unit :=
  record_episode (ep_reward e) (ep_success e) (ep_length e) (ep_conditions e).

(** Recording a whole sequence of episodes, oldest first. *)
Definition record_all (eps : list episode) : Py t unit :=
  for_each eps record.

(** ** The queries that read the tally *)

(** The keys of [{cat: 0 for cat in cats}] in insertion order: every
    name at the place of its first occurrence.  [seen] holds the names
    already inserted. *)
Fixpoint dict_keys (seen cats : list string) : list string :=
  match cats with
  | [] => []
  | c :: cs =>
      if decide (c ∈ seen) then dict_keys seen cs
      else c :: dict_keys (c :: seen) cs
  end.

(** [self.failure_counts.items()].  The dict is only ever built by the
    comprehension over [self.categories], and [record_episode] assigns to
    keys it already has, so its items come in the order of
    [dict_keys [] self.categories]. *)
Definition failure_items (self : t) : list (string * Z) :=
  omap (fun c => (fun n => (c, n)) <$> failure_counts self !! c)
       (dict_keys [] (categories self)).

(** [max(items, key=lambda x: x[1])] from the second item on: the
    running best is replaced only by a strictly larger count. *)
Fixpoint max_by_count (best : string * Z) (rest : list (string * Z))
    : string * Z :=
  match rest with
  | [] => best
  | x :: rest' =>
      if (snd best <? snd x)%Z then max_by_count x rest'
      else max_by_count best rest'
  end.

Definition get_weakest_category : Py t string :=
  self <~ get ;;
  if decide (failure_counts self = ∅) then
    match categories self with
    | c :: _ => ret c
    | [] => raise (Exception IndexError "list index out of range")
    end
  else
    match failure_items self with
    | x :: rest => ret (fst (max_by_count x rest))
    | [] => raise (Exception ValueError "max() arg is an empty sequence")
    end.

(** [np.mean] of a list of [int]s, summed and divided in binary64
    (exact sums below 2^53). *)
Definition np_mean_ints (xs : list Z) : float :=
  (size_to_float (fold_left Z.add xs 0%Z) / size_to_float (len xs))%float.

(** [count > avg_failures] with an [int] on the left and a float on the
    right: the [int] is converted. *)
Definition int_gt_float (count : Z) (avg : float) : bool :=
  (avg <? size_to_float count)%float.

Definition get_failure_modes : Py t (list string) :=
  self <~ get ;;
  if decide (failure_counts self = ∅) then ret []
  else
    let avg_failures := np_mean_ints (map snd (failure_items self)) in
    ret (map fst (filter (fun item => int_gt_float (snd item) avg_failures = true)
                         (failure_items self))).

End FailureDetector.

(* ===================================================================== *)
(** * Python runtime: JSON values and text helpers used by the judge      *)
(* ===================================================================== *)

(** What [json.loads] returns: [None], [bool], [int], [float], [str],
    [list] and [dict].  A [dict] is kept as the list of its items, keys
    pairwise distinct, in insertion order. *)
Inductive json : Type :=
  | JNull
  | JBool (b : bool)
  | JInt (z : Z)
  | JFloat (f : float)
  | JString (s : string)
  | JArray (elems : list json)
  | JObject (items : list (string * json)).

(** [type(v).__name__] *)
Definition type_name (v : json) : string :=
  match v with
  | JNull => "NoneType"
  | JBool _ => "bool"
  | JInt _ => "int"
  | JFloat _ => "float"
  | JString _ => "str"
  | JArray _ => "list"
  | JObject _ => "dict"
  end.

(** [d.get(key, default)] on the items of a [dict]. *)
Fixpoint items_get (items : list (string * json)) (key : string) (default : json) : json :=
  match items with
  | [] => default
  | (k, v) :: rest => if String.eqb k key then v else items_get rest key default
  end.

(** [v.get(key, default)] on an arbitrary value: only a [dict] has the
    method. *)
Definition py_get (v : json) (key : string) (default : json) : result json :=
  match v with
  | JObject items => Ok (items_get items key default)
  | _ => Raise (Exception AttributeError
                  (String.append "'" (String.append (type_name v)
                     "' object has no attribute 'get'")))
  end.

(** [d + v] for a [float] [d] and an arbitrary value [v]. *)
Definition float_add (d : float) (v : json) : result float :=
  match v with
  | JFloat f => Ok (d + f)%float
  | JInt z =>
      match int_to_float z with
      | Ok f => Ok (d + f)%float
      | Raise e => Raise e
      end
  | JBool b => Ok (d + (if b then 1 else 0))%float
  | _ => Raise (Exception TypeError
                  (String.append "unsupported operand type(s) for +: 'float' and '"
                     (String.append (type_name v) "'")))
  end.

(** [s.split(sep)] for a non-empty separator: the pieces between the
    non-overlapping occurrences of [sep], found left to right.  [skip]
    counts the characters of a separator still to be passed over, [cur] is
    the piece being collected. *)
Fixpoint split_from (sep : string) (skip : nat) (cur : string) (s : string)
    : list string :=
  match s with
  | EmptyString => [cur]
  | String c s' =>
      match skip with
      | S k => split_from sep k cur s'
      | O =>
          if String.prefix sep s
          then cur :: split_from sep (String.length sep - 1) EmptyString s'
          else split_from sep O (String.append cur (String c EmptyString)) s'
      end
  end.

Definition split (s sep : string) : list string := split_from sep O EmptyString s.

(** [xs[i]] for a non-negative literal index. *)
Definition index {A} (xs : list A) (i : nat) : result A :=
  match nth_error xs i with
  | Some x => Ok x
  | None => Raise (Exception IndexError "list index out of range")
  end.

(** [str.isspace] on one ASCII character. *)
Definition is_space (c : ascii) : bool :=
  let n := nat_of_ascii c in
  ((9 <=? n)%nat && (n <=? 13)%nat || (28 <=? n)%nat && (n <=? 32)%nat)%bool.

Fixpoint lstrip (s : string) : string :=
  match s with
  | String c s' => if is_space c then lstrip s' else s
  | EmptyString => EmptyString
  end.

Fixpoint rstrip (s : string) : string :=
  match s with
  | EmptyString => EmptyString
  | String c s' =>
      match rstrip s' with
      | EmptyString => if is_space c then EmptyString else String c EmptyString
      | r => String c r
      end
  end.

(** [s.strip()] *)
Definition strip (s : string) : string := rstrip (lstrip s).

(* ===================================================================== *)
(** * adversarl/curriculum/llm_judge.py                                   *)
(* ===================================================================== *)

Module LLMJudge.

(** The dataclass.  Its fields are not checked at run time: the four
    texts hold whatever value the reply carried ([JNull] is [None]). *)
Record JudgmentResult : Type := mkJudgment {
  timestamp : Z;
  observation : json;
  failure_mode : json;
  reasoning : json;
  curriculum_prompt : json;
  difficulty_level : float
}.

(** The attributes of a judge that its methods read or write.  (The API
    client, the model name and the training context only shape the
    request that is sent.) *)
Record t : Type := mk {
  difficulty : float;
  difficulty_progression : float;
  evaluation_history : list JudgmentResult;
  success_window : list bool;
  window_size : Z
}.

Definition default_difficulty_progression : float := 0.1%float.

Definition __init__ (difficulty_progression : float) : t :=
  mk 0.3%float difficulty_progression [] [] 10.

Definition set_difficulty (d : float) (self : t) : t :=
  mk d (difficulty_progression self) (evaluation_history self)
     (success_window self) (window_size self).

Definition append_history (j : JudgmentResult) (self : t) : t :=
  mk (difficulty self) (difficulty_progression self)
     (evaluation_history self ++ [j]) (success_window self) (window_size self).

(** What [self.client.chat.completions.create(...)] does on one call:
    it raises, or it returns a response whose [choices[i].message.content]
    are the listed texts ([None] when a choice has no text). *)
Inductive api_outcome : Type :=
  | ApiRaises (e : exn)
  | ApiReturns (choices : list (option string)).

Definition fence_json : string := "```json".
Definition fence : string := "```".

(** The lines that take the JSON text out of a Markdown code block. *)
Definition extract_json (result_text : string) : result string :=
  if py_in fence_json result_text then
    match index (split result_text fence_json) 1 with
    | Ok inner => index (split inner fence) 0
    | Raise e => Raise e
    end
  else if py_in fence result_text then
    match index (split result_text fence) 1 with
    | Ok inner => index (split inner fence) 0
    | Raise e => Raise e
    end
  else Ok result_text.

Section Evaluate.

(** [json.loads]: the parser of the standard library, of which nothing
    is assumed. *)
Variable json_loads : string -> result json.

(** The body of the [try] block.  [now] is the reading of
    [datetime.now()], [outcome] what the service call does. *)
Definition try_body (now : Z) (outcome : api_outcome) : Py t JudgmentResult :=
  response <~ lift (match outcome with
                     | ApiRaises e => Raise e
                     | ApiReturns choices => Ok choices
                     end) ;;
  content <~ lift (index response 0) ;;
  result_text <~ lift (match content with
                        | Some text => Ok text
                        | None => Raise (Exception TypeError
                            "argument of type 'NoneType' is not iterable")
                        end) ;;
  result_text <~ lift (extract_json result_text) ;;
  result <~ lift (json_loads (strip result_text)) ;;
  (* Update difficulty *)
  adjustment <~ lift (py_get result "difficulty_adjustment" (JInt 0)) ;;
  self <~ get ;;
  raw <~ lift (float_add (difficulty self) adjustment) ;;
  modify (set_difficulty (py_max 0.1 (py_min 1.0 raw))) ;;;
  observation <~ lift (py_get result "observation" (JString EmptyString)) ;;
  failure_mode <~ lift (py_get result "failure_mode" JNull) ;;
  reasoning <~ lift (py_get result "reasoning" (JString EmptyString)) ;;
  curriculum_prompt <~ lift (py_get result "curriculum_prompt" JNull) ;;
  self <~ get ;;
  let judgment := mkJudgment now observation failure_mode reasoning
                    curriculum_prompt (difficulty self) in
  modify (append_history judgment) ;;;
  ret judgment.

(** The [except Exception as e] handler. *)
Definition fallback (now : Z) (e : exn) : Py t JudgmentResult :=
  self <~ get ;;
  ret (mkJudgment now
         (JString "Unable to evaluate - LLM error occurred")
         (JString "llm_evaluation_error")
         (JString (exn_str e))
         JNull
         (difficulty self)).

Definition evaluate_performance (now : Z) (outcome : api_outcome)
    : Py t JudgmentResult :=
  try_except (try_body now outcome) (fallback now).

End Evaluate.

Definition update_success_window (success : bool) : Py t unit :=
  modify (fun self =>
    let w := success_window self ++ [success] in
    mk (difficulty self) (difficulty_progression self) (evaluation_history self)
       (if (window_size self <? len w)%Z then tail w else w)
       (window_size self)).

Definition get_success_rate : Py t float :=
  self <~ get ;;
  match success_window self with
  | [] => ret 0%float
  | _ => lift (int_true_divide (py_sum_bools (success_window self))
                               (len (success_window self)))
  end.

(** [xs[start:]]: a negative [start] counts from the end, and a start
    before the first entry is the first entry. *)
Definition slice_from {A} (xs : list A) (start : Z) : list A :=
  if (start <? 0)%Z then drop (Z.to_nat (Z.max 0 (len xs + start))) xs
  else drop (Z.to_nat start) xs.

Definition default_recent : Z := 5.

(** [self.evaluation_history[-n:]] *)
Definition get_recent_judgments (n : Z) : Py t (list JudgmentResult) :=
  self <~ get ;;
  ret (slice_from (evaluation_history self) (- n)).

End LLMJudge.

(* ===================================================================== *)
(** * adversarl/training/train.py: CurriculumCallback                     *)
(* ===================================================================== *)

Module CurriculumCallback.

(** The attributes of the callback, with the one attribute of [self.env]
    it touches ([current_conditions], which the environment does not
    have until the first adaptation sets it).  [controller_calls] is a
    ghost counter: how many times [generate_perturbation] was called. *)
Record t : Type := mk {
  failure_detector : FailureDetector.t;
  env_current_conditions : option string;
  adaptation_frequency : Z;
  current_episode_reward : float;
  current_episode_length : Z;
  controller_calls : Z
}.

Definition default_adaptation_frequency : Z := 50.

Definition __init__ (failure_detector : FailureDetector.t)
    (adaptation_frequency : Z) : t :=
  mk failure_detector None adaptation_frequency 0%float 0 0.

(** Running a method of [self.failure_detector]. *)
Definition on_detector {A} (m : Py FailureDetector.t A) : Py t A :=
  fun self =>
    let '(r, fd) := m (failure_detector self) in
    (r, mk fd (env_current_conditions self) (adaptation_frequency self)
           (current_episode_reward self) (current_episode_length self)
           (controller_calls self)).

Definition set_episode (reward : float) (length : Z) (self : t) : t :=
  mk (failure_detector self) (env_current_conditions self)
     (adaptation_frequency self) reward length (controller_calls self).

Definition count_controller_call (self : t) : t :=
  mk (failure_detector self) (env_current_conditions self)
     (adaptation_frequency self) (current_episode_reward self)
     (current_episode_length self) (controller_calls self + 1).

Definition set_env_current_conditions (c : string) (self : t) : t :=
  mk (failure_detector self) (Some c) (adaptation_frequency self)
     (current_episode_reward self) (current_episode_length self)
     (controller_calls self).

(** [getattr(self.env, "current_conditions", "neutral")] *)
Definition env_conditions (self : t) : string :=
  default "neutral"%string (env_current_conditions self).

(** [a % b] on [int]s. *)
Definition py_mod (a b : Z) : result Z :=
  if (b =? 0)%Z then Raise (Exception ZeroDivisionError "integer modulo by zero")
  else Ok (a mod b).

(** [_adapt_curriculum].  [controller] is what the call of
    [self.curriculum_controller.generate_perturbation(...)] does this
    time: it returns the perturbation text or raises.  (The statistics
    gathered before the call only go into the request and the console.) *)
Definition _adapt_curriculum (controller : result string) : Py t unit :=
  try_except
    (modify count_controller_call ;;;
     perturbation <~ lift controller ;;
     modify (set_env_current_conditions perturbation))
    (fun _ => ret tt).

(** [_on_step], with [self.locals["rewards"][0]] and
    [self.locals["dones"][0]] as arguments.  ([get_statistics] and the
    three [self.logger.record] lines compute and log figures and change
    nothing.) *)
Definition _on_step (reward : float) (done : bool) (controller : result string)
    : Py t bool :=
  modify (fun self =>
    set_episode (current_episode_reward self + reward)%float
                (current_episode_length self + 1) self) ;;;
  (if done then
     self <~ get ;;
     let success := (0 <? current_episode_reward self)%float in
     on_detector (FailureDetector.record_episode
                    (current_episode_reward self) success
                    (current_episode_length self)
                    (Some (env_conditions self))) ;;;
     self <~ get ;;
     remainder <~ lift (py_mod (len (FailureDetector.episode_successes
                                       (failure_detector self)))
                               (adaptation_frequency self)) ;;
     due <~ (if (remainder =? 0)%Z
             then on_detector FailureDetector.should_adapt
             else ret false) ;;
     (if due : bool then _adapt_curriculum controller else ret tt) ;;;
     modify (set_episode 0%float 0)
   else ret tt) ;;;
  ret true.

(** A run of training steps: each with its reward, its [done] flag and
    what the controller would do if it were called at that step. *)
Definition steps (inputs : list (float * bool * result string)) : Py t unit :=
  for_each inputs (fun i =>
    _ <~ _on_step (fst (fst i)) (snd (fst i)) (snd i) ;; ret tt).

End CurriculumCallback.

(* ===================================================================== *)
(** * adversarl/envs/odyssey_env.py: the frame buffer                     *)
(* ===================================================================== *)

(** [queue.Queue(maxsize)], as a single thread sees it. *)
Module Queue.
Section WithItem.
Context {A : Type}.

Record t : Type := mk { maxsize : Z; items : list A }.

Definition put_nowait (x : A) : Py t unit :=
  fun q =>
    if ((0 <? maxsize q)%Z && (maxsize q <=? len (items q))%Z)%bool
    then (Raise (Exception QueueFull EmptyString), q)
    else (Ok tt, mk (maxsize q) (items q ++ [x])).

Definition get_nowait : Py t A :=
  fun q =>
    match items q with
    | [] => (Raise (Exception QueueEmpty EmptyString), q)
    | x :: rest => (Ok x, mk (maxsize q) rest)
    end.
End WithItem.
Arguments t : clear implicits.
End Queue.

Module OdysseyEnv.
Section WithFrame.
(** [VideoFrame]: what a frame holds plays no role here. *)
Variable Frame : Type.

(** The two attributes [_on_frame] writes.  [evicted] is a ghost
    field: the frames taken out of the queue to make room, oldest
    first. *)
Record t : Type := mk {
  frame_queue : Queue.t Frame;
  latest_frame : option Frame;
  evicted : list Frame
}.

(** The state [__init__] leaves for a queue of the given capacity;
    the environment itself asks for [Queue(maxsize=10)]. *)
Definition with_capacity (capacity : Z) : t :=
  mk (Queue.mk capacity []) None [].

Definition __init__ : t := with_capacity 10.

Definition on_queue {A} (m : Py (Queue.t Frame) A) : Py t A :=
  fun self =>
    let '(r, q) := m (frame_queue self) in
    (r, mk q (latest_frame self) (evicted self)).

Definition set_latest_frame (frame : Frame) (self : t) : t :=
  mk (frame_queue self) (Some frame) (evicted self).

Definition note_evicted (frame : Frame) (self : t) : t :=
  mk (frame_queue self) (latest_frame self) (evicted self ++ [frame]).

Definition _on_frame (frame : Frame) : Py t unit :=
  modify (set_latest_frame frame) ;;;
  try_except_class
    (on_queue (Queue.put_nowait frame))
    QueueFull
    (* Drop old frames if queue is full *)
    (try_except
       (old <~ on_queue Queue.get_nowait ;;
        modify (note_evicted old) ;;;
        on_queue (Queue.put_nowait frame))
       (fun _ => ret tt)).

(** The frames of a stream arriving one after the other. *)
Definition on_frames (frames : list Frame) : Py t unit :=
  for_each frames _on_frame.

End WithFrame.
Arguments frame_queue {Frame}.
Arguments latest_frame {Frame}.
Arguments evicted {Frame}.
Arguments _on_frame {Frame}.
Arguments on_frames {Frame}.
End OdysseyEnv.

(* ===================================================================== *)
(** * adversarl/envs/odyssey_client.py: OdysseyClient.interact            *)
(* ===================================================================== *)

Module OdysseyClient.

(** The JSON messages the client writes to the socket. *)
Inductive message : Type :=
  | StartStream (prompt : string) (portrait : bool)
  | Interact (prompt : string) (stream_id : string)
  | EndStream (stream_id : string).

(** [ws] is the socket: [None] before [connect], afterwards the messages
    sent over it so far. *)
Record t : Type := mk {
  current_stream_id : option string;
  ws : option (list message);
  media_stream_active : bool
}.

Definition __init__ : t := mk None None false.

(** [await self.ws.send(...)] *)
Definition send (m : message) : Py t unit :=
  fun self =>
    match ws self with
    | None => (Raise (Exception AttributeError
                        "'NoneType' object has no attribute 'send'"), self)
    | Some sent =>
        (Ok tt, mk (current_stream_id self) (Some (sent ++ [m]))
                   (media_stream_active self))
    end.

Definition interact (prompt : string) : Py t unit :=
  self <~ get ;;
  if negb (truthy (current_stream_id self))
  then raise (Exception RuntimeError "No active stream to interact with")
  else send (Interact prompt (default EmptyString (current_stream_id self))).

(** ** The rest of the stream life cycle *)

Definition set_current_stream_id (id : option string) (self : t) : t :=
  mk id (ws self) (media_stream_active self).

(** [end_stream] *)
Definition end_stream : Py t unit :=
  self <~ get ;;
  if negb (truthy (current_stream_id self)) then ret tt
  else
    send (EndStream (default EmptyString (current_stream_id self))) ;;;
    modify (set_current_stream_id None).

(** The JSON objects of the server that [_handle_message] tells apart by
    their ["type"], with the keys it reads from each; a key may be
    missing ([None]), and the values are texts. *)
Inductive server_message : Type :=
  | StreamStarted (stream_id : option string)
  | StreamEnded
  | StreamError (reason message : option string)
  | OtherMessage.

(** Which of the callbacks given to [connect] are set; before [connect]
    none is. *)
Record callbacks : Type := Callbacks {
  on_stream_started : bool;
  on_stream_ended : bool;
  on_stream_error : bool
}.

Definition no_callbacks : callbacks := Callbacks false false false.

(** A call of one of these callbacks, with its arguments. *)
Inductive callback_call : Type :=
  | CallStreamStarted (stream_id : option string)
  | CallStreamEnded
  | CallStreamError (reason message : string).

(** [_handle_message].  The result lists the callbacks it calls (they
    are taken to return normally). *)
Definition _handle_message (cb : callbacks) (data : server_message)
    : Py t (list callback_call) :=
  match data with
  | StreamStarted stream_id =>
      modify (set_current_stream_id stream_id) ;;;
      self <~ get ;;
      ret (if on_stream_started cb
           then [CallStreamStarted (current_stream_id self)] else [])
  | StreamEnded =>
      ret (if on_stream_ended cb then [CallStreamEnded] else [])
  | StreamError reason message =>
      ret (if on_stream_error cb
           then [CallStreamError (default "unknown"%string reason)
                                 (default EmptyString message)]
           else [])
  | OtherMessage => ret []
  end.

(** The server messages handled one after the other. *)
Fixpoint handle_all (cb : callbacks) (msgs : list server_message)
    : Py t (list callback_call) :=
  match msgs with
  | [] => ret []
  | data :: rest =>
      calls <~ _handle_message cb data ;;
      calls' <~ handle_all cb rest ;;
      ret (calls ++ calls')
  end.

(** [start_stream] without an image, as the environment calls it.
    While it sleeps for half a second the receiving task handles the
    server messages [during]; [object_id] is [str(id(self))]. *)
Definition start_stream (cb : callbacks) (during : list server_message)
    (object_id : string) (prompt : string) (portrait : bool) : Py t string :=
  send (StartStream prompt portrait) ;;;
  handle_all cb during ;;;
  self <~ get ;;
  ret (if truthy (current_stream_id self)
       then default EmptyString (current_stream_id self)
       else String.append "stream_" object_id).

End OdysseyClient.

(* ===================================================================== *)
(** * adversarl/envs/odyssey_mock.py: MockOdysseyClient.interact          *)
(* ===================================================================== *)

(** The positions of the mock start as [int]s and become [float]s once a
    fraction has been added. *)
Inductive num : Type :=
  | Int (z : Z)
  | Flt (f : float).

(** [float(n)], for the magnitudes (far below 2^53) positions take. *)
Definition num_to_float (n : num) : float :=
  match n with
  | Int z => if (z <? 0)%Z then (- size_to_float (- z))%float else size_to_float z
  | Flt f => f
  end.

Definition num_add (a b : num) : num :=
  match a, b with
  | Int x, Int y => Int (x + y)
  | _, _ => Flt (num_to_float a + num_to_float b)
  end.

Definition num_sub (a b : num) : num :=
  match a, b with
  | Int x, Int y => Int (x - y)
  | _, _ => Flt (num_to_float a - num_to_float b)
  end.

Definition num_mul (a b : num) : num :=
  match a, b with
  | Int x, Int y => Int (x * y)
  | _, _ => Flt (num_to_float a * num_to_float b)
  end.

(** [n ** 2]: exact on [int]s, the rounded product on [float]s. *)
Definition num_square (n : num) : num := num_mul n n.

Module MockOdysseyClient.

Record t : Type := mk {
  connected : bool;
  current_stream_id : option string;
  should_stream : bool;               (* _should_stream *)
  arm_x : num;
  arm_y : num;
  object_x : num;
  object_y : num;
  gripper_open : bool;
  lighting : string;
  frame_count : Z
}.

Definition __init__ : t :=
  mk false None false (Int 320) (Int 400) (Int 400) (Int 450) true "neutral" 0.

Definition set_arm (x y : num) (self : t) : t :=
  mk (connected self) (current_stream_id self) (should_stream self)
     x y (object_x self) (object_y self) (gripper_open self)
     (lighting self) (frame_count self).

Definition set_object (x y : num) (self : t) : t :=
  mk (connected self) (current_stream_id self) (should_stream self)
     (arm_x self) (arm_y self) x y (gripper_open self)
     (lighting self) (frame_count self).

Definition set_gripper_open (b : bool) (self : t) : t :=
  mk (connected self) (current_stream_id self) (should_stream self)
     (arm_x self) (arm_y self) (object_x self) (object_y self) b
     (lighting self) (frame_count self).

Definition set_lighting (l : string) (self : t) : t :=
  mk (connected self) (current_stream_id self) (should_stream self)
     (arm_x self) (arm_y self) (object_x self) (object_y self)
     (gripper_open self) l (frame_count self).

(** Parse movement commands *)
Definition move (p : string) (self : t) : t :=
  let diff_x := num_sub (object_x self) (arm_x self) in
  let diff_y := num_sub (object_y self) (arm_y self) in
  if (py_in "forward" p || py_in "towards" p)%bool then
    set_arm (num_add (arm_x self) (num_mul diff_x (Flt 0.1)))
            (num_add (arm_y self) (num_mul diff_y (Flt 0.1))) self
  else if (py_in "backward" p || py_in "away" p)%bool then
    set_arm (num_sub (arm_x self) (num_mul diff_x (Flt 0.1)))
            (num_sub (arm_y self) (num_mul diff_y (Flt 0.1))) self
  else if py_in "left" p then set_arm (num_sub (arm_x self) (Int 20)) (arm_y self) self
  else if py_in "right" p then set_arm (num_add (arm_x self) (Int 20)) (arm_y self) self
  else if py_in "up" p then set_arm (arm_x self) (num_sub (arm_y self) (Int 20)) self
  else if py_in "down" p then set_arm (arm_x self) (num_add (arm_y self) (Int 20)) self
  else self.

(** Parse gripper commands *)
Definition grip (p : string) (self : t) : t :=
  if (py_in "close" p || py_in "grasp" p)%bool then
    let self := set_gripper_open false self in
    let dist := PrimFloat.sqrt (num_to_float
                  (num_add (num_square (num_sub (arm_x self) (object_x self)))
                           (num_square (num_sub (arm_y self) (object_y self))))) in
    if (dist <? 50)%float then set_object (arm_x self) (arm_y self) self else self
  else if (py_in "open" p || py_in "release" p)%bool then set_gripper_open true self
  else self.

(** Parse lighting commands *)
Definition relight (p : string) (self : t) : t :=
  if (py_in "dim" p || py_in "dark" p)%bool then set_lighting "dim" self
  else if (py_in "bright" p || py_in "harsh" p)%bool then set_lighting "harsh" self
  else if py_in "dramatic" p then set_lighting "dramatic" self
  else self.

Definition interact (prompt : string) : Py t unit :=
  let prompt_lower := lower prompt in
  modify (move prompt_lower) ;;;
  modify (grip prompt_lower) ;;;
  modify (relight prompt_lower).

(** ** The stream life cycle of the mock *)

Definition set_stream (id : option string) (streaming : bool) (self : t) : t :=
  mk (connected self) id streaming (arm_x self) (arm_y self)
     (object_x self) (object_y self) (gripper_open self)
     (lighting self) (frame_count self).

Definition set_connected (b : bool) (self : t) : t :=
  mk b (current_stream_id self) (should_stream self) (arm_x self) (arm_y self)
     (object_x self) (object_y self) (gripper_open self)
     (lighting self) (frame_count self).

(** [_parse_prompt] *)
Definition _parse_prompt (prompt : string) (self : t) : t :=
  let prompt_lower := lower prompt in
  (* Parse lighting *)
  let self :=
    if (py_in "dim" prompt_lower || py_in "dark" prompt_lower)%bool
    then set_lighting "dim" self
    else if (py_in "harsh" prompt_lower || py_in "bright" prompt_lower)%bool
    then set_lighting "harsh" self
    else if py_in "dramatic" prompt_lower then set_lighting "dramatic" self
    else set_lighting "neutral" self in
  (* Reset positions for new stream *)
  set_gripper_open true (set_object (Int 400) (Int 450) (set_arm (Int 320) (Int 400) self)).

(** [connect]; the callbacks it stores are taken to return normally. *)
Definition connect : Py t bool :=
  modify (set_connected true) ;;; ret true.

(** [start_stream]; [hex8] is [uuid.uuid4().hex[:8]].  (The task it
    creates renders frames; it is not part of the model.) *)
Definition start_stream (hex8 : string) (prompt : string) (portrait : bool)
    : Py t string :=
  modify (set_stream (Some (String.append "mock_stream_" hex8)) true) ;;;
  modify (_parse_prompt prompt) ;;;
  self <~ get ;;
  ret (default EmptyString (current_stream_id self)).

Definition end_stream : Py t unit :=
  modify (set_stream None false).

Definition disconnect : Py t unit :=
  end_stream ;;; modify (set_connected false).

End MockOdysseyClient.

(* ===================================================================== *)
(** * adversarl/envs/odyssey_env.py: actions and steps                    *)
(* ===================================================================== *)

(** [sep.join(parts)] *)
Fixpoint join (sep : string) (parts : list string) : string :=
  match parts with
  | [] => EmptyString
  | [p] => p
  | p :: rest => String.append p (String.append sep (join sep rest))
  end.

(** Truth value of a [str]: only the empty string is false. *)
Definition non_empty (s : string) : bool :=
  match s with
  | EmptyString => false
  | String _ _ => true
  end.

Module OdysseyEnvStep.

(** An action as the agent hands it over: a scalar, given by what
    [int(action)] makes of it, or an array of four numbers, given by the
    binary64 values of its entries. *)
Inductive action : Type :=
  | Scalar (action_idx : Z)
  | Vector4 (dx dy dz gripper : float).

(** The two [action_map]s with their [.get(action_idx, "")]. *)
Definition navigation_map (action_idx : Z) : string :=
  match action_idx with
  | 0 => "move forward"
  | 1 => "move backward"
  | 2 => "turn left"
  | 3 => "turn right"
  | 4 => "stop and observe"
  | _ => EmptyString
  end.

Definition manipulation_map (action_idx : Z) : string :=
  match action_idx with
  | 0 => "move arm towards object"
  | 1 => "move arm away from object"
  | 2 => "move arm left"
  | 3 => "move arm right"
  | 4 => "close gripper"
  | _ => EmptyString
  end.

(** The [parts] of the continuous branch. *)
Definition continuous_parts (dx dy dz gripper : float) : list string :=
  (if (0.3 <? PrimFloat.abs dx)%float
   then [String.append "move arm " (if (0 <? dx)%float then "right" else "left")]
   else []) ++
  (if (0.3 <? PrimFloat.abs dy)%float
   then [String.append "move arm " (if (0 <? dy)%float then "forward" else "backward")]
   else []) ++
  (if (0.3 <? PrimFloat.abs dz)%float
   then [String.append "move arm " (if (0 <? dz)%float then "up" else "down")]
   else []) ++
  (if (0.5 <? gripper)%float then ["close gripper"%string]
   else if (gripper <? -0.5)%float then ["open gripper"%string]
   else []).

(** [_action_to_prompt], for the [action_type] and [task_type] of the
    environment.  [int(action)] of an array of four and the unpacking
    of a scalar into four raise [TypeError]. *)
Definition _action_to_prompt (action_type task_type : string) (a : action)
    : result string :=
  if String.eqb action_type "discrete" then
    match a with
    | Scalar action_idx =>
        if String.eqb task_type "navigation" then Ok (navigation_map action_idx)
        else if String.eqb task_type "manipulation"
        then Ok (manipulation_map action_idx)
        else Ok EmptyString
    | Vector4 _ _ _ _ =>
        Raise (Exception TypeError
                 "only length-1 arrays can be converted to Python scalars")
    end
  else (* continuous *)
    if String.eqb task_type "manipulation" then
      match a with
      | Vector4 dx dy dz gripper =>
          let parts := continuous_parts dx dy dz gripper in
          Ok (match parts with
              | [] => EmptyString
              | _ => join " and " parts
              end)
      | Scalar _ =>
          Raise (Exception TypeError "cannot unpack non-iterable int object")
      end
    else Ok EmptyString.

(** [_calculate_reward]: the placeholder. *)
Definition _calculate_reward : float := (-0.01)%float.

Section WithClient.
(** The transport behind [self.client] and the observations. *)
Context {Client Obs : Type}.

(** [self.client.interact(prompt)], run to its end on the event loop. *)
Variable client_interact : string -> Py Client unit.

(** The attributes [step] works with. *)
Record t : Type := mk {
  task_type : string;
  action_type : string;
  episode_length : Z;
  client : option Client;
  stream_id : option string;
  current_step : Z;
  episode_reward : float
}.

Definition set_client (c : option Client) (self : t) : t :=
  mk (task_type self) (action_type self) (episode_length self) c
     (stream_id self) (current_step self) (episode_reward self).

Definition set_current_step (n : Z) (self : t) : t :=
  mk (task_type self) (action_type self) (episode_length self) (client self)
     (stream_id self) n (episode_reward self).

Definition set_episode_reward (r : float) (self : t) : t :=
  mk (task_type self) (action_type self) (episode_length self) (client self)
     (stream_id self) (current_step self) r.

(** Running a method of [self.client]. *)
Definition on_client {A} (m : Py Client A) : Py t A :=
  fun self =>
    match client self with
    | None => (Raise (Exception AttributeError
                        "'NoneType' object has no attribute 'interact'"), self)
    | Some c => let '(r, c') := m c in (r, set_client (Some c') self)
    end.

(** What [step] returns; [info] is spelled out. *)
Record step_result : Type := StepResult {
  obs : Obs;
  reward : float;
  terminated : bool;
  truncated : bool;
  info_step : Z;
  info_episode_reward : float;
  info_stream_id : option string
}.

(** [step].  [observation] is what [_get_observation] does at this
    step: it returns the frame as an array, or raises. *)
Definition step (a : action) (observation : result Obs) : Py t step_result :=
  self <~ get ;;
  (* Convert action to Odyssey prompt *)
  prompt <~ lift (_action_to_prompt (action_type self) (task_type self) a) ;;
  (* Send interaction *)
  (if non_empty prompt
   then try_except (on_client (client_interact prompt)) (fun _ => ret tt)
   else ret tt) ;;;
  o <~ lift observation ;;
  let r := _calculate_reward in
  (* Check if done *)
  modify (fun self => set_current_step (current_step self + 1) self) ;;;
  self <~ get ;;
  let done := (episode_length self <=? current_step self)%Z in
  modify (fun self => set_episode_reward (episode_reward self + r)%float self) ;;;
  self <~ get ;;
  ret (StepResult o r done false (current_step self) (episode_reward self)
         (stream_id self)).

End WithClient.
Arguments t : clear implicits.
Arguments step_result : clear implicits.

End OdysseyEnvStep.

(* ===================================================================== *)
(** * adversarl/curriculum/strategies.py and controller.py                *)
(* ===================================================================== *)

(** [random.choice(seq)]: [IndexError] on an empty sequence, otherwise
    [seq[randbelow(len(seq))]], where [randbelow] stands for the draw of
    the generator at this call. *)
Definition random_choice {A} (randbelow : Z -> Z) (seq : list A) : result A :=
  match seq with
  | [] => Raise (Exception IndexError "Cannot choose from an empty sequence")
  | _ =>
      match seq !! Z.to_nat (randbelow (len seq)) with
      | Some x => Ok x
      | None => Raise (Exception IndexError "list index out of range")
      end
  end.

(** A [Dict[str, List[str]]] of perturbation categories: its items in
    insertion order, keys pairwise distinct. *)
Definition categories_dict : Type := list (string * list string).

(** [key in d] *)
Definition dict_has (d : categories_dict) (key : string) : bool :=
  existsb (fun item => String.eqb (fst item) key) d.

(** [d[key]] *)
Fixpoint dict_getitem (d : categories_dict) (key : string) : result (list string) :=
  match d with
  | [] => Raise (Exception KeyError key)
  | (k, v) :: rest => if String.eqb k key then Ok v else dict_getitem rest key
  end.

Module Strategies.
Section WithGenerator.
(** The draw of [random] at the one call of [random.choice]. *)
Variable randbelow : Z -> Z.


(** [RandomStrategy.select_perturbation] *)
Definition random_select (failure_modes : list string) (success_rate : float)
    (categories : categories_dict) : result string :=
  let all_perturbations := concat (map snd categories) in
  random_choice randbelow all_perturbations.

(** [TargetedStrategy.select_perturbation] *)
Definition targeted_select (failure_modes : list string) (success_rate : float)
    (categories : categories_dict) : result string :=
  match failure_modes with
  | category :: _ =>
      (* Target the most common failure mode *)
      if dict_has categories category then
        match dict_getitem categories category with
        | Ok perturbations => random_choice randbelow perturbations
        | Raise e => Raise e
        end
      else (* Fallback to random *)
        random_select failure_modes success_rate categories
  | [] => random_select failure_modes success_rate categories
  end.

(** The category [ProgressiveStrategy] aims at. *)
Definition progressive_category (success_rate : float) : string :=
  if (success_rate <? 0.3)%float then "visual"
  else if (success_rate <? 0.6)%float then "lighting"
  else "occlusion".

(** [ProgressiveStrategy.select_perturbation] *)
Definition progressive_select (failure_modes : list string)
    (success_rate : float) (categories : categories_dict) : result string :=
  let category := progressive_category success_rate in
  if dict_has categories category then
    match dict_getitem categories category with
    | Ok perturbations => random_choice randbelow perturbations
    | Raise e => Raise e
    end
  else random_select failure_modes success_rate categories.

End WithGenerator.
End Strategies.

Module CurriculumController.

(** [_default_perturbations] *)
Definition _default_perturbations : categories_dict :=
  [("lighting",
    ["switch to harsh overhead fluorescent lighting";
     "dim the lights significantly";
     "add dramatic side lighting with strong shadows"]);
   ("occlusion",
    ["place a transparent object partially blocking the view";
     "add some clutter near the target"]);
   ("visual",
    ["desaturate the scene";
     "change colors to be more similar";
     "add visual noise to the image"]);
   ("distraction",
    ["add colorful objects in the background";
     "place similar objects nearby"])]%string.

(** The attributes of the controller that the selection reads. *)
Record t : Type := mk {
  model : string;
  perturbation_categories : categories_dict
}.

Definition default_model : string := "claude-sonnet-4.5".

(** [__init__]: a missing or empty dict gives way to the defaults. *)
Definition __init__ (model : string)
    (perturbation_categories : option categories_dict) : t :=
  mk model
     (match perturbation_categories with
      | None | Some [] => _default_perturbations
      | Some d => d
      end).

(** [select_perturbation]; [intensity] is not used. *)
Definition select_perturbation (randbelow : Z -> Z) (failure_category : string)
    (intensity : float) (self : t) : result string :=
  let d := perturbation_categories self in
  match (if negb (dict_has d failure_category)
         then index (map fst d) 0
         else Ok failure_category) with
  | Raise e => Raise e
  | Ok failure_category =>
      match dict_getitem d failure_category with
      | Raise e => Raise e
      | Ok prompts => random_choice randbelow prompts
      end
  end.

End CurriculumController.

(* ===================================================================== *)
(** * adversarl/specification/spec_loader.py                              *)
(* ===================================================================== *)

Module SpecLoader.

(** [TrainingSpec].  The dataclass checks no types: each field holds
    whatever value it is given. *)
Record TrainingSpec : Type := mkSpec {
  task_type : json;
  success_criteria : json;
  environment_prompt : json;
  perturbations : json;
  action_space : json;
  observation : json;
  episode_length : json;
  reward_structure : json
}.

(** [TrainingSpec.to_dict] *)
Definition to_dict (self : TrainingSpec) : json :=
  JObject [("task_type", task_type self);
           ("success_criteria", success_criteria self);
           ("environment_prompt", environment_prompt self);
           ("perturbations", perturbations self);
           ("action_space", action_space self);
           ("observation", observation self);
           ("episode_length", episode_length self);
           ("reward_structure", reward_structure self)]%string.

(** How [load_training_spec] ends: with a specification, with the
    module's own [SpecificationError], or with another exception. *)
Inductive outcome : Type :=
  | Loaded (spec : TrainingSpec)
  | SpecificationError (message : string)
  | OtherError (e : exn).

Definition required_fields : list string :=
  ["task_type"; "success_criteria"; "environment_prompt";
   "perturbations"; "action_space"; "observation"; "episode_length"]%string.

Definition default_reward_structure : json :=
  JObject [("success", JFloat 1.0); ("step_penalty", JFloat (-0.01));
           ("distance_shaping", JBool true)]%string.

(** [field in spec_data], for whatever [json.load] returned. *)
Definition contains (spec_data : json) (field : string) : result bool :=
  match spec_data with
  | JObject items => Ok (existsb (fun item => String.eqb (fst item) field) items)
  | JArray elems =>
      Ok (existsb (fun e => match e with
                            | JString s => String.eqb s field
                            | _ => false
                            end) elems)
  | JString s => Ok (py_in field s)
  | _ => Raise (Exception TypeError
                  (String.append "argument of type '"
                     (String.append (type_name spec_data) "' is not iterable")))
  end.

(** [[field for field in fields if field not in spec_data]] *)
Fixpoint missing_among (spec_data : json) (fields : list string)
    : result (list string) :=
  match fields with
  | [] => Ok []
  | field :: rest =>
      match contains spec_data field with
      | Raise e => Raise e
      | Ok present =>
          match missing_among spec_data rest with
          | Raise e => Raise e
          | Ok missing => Ok (if present then missing else field :: missing)
          end
      end
  end.

(** [spec_data[key]] for a text key. *)
Fixpoint items_getitem (items : list (string * json)) (key : string) : result json :=
  match items with
  | [] => Raise (Exception KeyError key)
  | (k, v) :: rest => if String.eqb k key then Ok v else items_getitem rest key
  end.

Definition getitem (spec_data : json) (key : string) : result json :=
  match spec_data with
  | JObject items => items_getitem items key
  | JArray _ =>
      Raise (Exception TypeError "list indices must be integers or slices, not str")
  | JString _ => Raise (Exception TypeError "string indices must be integers")
  | _ => Raise (Exception TypeError
                  (String.append "'" (String.append (type_name spec_data)
                     "' object is not subscriptable")))
  end.

(** The part of [load_training_spec] after the file has been read. *)
Definition build (spec_data : json) : outcome :=
  (* Validate required fields *)
  match missing_among spec_data required_fields with
  | Raise e => OtherError e
  | Ok ((_ :: _) as missing_fields) =>
      SpecificationError
        (String.append "Specification missing required fields: "
           (join ", " missing_fields))
  | Ok [] =>
      (* Create TrainingSpec object *)
      match getitem spec_data "task_type",
            getitem spec_data "success_criteria",
            getitem spec_data "environment_prompt",
            getitem spec_data "perturbations",
            getitem spec_data "action_space",
            getitem spec_data "observation",
            getitem spec_data "episode_length",
            py_get spec_data "reward_structure" default_reward_structure
      with
      | Ok a, Ok b, Ok c, Ok d, Ok e, Ok f, Ok g, Ok h =>
          Loaded (mkSpec a b c d e f g h)
      | Raise x, _, _, _, _, _, _, _
      | Ok _, Raise x, _, _, _, _, _, _
      | Ok _, Ok _, Raise x, _, _, _, _, _
      | Ok _, Ok _, Ok _, Raise x, _, _, _, _
      | Ok _, Ok _, Ok _, Ok _, Raise x, _, _, _
      | Ok _, Ok _, Ok _, Ok _, Ok _, Raise x, _, _
      | Ok _, Ok _, Ok _, Ok _, Ok _, Ok _, Raise x, _
      | Ok _, Ok _, Ok _, Ok _, Ok _, Ok _, Ok _, Raise x => OtherError x
      end
  end.

(** [load_training_spec].  [config_path] is the path as text; [file] is
    what the file system and [json.load] do with it: there is no such
    file ([None]), or opening and parsing it raises, or it parses. *)
Definition load_training_spec (config_path : string)
    (file : option (result json)) : outcome :=
  match file with
  | None =>
      SpecificationError
        (String.append "Training specification not found at "
           (String.append config_path
              ". Please generate a specification using the goal input interface."))
  | Some (Raise e) =>
      if exn_class_eqb (exn_cls e) JSONDecodeError
      then SpecificationError
             (String.append "Invalid JSON in specification file: " (exn_str e))
      else OtherError e
  | Some (Ok spec_data) => build spec_data
  end.

(** [get_default_spec] *)
Definition get_default_spec : TrainingSpec :=
  mkSpec (JString "tabletop_pick_and_place")
         (JString "Object placed in target zone within 5cm tolerance")
         (JString "Robot arm on white table with red cube, clean workshop lighting, industrial setting")
         (JArray [JString "lighting"; JString "occlusion"; JString "texture";
                  JString "clutter"])
         (JString "6dof_end_effector")
         (JString "rgb_camera_720p")
         (JInt 50)
         default_reward_structure.

End SpecLoader.

(* ===================================================================== *)
(** * main.py: TrainingSimulator                                          *)
(* ===================================================================== *)

(** Truth value of a JSON value. *)
Definition json_truthy (v : json) : bool :=
  match v with
  | JNull => false
  | JBool b => b
  | JInt z => negb (z =? 0)%Z
  | JFloat f => negb (f =? 0)%float
  | JString s => non_empty s
  | JArray [] => false
  | JArray _ => true
  | JObject [] => false
  | JObject _ => true
  end.

(** [min(a, b)] and [max(a, b)] with an [int] first argument and a
    [float] second one: the [int] is kept unless the [float] compares
    strictly below (above) it. *)
Definition py_min_int (a : Z) (b : float) : num :=
  if (b <? num_to_float (Int a))%float then Flt b else Int a.

Definition py_max_int (a : Z) (b : num) : num :=
  if (num_to_float (Int a) <? num_to_float b)%float then b else Int a.

Module TrainingSimulator.

(** The attributes the simulator works with once it is set up.  The
    success rate starts as the float 0.0 and becomes the [int] 0 or 1
    whenever the clamp cuts it off. *)
Record t : Type := mk {
  episode : Z;
  success_rate : num;
  base_reward : float;
  curriculum_phase : Z;
  recent_failures : list string;
  llm_judge : option LLMJudge.t
}.

(** The attributes as [__init__] sets them, given the judge it ends up
    with ([None] without a key or when the judge is not asked for). *)
Definition initial (llm_judge : option LLMJudge.t) : t :=
  mk 0 (Flt 0) 0 0 [] llm_judge.

(** What [get_metrics] returns. *)
Record metrics : Type := Metrics {
  metrics_episode : Z;
  metrics_success_rate : num;
  metrics_reward : float;
  metrics_timestamp : string
}.

(** [f"Episode {episode}: Failed manipulation task"] *)
Definition failure_message (episode : Z) : string :=
  String.append "Episode "
    (String.append (pretty episode) ": Failed manipulation task").

(** [episode / 500] *)
Definition five_hundredth (episode : Z) : float :=
  match int_true_divide episode 500 with
  | Ok q => q
  | Raise _ => 0%float
  end.

(** [get_metrics].  [gauss1], [gauss2] and [uniform] are the draws of
    [random.gauss(0, 0.02)], [random.gauss(0, 1)] and [random.random()];
    [now] is [datetime.now().isoformat()]. *)
Definition get_metrics (gauss1 gauss2 uniform : float) (now : string)
    : Py t metrics :=
  fun self =>
    let episode := episode self + 1 in
    (* Success rate improves gradually with noise *)
    let target_success := py_min 0.95 (five_hundredth episode) in
    let success_rate :=
      num_add (success_rate self)
              (num_mul (num_sub (Flt target_success) (success_rate self))
                       (Flt 0.05)) in
    let success_rate :=
      py_max_int 0 (py_min_int 1 (num_to_float (num_add success_rate (Flt gauss1)))) in
    (* Reward scales with success rate *)
    let base_reward :=
      num_to_float (num_add (num_mul success_rate (Int 10)) (Flt gauss2)) in
    (* Track failures for LLM judge *)
    let episode_success :=
      ((0.5 <? num_to_float success_rate)%float
       && (uniform <? num_to_float success_rate)%float)%bool in
    let recent_failures :=
      if negb episode_success then
        let fs := recent_failures self ++ [failure_message episode] in
        if (10 <? len fs)%Z then tail fs else fs
      else recent_failures self in
    (* Update LLM judge's success window *)
    let llm_judge :=
      match llm_judge self with
      | Some judge => Some (snd (LLMJudge.update_success_window episode_success judge))
      | None => None
      end in
    (Ok (Metrics episode success_rate base_reward now),
     mk episode success_rate base_reward (curriculum_phase self)
        recent_failures llm_judge).

(** [should_send_perturbation]; [randint] is the draw of
    [random.randint(5, 15)]. *)
Definition should_send_perturbation (randint : Z) : Py t bool :=
  self <~ get ;;
  if (0 <? episode self)%Z then
    remainder <~ lift (CurriculumCallback.py_mod (episode self) randint) ;;
    ret (remainder =? 0)%Z
  else ret false.

(** The dictionary [get_llm_judgment] returns. *)
Record judgment_dict : Type := JudgmentDict {
  dict_observation : json;
  dict_failure_mode : json;
  dict_reasoning : json;
  dict_curriculum_prompt : json;
  dict_difficulty : float;
  dict_success_rate : float;
  dict_timestamp : Z;
  dict_judge_type : string
}.

Definition set_llm_judge (j : option LLMJudge.t) (self : t) : t :=
  mk (episode self) (success_rate self) (base_reward self)
     (curriculum_phase self) (recent_failures self) j.

(** Running a method of [self.llm_judge]. *)
Definition on_judge {A} (m : Py LLMJudge.t A) : Py t A :=
  fun self =>
    match llm_judge self with
    | None => (Raise (Exception AttributeError
                        "'NoneType' object has no attribute"), self)
    | Some judge =>
        let '(r, judge') := m judge in (r, set_llm_judge (Some judge') self)
    end.

Section WithParser.
Variable json_loads : string -> result json.

(** [get_llm_judgment]; [now] and [outcome] are the clock and the
    behaviour of the service during [evaluate_performance]. *)
Definition get_llm_judgment (now : Z) (outcome : LLMJudge.api_outcome)
    : Py t (option judgment_dict) :=
  self <~ get ;;
  match llm_judge self with
  | None => ret None
  | Some _ =>
      try_except
        (success_rate <~ on_judge LLMJudge.get_success_rate ;;
         judgment <~ on_judge
                       (LLMJudge.evaluate_performance json_loads now outcome) ;;
         ret (Some (JudgmentDict
                      (LLMJudge.observation judgment)
                      (LLMJudge.failure_mode judgment)
                      (LLMJudge.reasoning judgment)
                      (LLMJudge.curriculum_prompt judgment)
                      (LLMJudge.difficulty_level judgment)
                      success_rate
                      (LLMJudge.timestamp judgment)
                      "llm")))
        (fun _ => ret None)
  end.

End WithParser.

(** The test of the socket loop before it sends a perturbation:
    [judgment and judgment['curriculum_prompt']]. *)
Definition sends_perturbation (judgment : option judgment_dict) : bool :=
  match judgment with
  | Some d => json_truthy (dict_curriculum_prompt d)
  | None => false
  end.

End TrainingSimulator.

(* ===================================================================== *)
(** * Vocabulary of the statements                                        *)
(* ===================================================================== *)

(** The definitions of this part belong to the statements proved below,
    not to the program: the notions the specification uses, the states the
    program can be in, and the inputs of the worked examples. *)


(** The newest [n] entries of a history, oldest first. *)
Definition keep_last {A} (n : Z) (l : list A) : list A :=
  drop (length l - Z.to_nat n) l.



(** The closed interval the difficulty is meant to stay in. *)
Definition in_range (d : float) : Prop :=
  (0.1 <=? d)%float = true /\ (d <=? 1.0)%float = true.

(** The delta-acceptance step of the specification -- restricting a raw
    delta to [-0.1, 0.1] -- and the update it would give.  The judge has no
    such step; these two definitions follow the specification's words. *)
Definition spec_clamp_delta (x : float) : float := py_max (-0.1) (py_min 0.1 x).
Definition spec_difficulty_update (d x : float) : float :=
  py_max 0.1 (py_min 1.0 (d + spec_clamp_delta x)).

(** A text with a double quote on both sides. *)
Definition quoted (s : string) : string :=
  String (ascii_of_nat 34) (String.append s (String (ascii_of_nat 34) EmptyString)).

(** The reply [{"difficulty_adjustment": <number>}]. *)
Definition delta_reply (number : string) : string :=
  String.append "{" (String.append (quoted "difficulty_adjustment")
    (String.append ": " (String.append number "}"))).

(** [json.loads] on the handful of reply texts the examples use; any other
    text is taken to be no JSON at all, which is what the remaining
    example text ([I cannot help with that]) is. *)
Definition json_loads_examples (s : string) : result json :=
  if String.eqb s "{}" then Ok (JObject [])
  else if String.eqb s (delta_reply "0.1")
  then Ok (JObject [("difficulty_adjustment"%string, JFloat 0.1)])
  else if String.eqb s (delta_reply "-0.1")
  then Ok (JObject [("difficulty_adjustment"%string, JFloat (-0.1))])
  else if String.eqb s (delta_reply "-0.3")
  then Ok (JObject [("difficulty_adjustment"%string, JFloat (-0.3))])
  else Raise (Exception JSONDecodeError "Expecting value: line 1 column 1 (char 0)").

Module FailureDetectorSpec.
Import FailureDetector.

(** Every configured category has a tally. *)
Definition keys_ok (cats : list string) (m : gmap string Z) : Prop :=
  forall c, c ∈ cats -> is_Some (m !! c).

(** The windows respect their bound and the tally has its keys. *)
Definition well_formed (self : t) : Prop :=
  0 <= window_size self /\
  len (episode_rewards self) <= window_size self /\
  len (episode_successes self) <= window_size self /\
  len (episode_lengths self) <= window_size self /\
  keys_ok (categories self) (failure_counts self).

(** The detectors the class can produce: built by [__init__], then
    driven through [record_episode] and [reset_statistics]. *)
Inductive reachable : t -> Prop :=
  | reach_init ws msr cats self :
      __init__ ws msr cats = Ok self -> reachable self
  | reach_record self reward success length conditions r self' :
      reachable self ->
      record_episode reward success length conditions self = (r, self') ->
      reachable self'
  | reach_reset self r self' :
      reachable self -> reset_statistics self = (r, self') -> reachable self'.

(** The tally loop of [record_episode], for the lower-cased label
    [lowered], and what it adds to the tally of [k]. *)
Definition tally_loop (lowered : string) (cats : list string) : Py t unit :=
  for_each cats (fun category =>
    if py_in category lowered then increment category else ret tt).

Definition hits (lowered : string) (cats : list string) (k : string) : Z :=
  if py_in k lowered then Z.of_nat (count_occ string_dec cats k) else 0.

(** What one call of [record_episode] adds to the tally of [k]. *)
Definition tally_increment (cats : list string) (success : bool)
    (conditions : option string) (k : string) : Z :=
  if (negb success && truthy conditions)%bool
  then hits (lower (default EmptyString conditions)) cats k
  else 0.

(** The rolling success rate of a window: successes over recorded
    episodes, and 0.0 for the empty window. *)
Definition success_ratio (window : list bool) : float :=
  match window with
  | [] => 0%float
  | _ => (size_to_float (Z.of_nat (count_occ bool_dec window true))
          / size_to_float (len window))%float
  end.

(** A detector with the two categories of the specification's example. *)
Definition lighting_occlusion_detector : t :=
  mk 100 0.3%float ["lighting"; "occlusion"]%string [] [] []
     (zero_counts ["lighting"; "occlusion"]%string) "neutral".

(** An episode that failed, with no condition label. *)
Definition failed_episode : episode := Episode (-1)%float false 200 None.

End FailureDetectorSpec.


Module LLMJudgeSpec.
Import LLMJudge.

(** [evaluation_fails json_loads d outcome e]: on a judge whose
    difficulty is [d], the [try] block raises [e].  One constructor per
    place where it can. *)
Inductive evaluation_fails (json_loads : string -> result json) (d : float)
    : api_outcome -> exn -> Prop :=
  | fails_service e :
      evaluation_fails json_loads d (ApiRaises e) e
  | fails_no_choice :
      evaluation_fails json_loads d (ApiReturns [])
        (Exception IndexError "list index out of range")
  | fails_no_text rest :
      evaluation_fails json_loads d (ApiReturns (None :: rest))
        (Exception TypeError "argument of type 'NoneType' is not iterable")
  | fails_extract text rest e :
      extract_json text = Raise e ->
      evaluation_fails json_loads d (ApiReturns (Some text :: rest)) e
  | fails_unparsable text rest inner e :
      extract_json text = Ok inner ->
      json_loads (strip inner) = Raise e ->
      evaluation_fails json_loads d (ApiReturns (Some text :: rest)) e
  | fails_not_object text rest inner v e :
      extract_json text = Ok inner ->
      json_loads (strip inner) = Ok v ->
      py_get v "difficulty_adjustment" (JInt 0) = Raise e ->
      evaluation_fails json_loads d (ApiReturns (Some text :: rest)) e
  | fails_adjustment text rest inner items e :
      extract_json text = Ok inner ->
      json_loads (strip inner) = Ok (JObject items) ->
      float_add d (items_get items "difficulty_adjustment" (JInt 0)) = Raise e ->
      evaluation_fails json_loads d (ApiReturns (Some text :: rest)) e.

(** The judgment the handler builds. *)
Definition fallback_judgment (now : Z) (e : exn) (d : float) : JudgmentResult :=
  mkJudgment now (JString "Unable to evaluate - LLM error occurred")
    (JString "llm_evaluation_error") (JString (exn_str e)) JNull d.

(** The judgment built from a reply that parsed to the object [items],
    once the difficulty has become [d]. *)
Definition normal_judgment (now : Z) (items : list (string * json)) (d : float)
    : JudgmentResult :=
  mkJudgment now
    (items_get items "observation" (JString EmptyString))
    (items_get items "failure_mode" JNull)
    (items_get items "reasoning" (JString EmptyString))
    (items_get items "curriculum_prompt" JNull)
    d.

(** A sequence of calls of [evaluate_performance], each with the clock
    reading and the behaviour of the service at that call. *)
Definition evaluate_all (json_loads : string -> result json)
    (calls : list (Z * api_outcome)) : Py t unit :=
  for_each calls (fun call =>
    _ <~ evaluate_performance json_loads (fst call) (snd call) ;; ret tt).

End LLMJudgeSpec.


Module OdysseyEnvSpec.
Import OdysseyEnv.

(** The state of a buffer of the given capacity after the frames
    [pushed] have arrived: the queue holds the newest [capacity] of
    them, everything older has been evicted, and the latest frame is the
    last one. *)
Definition buffer_after {Frame : Type} (capacity : Z) (pushed : list Frame)
    : t Frame :=
  mk Frame (Queue.mk capacity (keep_last capacity pushed))
     (last pushed)
     (take (length pushed - Z.to_nat capacity) pushed).

End OdysseyEnvSpec.

Module CurriculumCallbackSpec.
Import CurriculumCallback.

(** The callback as [train] sets it up with the defaults of the two
    classes: a window of 100 episodes, a threshold of 0.3, the four
    default categories, an adaptation every 50 episodes. *)
Definition default_detector : FailureDetector.t :=
  FailureDetector.mk FailureDetector.default_window_size
    FailureDetector.default_min_success_rate
    FailureDetector.default_categories [] [] []
    (FailureDetector.zero_counts FailureDetector.default_categories)
    "neutral".

Definition default_callback : t :=
  __init__ default_detector default_adaptation_frequency.

(** One step that ends an episode with the reward -0.01 (the reward the
    environment gives for every step), so a failed episode; were the
    controller called, it would answer with a perturbation. *)
Definition failing_step : float * bool * result string :=
  ((-0.01)%float, true, Ok "dim the lights significantly"%string).

(** The same step with a controller that raises when called. *)
Definition failing_step_controller_down : float * bool * result string :=
  ((-0.01)%float, true, Raise (Exception ServiceError "connection refused")).

(** The callback after [n] failed one-step episodes. *)
Definition after_failed_episodes (n : nat) : t :=
  snd (steps (repeat failing_step n) default_callback).

End CurriculumCallbackSpec.


(* ===================================================================== *)
(** * Further vocabulary                                                  *)
(* ===================================================================== *)

Module FailureDetectorHistory.
Import FailureDetector.

(** The detectors that [record_episode] and [reset_statistics] lead to
    from a given one. *)
Inductive reachable_from (self0 : t) : t -> Prop :=
  | from_start : reachable_from self0 self0
  | from_record self reward success length conditions r self' :
      reachable_from self0 self ->
      record_episode reward success length conditions self = (r, self') ->
      reachable_from self0 self'
  | from_reset self r self' :
      reachable_from self0 self ->
      reset_statistics self = (r, self') ->
      reachable_from self0 self'.

(** The tally of a category, 0 for a name that has none. *)
Definition tally (self : t) (k : string) : Z :=
  default 0 (failure_counts self !! k).

End FailureDetectorHistory.

Module LLMJudgeHistory.
Import LLMJudge.

(** A run of [update_success_window], oldest outcome first. *)
Definition update_all (outcomes : list bool) : Py t unit :=
  for_each outcomes update_success_window.

(** A rate between 0 and 1, bounds included. *)
Definition is_rate (r : float) : Prop :=
  (0 <=? r)%float = true /\ (r <=? 1)%float = true.

End LLMJudgeHistory.

(** The backtick, of which the Markdown fences are made. *)
Definition backtick : ascii := ascii_of_nat 96.

(** A text without any backtick. *)
Fixpoint no_backtick (s : string) : bool :=
  match s with
  | EmptyString => true
  | String c s' => negb (Ascii.eqb c backtick) && no_backtick s'
  end.

Module CurriculumCallbackRuns.
Import CurriculumCallback.

(** How many of the steps of a run end an episode. *)
Definition episodes_ended (inputs : list (float * bool * result string)) : Z :=
  len (filter (fun i => snd (fst i) = true) inputs).

(** The perturbations the controller would answer with during a run. *)
Definition offered (inputs : list (float * bool * result string)) : list string :=
  omap (fun i => match snd i with Ok p => Some p | Raise _ => None end) inputs.

End CurriculumCallbackRuns.

Module OdysseyClientTrace.
Import OdysseyClient.

(** What is done with a client, one call after the other: the calls of
    the program and the messages of the server. *)
Inductive event : Type :=
  | DoStartStream (during : list server_message) (object_id prompt : string)
                  (portrait : bool)
  | DoInteract (prompt : string)
  | DoEndStream
  | Receive (data : server_message).

(** One event; an exception raised by a call is the caller's to handle
    and does not stop what follows. *)
Definition do_event (cb : callbacks) (e : event) (self : t) : t :=
  match e with
  | DoStartStream during object_id prompt portrait =>
      snd (start_stream cb during object_id prompt portrait self)
  | DoInteract prompt => snd (interact prompt self)
  | DoEndStream => snd (end_stream self)
  | Receive data => snd (_handle_message cb data self)
  end.

Definition do_events (cb : callbacks) (events : list event) (self : t) : t :=
  fold_left (fun s e => do_event cb e s) events self.

(** The stream identifiers the server has announced in the course of
    the events. *)
Definition announced_in (msgs : list server_message) : list string :=
  omap (fun data => match data with
                    | StreamStarted (Some id) => Some id
                    | _ => None
                    end) msgs.

Definition announced (events : list event) : list string :=
  concat (map (fun e => match e with
                        | DoStartStream during _ _ _ => announced_in during
                        | Receive data => announced_in [data]
                        | _ => []
                        end) events).

(** The stream identifier of a message sent, if it carries one. *)
Definition message_stream_id (m : message) : option string :=
  match m with
  | StartStream _ _ => None
  | Interact _ id => Some id
  | EndStream id => Some id
  end.

(** The identifier a client holds after handling some messages: that
    of the last [stream_started] among them. *)
Fixpoint after_messages (msgs : list server_message) (id : option string)
    : option string :=
  match msgs with
  | [] => id
  | StreamStarted id' :: rest => after_messages rest id'
  | _ :: rest => after_messages rest id
  end.

(** The messages written to the socket so far (none before [connect]). *)
Definition sent_so_far (self : t) : list message := default [] (ws self).

(** The invariant of the stream identifier: if the client holds a
    usable one, the server announced it. *)
Definition id_announced (A : list string) (self : t) : Prop :=
  forall id, current_stream_id self = Some id -> truthy (Some id) = true -> id ∈ A.

Definition ids_fine (A : list string) (add : list message) : Prop :=
  forall m id, m ∈ add -> message_stream_id m = Some id ->
    truthy (Some id) = true /\ id ∈ A.

End OdysseyClientTrace.

Module OdysseyEnvRuns.
Import OdysseyEnvStep.












(** A run of [step] calls, each with its action and what
    [_get_observation] does at that step; the results in order. *)
Fixpoint steps {Client Obs : Type} (client_interact : string -> Py Client unit)
    (inputs : list (action * result Obs))
    : Py (t Client) (list (step_result Obs)) :=
  match inputs with
  | [] => ret []
  | (a, observation) :: rest =>
      r <~ step client_interact a observation ;;
      rs <~ steps client_interact rest ;;
      ret (r :: rs)
  end.

(** What the [k]-th step (counted from 1) of a run that starts at step
    [start] reports, but for the observation and the episode reward. *)
Definition reports {Obs : Type} (episode_length start : Z)
    (sid : option string) (k : Z) (r : step_result Obs) : Prop :=
  reward r = _calculate_reward /\
  terminated r = (episode_length <=? start + k) /\
  truncated r = false /\
  info_step r = start + k /\
  info_stream_id r = sid.

Definition returns {A : Type} (r : result A) : bool :=
  match r with
  | Ok _ => true
  | Raise _ => false
  end.

(** The inputs of a run on which neither [_action_to_prompt] nor
    [_get_observation] raises. *)
Definition well_typed {Obs : Type} (action_type task_type : string)
    (inputs : list (action * result Obs)) : bool :=
  forallb (fun i => returns (_action_to_prompt action_type task_type (fst i))
                    && returns (snd i))%bool inputs.

End OdysseyEnvRuns.

Module MockTrace.
Import MockOdysseyClient.

(** The calls made on a mock client, one after the other. *)
Inductive call : Type :=
  | Connect
  | StartStream (hex8 prompt : string) (portrait : bool)
  | Interact (prompt : string)
  | EndStream
  | Disconnect.

Definition do_call (c : call) (self : t) : t :=
  match c with
  | Connect => snd (connect self)
  | StartStream hex8 prompt portrait => snd (start_stream hex8 prompt portrait self)
  | Interact prompt => snd (interact prompt self)
  | EndStream => snd (end_stream self)
  | Disconnect => snd (disconnect self)
  end.

Definition do_calls (calls : list call) (self : t) : t :=
  fold_left (fun s c => do_call c s) calls self.

(** The four lightings [_render_frame] knows. *)
Definition known_lighting (l : string) : Prop :=
  l ∈ ["neutral"; "dim"; "harsh"; "dramatic"]%string.

(** The stream flag and the stream identifier go together, and the
    lighting is a known one. *)
Definition consistent (self : t) : Prop :=
  should_stream self = truthy (current_stream_id self) /\
  known_lighting (lighting self).

End MockTrace.

Module CurriculumChoice.

(** A generator keeps its promise: the draw for [n] is below [n]. *)
Definition draws_below (randbelow : Z -> Z) : Prop :=
  forall n, 0 < n -> 0 <= randbelow n < n.

(** The perturbation [p] is one of those listed in [categories]. *)
Definition offers (categories : categories_dict) (p : string) : Prop :=
  exists k ps, (k, ps) ∈ categories /\ p ∈ ps.

(** The only failure left to [random.choice]. *)
Definition nothing_to_choose : exn :=
  Exception IndexError "Cannot choose from an empty sequence".

(** An outcome of a selection that is in order: a listed perturbation,
    or the complaint of [random.choice] about an empty list. *)
Definition chosen_from (categories : categories_dict) (r : result string) : Prop :=
  match r with
  | Ok p => offers categories p
  | Raise e => e = nothing_to_choose
  end.

End CurriculumChoice.

Module SpecLoaderVocabulary.
Import SpecLoader.

(** The required fields that the object with the given items lacks, in
    the order of [required_fields]. *)
Definition missing_fields (items : list (string * json)) : list string :=
  filter (fun field => existsb (fun item => String.eqb (fst item) field) items = false)
         required_fields.

(** The specification read off the items of an object. *)
Definition spec_of_items (items : list (string * json)) : TrainingSpec :=
  mkSpec (items_get items "task_type" JNull)
         (items_get items "success_criteria" JNull)
         (items_get items "environment_prompt" JNull)
         (items_get items "perturbations" JNull)
         (items_get items "action_space" JNull)
         (items_get items "observation" JNull)
         (items_get items "episode_length" JNull)
         (items_get items "reward_structure" default_reward_structure).

Definition is_object (v : json) : bool :=
  match v with
  | JObject _ => true
  | _ => false
  end.

Definition is_scalar (v : json) : bool :=
  match v with
  | JNull | JBool _ | JInt _ | JFloat _ => true
  | _ => false
  end.

End SpecLoaderVocabulary.

Module SimulatorRuns.
Import TrainingSimulator.

(** What one call of [get_metrics] draws and reads off the clock. *)
Record draw : Type := Draw {
  gauss1 : float;
  gauss2 : float;
  uniform : float;
  now : string
}.

(** A run of [get_metrics] calls; the metrics in order. *)
Fixpoint run (draws : list draw) : Py t (list metrics) :=
  match draws with
  | [] => ret []
  | d :: rest =>
      m <~ get_metrics (gauss1 d) (gauss2 d) (uniform d) (now d) ;;
      ms <~ run rest ;;
      ret (m :: ms)
  end.

(** A success rate between 0 and 1, bounds included. *)
Definition rate_ok (r : num) : Prop :=
  LLMJudgeHistory.is_rate (num_to_float r).

(** A judge that has only been fed outcomes, [n] of them. *)
Definition judge_fed (n : Z) (judge : LLMJudge.t) : Prop :=
  LLMJudge.window_size judge = 10 /\
  len (LLMJudge.success_window judge) = Z.min n 10 /\
  LLMJudge.difficulty judge = 0.3%float /\
  LLMJudge.evaluation_history judge = [].

(** The state of a simulator after [n] episodes. *)
Definition after_episodes (n : Z) (self : t) : Prop :=
  episode self = n /\
  0 <= n /\
  rate_ok (success_rate self) /\
  len (recent_failures self) <= 10 /\
  Forall (fun msg => exists k, 1 <= k <= n /\ msg = failure_message k)
         (recent_failures self) /\
  match llm_judge self with
  | Some judge => judge_fed n judge
  | None => True
  end.

End SimulatorRuns.

(* ===================================================================== *)
(** * Facts about the runtime                                             *)
(* ===================================================================== *)


(** Unfolding the plumbing of the method monad. *)
Ltac py_unfold := cbv beta iota delta [bind modify ret get lift raise].
Tactic Notation "py_unfold" "in" hyp(H) :=
  cbv beta iota delta [bind modify ret get lift raise] in H.

(** One turn of a [for] loop. *)
Lemma for_each_cons {S X} (x : X) (xs : list X) (body : X -> Py S unit) (s : S) :
  for_each (x :: xs) body s =
  match body x s with
  | (Ok _, s') => for_each xs body s'
  | (Raise e, s') => (Raise e, s')
  end.
Proof. reflexivity. Qed.

(** On floats, strictly below implies below or equal (NaN is neither). *)
Lemma float_ltb_leb (x y : float) : (x <? y)%float = true -> (x <=? y)%float = true.
Proof.
  rewrite ltb_spec, leb_spec. unfold SFltb, SFleb.
  destruct (SFcompare _ _) as [[]|]; congruence.
Qed.

(** [max(0.1, min(1.0, x))] lies in [0.1, 1.0] for every float [x],
    NaN and the infinities included. *)
Lemma clamp_in_range (x : float) : in_range (py_max 0.1 (py_min 1.0 x)).
Proof.
  unfold in_range, py_max, py_min.
  destruct (x <? 1)%float eqn:Hhi.
  - destruct (0.1 <? x)%float eqn:Hlo.
    + split; now apply float_ltb_leb.
    + split; vm_compute; reflexivity.
  - replace (0.1 <? 1)%float with true by (vm_compute; reflexivity).
    split; vm_compute; reflexivity.
Qed.

Lemma keep_last_all {A} (n : Z) (l : list A) :
  len l <= n -> keep_last n l = l.
Proof.
  unfold keep_last, len. intros H.
  replace (length l - Z.to_nat n)%nat with 0%nat by lia. reflexivity.
Qed.

Lemma keep_last_length {A} (n : Z) (l : list A) :
  0 <= n -> len (keep_last n l) = Z.min n (len l).
Proof.
  unfold keep_last, len. intros H. rewrite length_drop. lia.
Qed.

Lemma keep_last_app {A} (n : Z) (l r : list A) :
  keep_last n (keep_last n l ++ r) = keep_last n (l ++ r).
Proof.
  unfold keep_last. rewrite !length_app, length_drop.
  destruct (Nat.le_gt_cases (length l) (Z.to_nat n)) as [Hle|Hgt].
  - replace (length l - Z.to_nat n)%nat with 0%nat by lia.
    rewrite drop_0. f_equal. lia.
  - rewrite <- (drop_app_le l r (length l - Z.to_nat n)) by lia.
    rewrite drop_drop. f_equal. lia.
Qed.

(** A bounded deque keeps the newest [maxlen] entries. *)
Lemma deque_append_keep_last {A} (n : Z) (d : list A) (x : A) :
  len d <= n -> deque_append n d x = keep_last n (d ++ [x]).
Proof.
  unfold deque_append, keep_last, len. intros H.
  rewrite length_app. simpl length.
  destruct (Z.ltb_spec n (Z.of_nat (length d + 1))) as [Hlt|Hge].
  - replace (length d + 1 - Z.to_nat n)%nat with 1%nat by lia. reflexivity.
  - replace (length d + 1 - Z.to_nat n)%nat with 0%nat by lia. reflexivity.
Qed.

Lemma deque_append_bounded {A} (n : Z) (d : list A) (x : A) :
  0 <= n -> len d <= n -> len (deque_append n d x) <= n.
Proof.
  intros Hn H. rewrite deque_append_keep_last by assumption.
  rewrite keep_last_length by assumption. lia.
Qed.

Lemma py_sum_bools_from (bs : list bool) (acc : Z) :
  fold_left (fun acc (b : bool) => acc + Z.b2z b) bs acc =
  acc + Z.of_nat (count_occ bool_dec bs true).
Proof.
  revert acc. induction bs as [|b bs IH]; intros acc; simpl.
  - lia.
  - rewrite IH. destruct b; simpl; lia.
Qed.

Lemma py_sum_bools_count (bs : list bool) :
  py_sum_bools bs = Z.of_nat (count_occ bool_dec bs true).
Proof. unfold py_sum_bools. rewrite py_sum_bools_from. lia. Qed.


(* ===================================================================== *)
(** * FailureDetector                                                     *)
(* ===================================================================== *)

Module FailureDetectorFacts.
Import FailureDetector FailureDetectorSpec.

(** The example detector is the one the constructor builds. *)
Lemma lighting_occlusion_detector_init :
  __init__ 100 0.3%float (Some ["lighting"; "occlusion"]%string)
  = Ok lighting_occlusion_detector.
Proof. reflexivity. Qed.


Lemma fold_insert_zero_lookup (cats : list string) (m : gmap string Z) (k : string) :
  fold_left (fun m cat => <[cat := 0]> m) cats m !! k =
  if decide (k ∈ cats) then Some 0 else m !! k.
Proof.
  revert m. induction cats as [|c cs IH]; intros m; simpl.
  - destruct (decide (k ∈ [])) as [H|_]; [|reflexivity].
    now apply elem_of_nil in H.
  - rewrite IH. rewrite (decide_ext (k ∈ c :: cs) (k = c \/ k ∈ cs)) by apply elem_of_cons.
    destruct (decide (k ∈ cs)) as [Hin|Hnin].
    + destruct (decide (k = c \/ k ∈ cs)); [reflexivity | tauto].
    + destruct (decide (k = c)) as [->|Hne].
      * rewrite lookup_insert_eq.
        destruct (decide (c = c \/ c ∈ cs)); [reflexivity | tauto].
      * rewrite lookup_insert_ne by congruence.
        destruct (decide (k = c \/ k ∈ cs)); [tauto | reflexivity].
Qed.

Lemma zero_counts_lookup (cats : list string) (k : string) :
  zero_counts cats !! k = if decide (k ∈ cats) then Some 0 else None.
Proof. unfold zero_counts. rewrite fold_insert_zero_lookup. reflexivity. Qed.

Lemma zero_counts_keys (cats : list string) : keys_ok cats (zero_counts cats).
Proof.
  intros c Hc. rewrite zero_counts_lookup.
  destruct (decide (c ∈ cats)); [eauto | tauto].
Qed.

Lemma increment_present (category : string) (n : Z) (self : t) :
  failure_counts self !! category = Some n ->
  increment category self =
  (Ok tt, set_failure_counts (<[category := n + 1]> (failure_counts self)) self).
Proof. intros H. unfold increment. rewrite H. reflexivity. Qed.

(** The loop never raises on a tally that has its keys, and adds [hits]. *)
Lemma tally_loop_spec (lowered : string) (cats : list string) (self : t) :
  keys_ok cats (failure_counts self) ->
  exists m',
    tally_loop lowered cats self = (Ok tt, set_failure_counts m' self) /\
    (forall k, m' !! k = (fun n => n + hits lowered cats k) <$> failure_counts self !! k).
Proof.
  revert self. induction cats as [|c cs IH]; intros self Hkeys.
  - exists (failure_counts self). split.
    + destruct self; reflexivity.
    + intros k. unfold hits. simpl.
      destruct (py_in k lowered), (failure_counts self !! k); simpl; f_equal; lia.
  - assert (Hcs : keys_ok cs (failure_counts self)).
    { intros k Hk. apply Hkeys. apply elem_of_cons. now right. }
    unfold tally_loop. rewrite for_each_cons.
    destruct (py_in c lowered) eqn:Hc.
    + destruct (Hkeys c) as [n Hn]; [apply elem_of_cons; now left|].
      rewrite (increment_present _ _ _ Hn).
      set (self1 := set_failure_counts (<[c:=n + 1]> (failure_counts self)) self).
      destruct (IH self1) as (m' & Hrun & Hm').
      { intros k Hk. subst self1. simpl.
        destruct (decide (c = k)) as [->|Hne].
        - rewrite lookup_insert_eq. eauto.
        - rewrite lookup_insert_ne by assumption. now apply Hcs. }
      exists m'. split.
      * unfold tally_loop in Hrun. rewrite Hrun. subst self1. reflexivity.
      * intros k. rewrite Hm'. subst self1. simpl failure_counts.
        unfold hits. simpl count_occ.
        destruct (decide (c = k)) as [->|Hne].
        -- rewrite lookup_insert_eq, Hn, Hc. simpl.
           destruct (string_dec k k); [|congruence]. f_equal. lia.
        -- rewrite lookup_insert_ne by assumption.
           destruct (string_dec c k); [congruence|]. reflexivity.
    + unfold ret at 1.
      destruct (IH self Hcs) as (m' & Hrun & Hm').
      exists m'. split.
      * exact Hrun.
      * intros k. rewrite Hm'. unfold hits. simpl count_occ.
        destruct (string_dec c k) as [->|Hne]; [|reflexivity].
        rewrite Hc. reflexivity.
Qed.

(** [record_episode] in closed form. *)
Lemma record_episode_spec (self : t) reward success length conditions :
  keys_ok (categories self) (failure_counts self) ->
  exists m',
    record_episode reward success length conditions self =
      (Ok tt,
       mk (window_size self) (min_success_rate self) (categories self)
          (deque_append (window_size self) (episode_rewards self) reward)
          (deque_append (window_size self) (episode_successes self) success)
          (deque_append (window_size self) (episode_lengths self) length)
          m'
          (if truthy conditions then default EmptyString conditions
           else current_conditions self)) /\
    (forall k, m' !! k =
       (fun n => n + tally_increment (categories self) success conditions k)
         <$> failure_counts self !! k).
Proof.
  intros Hkeys. unfold record_episode, tally_increment.
  destruct (truthy conditions) eqn:Ht; destruct success; simpl negb; simpl andb;
    py_unfold.
  all: try (exists (failure_counts self); split;
            [ reflexivity
            | intros k; destruct (failure_counts self !! k); simpl; f_equal; lia ]).
  match goal with |- context [for_each _ _ ?s] => set (self1 := s) end.
  destruct (tally_loop_spec (lower (default EmptyString conditions))
              (categories self) self1) as (m' & Hrun & Hm'); [exact Hkeys|].
  exists m'. split; [|exact Hm'].
  unfold tally_loop in Hrun. py_unfold in Hrun.
  change (categories self1) with (categories self).
  rewrite Hrun. reflexivity.
Qed.

Lemma init_well_formed ws msr cats self :
  __init__ ws msr cats = Ok self -> well_formed self.
Proof.
  unfold __init__. destruct (Z.ltb_spec ws 0); [discriminate|].
  intros [= <-]. unfold well_formed, len. simpl.
  repeat split; try lia. apply zero_counts_keys.
Qed.

Lemma record_episode_well_formed self reward success length conditions r self' :
  well_formed self ->
  record_episode reward success length conditions self = (r, self') ->
  well_formed self'.
Proof.
  intros (Hws & Hr & Hs & Hl & Hkeys) Hrun.
  destruct (record_episode_spec self reward success length conditions Hkeys)
    as (m' & Heq & Hm').
  rewrite Heq in Hrun. injection Hrun as <- <-.
  unfold well_formed. simpl.
  repeat split; auto using deque_append_bounded.
  intros c Hc. rewrite Hm'. destruct (Hkeys c Hc) as [n ->]. simpl. eauto.
Qed.

Lemma reset_well_formed self r self' :
  well_formed self -> reset_statistics self = (r, self') -> well_formed self'.
Proof.
  intros (Hws & _) [= <- <-]. unfold well_formed, len. simpl.
  repeat split; try lia. apply zero_counts_keys.
Qed.

(** The invariant of the class. *)
Lemma reachable_well_formed self : reachable self -> well_formed self.
Proof.
  induction 1;
    eauto using init_well_formed, record_episode_well_formed, reset_well_formed.
Qed.

(** After a run of episodes the success window is the newest
    [window_size] outcomes. *)
Lemma record_all_spec (eps : list episode) (self : t) :
  well_formed self ->
  exists self',
    record_all eps self = (Ok tt, self') /\
    well_formed self' /\
    window_size self' = window_size self /\
    min_success_rate self' = min_success_rate self /\
    episode_successes self' =
      keep_last (window_size self) (episode_successes self ++ map ep_success eps).
Proof.
  revert self. induction eps as [|e eps IH]; intros self Hwf.
  - exists self. split; [reflexivity|]. split; [exact Hwf|].
    split; [reflexivity|]. split; [reflexivity|].
    simpl. rewrite app_nil_r, keep_last_all; [reflexivity|]. apply Hwf.
  - unfold record_all. rewrite for_each_cons.
    destruct (record e self) as [r self1] eqn:Hrec. unfold record in Hrec.
    pose proof (record_episode_well_formed _ _ _ _ _ _ _ Hwf Hrec) as Hwf1.
    destruct Hwf as (Hws & Hr & Hs & Hl & Hkeys).
    destruct (record_episode_spec self (ep_reward e) (ep_success e)
                (ep_length e) (ep_conditions e) Hkeys) as (m' & Heq & _).
    rewrite Heq in Hrec. injection Hrec as <- <-.
    destruct (IH _ Hwf1) as (self' & Hrun & Hwf' & Hws' & Hmsr' & Hsucc).
    exists self'. split; [exact Hrun|]. split; [exact Hwf'|].
    split; [exact Hws'|]. split; [exact Hmsr'|].
    rewrite Hsucc. simpl.
    rewrite deque_append_keep_last by assumption.
    rewrite keep_last_app, <- app_assoc. reflexivity.
Qed.

(** [get_success_rate] and [should_adapt] in closed form: neither raises
    nor changes the detector. *)
Lemma get_success_rate_spec (self : t) :
  get_success_rate self = (Ok (success_ratio (episode_successes self)), self).
Proof.
  unfold get_success_rate, bind, get.
  destruct (episode_successes self) as [|b bs] eqn:Hw; [reflexivity|].
  unfold lift, int_true_divide, success_ratio.
  rewrite py_sum_bools_count.
  destruct (Z.eqb_spec (len (b :: bs)) 0) as [H0|_]; [|reflexivity].
  unfold len in H0. simpl in H0. lia.
Qed.

Lemma should_adapt_spec (self : t) :
  should_adapt self =
  (Ok (if len (episode_successes self) <? window_size self / 2 then false
       else (success_ratio (episode_successes self) <? min_success_rate self)%float),
   self).
Proof.
  unfold should_adapt. unfold bind at 1. unfold get at 1.
  destruct (len (episode_successes self) <? window_size self / 2); [reflexivity|].
  unfold bind. rewrite get_success_rate_spec. reflexivity.
Qed.

Lemma all_failures_window (eps : list episode) :
  Forall (fun e => ep_success e = false) eps ->
  map ep_success eps = repeat false (length eps).
Proof.
  induction 1 as [|e eps He _ IH]; simpl; [reflexivity|]. now rewrite He, IH.
Qed.


(** C2 ([should_adapt]).  Take a detector built by [__init__] and record
    any sequence of episodes.  Every call returns; the success window is
    then the newest [window_size] outcomes; [get_success_rate] is the
    number of successes in the window divided by its length (and 0.0 for
    the empty window); and [should_adapt] is false when the window holds
    fewer than [window_size // 2] outcomes, and otherwise true exactly
    when that rate is strictly below [min_success_rate].  With a window of
    10 and the threshold 0.3, five failed episodes make it true and four
    leave it false. *)
Theorem C2_should_adapt :
  (forall (ws : Z) (msr : float) (cats : option (list string)) (eps : list episode),
     0 <= ws ->
     exists self0 self,
       __init__ ws msr cats = Ok self0 /\
       record_all eps self0 = (Ok tt, self) /\
       let window := keep_last ws (map ep_success eps) in
       let successes := Z.of_nat (count_occ bool_dec window true) in
       let rate := if decide (window = []) then 0%float
                   else (size_to_float successes / size_to_float (len window))%float in
       episode_successes self = window /\
       get_success_rate self = (Ok rate, self) /\
       should_adapt self =
         (Ok (if len window <? ws / 2 then false else (rate <? msr)%float), self)) /\
  (forall (cats : option (list string)) (eps : list episode),
     Forall (fun e => ep_success e = false) eps ->
     exists self0 self,
       __init__ 10 0.3%float cats = Ok self0 /\
       record_all eps self0 = (Ok tt, self) /\
       (length eps = 5%nat -> should_adapt self = (Ok true, self)) /\
       (length eps = 4%nat -> should_adapt self = (Ok false, self))).
Proof.
  assert (Hgen : forall ws msr cats eps, 0 <= ws ->
     exists self0 self,
       __init__ ws msr cats = Ok self0 /\
       record_all eps self0 = (Ok tt, self) /\
       window_size self = ws /\ min_success_rate self = msr /\
       episode_successes self = keep_last ws (map ep_success eps)).
  { intros ws msr cats eps Hws.
    destruct (__init__ ws msr cats) as [self0|e] eqn:Hinit.
    2:{ unfold __init__ in Hinit. destruct (Z.ltb_spec ws 0); [lia|discriminate]. }
    destruct (record_all_spec eps self0 (init_well_formed _ _ _ _ Hinit))
      as (self & Hrun & _ & Hws' & Hmsr' & Hsucc).
    exists self0, self. split; [reflexivity|]. split; [exact Hrun|].
    unfold __init__ in Hinit. destruct (ws <? 0); [discriminate|].
    injection Hinit as <-. simpl in *. auto. }
  split.
  - intros ws msr cats eps Hws.
    destruct (Hgen ws msr cats eps Hws) as (self0 & self & Hinit & Hrun & Hws' & Hmsr' & Hsucc).
    exists self0, self. split; [exact Hinit|]. split; [exact Hrun|].
    cbv zeta. split; [exact Hsucc|].
    assert (Hrate : success_ratio (keep_last ws (map ep_success eps)) =
      if decide (keep_last ws (map ep_success eps) = []) then 0%float
      else (size_to_float (Z.of_nat (count_occ bool_dec (keep_last ws (map ep_success eps)) true))
            / size_to_float (len (keep_last ws (map ep_success eps))))%float).
    { destruct (keep_last ws (map ep_success eps)); [reflexivity|].
      destruct (decide _); [discriminate|reflexivity]. }
    rewrite get_success_rate_spec, should_adapt_spec, Hsucc, Hws', Hmsr', Hrate.
    split; reflexivity.
  - intros cats eps Hfail.
    destruct (Hgen 10 0.3%float cats eps ltac:(lia))
      as (self0 & self & Hinit & Hrun & Hws' & Hmsr' & Hsucc).
    exists self0, self. split; [exact Hinit|]. split; [exact Hrun|].
    rewrite should_adapt_spec, Hsucc, Hws', Hmsr', (all_failures_window _ Hfail).
    split; intros ->; vm_compute; reflexivity.
Qed.

Lemma C2_should_adapt_witness :
  exists self0 self,
    __init__ 10 0.3%float None = Ok self0 /\
    record_all (repeat failed_episode 5) self0 = (Ok tt, self) /\
    episode_successes self = repeat false 5 /\
    get_success_rate self = (Ok 0%float, self) /\
    should_adapt self = (Ok true, self).
Proof.
  destruct C2_should_adapt as [Hgen _].
  destruct (Hgen 10 0.3%float None (repeat failed_episode 5))
    as (self0 & self & Hinit & Hrun & Hwindow & Hrate & Hadapt); [lia|].
  exists self0, self. split; [exact Hinit|]. split; [exact Hrun|].
  split; [exact Hwindow|]. split; [exact Hrate | exact Hadapt].
Defined.




(** C10 (no episode recorded yet), for windows of at least two episodes.
    A detector fresh from [__init__] and one just reset have an empty
    success window.  On an empty window [get_success_rate] returns exactly
    0.0 without dividing -- it cannot raise -- and [should_adapt] returns,
    with the answer false whenever [window_size >= 2]. *)
Theorem C10_no_episodes :
  (forall ws msr cats self,
     __init__ ws msr cats = Ok self -> episode_successes self = []) /\
  (forall self r self',
     reset_statistics self = (r, self') ->
     r = Ok tt /\ episode_successes self' = [] /\
     window_size self' = window_size self) /\
  (forall self,
     episode_successes self = [] ->
     get_success_rate self = (Ok 0%float, self) /\
     (2 <= window_size self -> should_adapt self = (Ok false, self))).
Proof.
  split; [|split].
  - intros ws msr cats self. unfold __init__.
    destruct (ws <? 0); [discriminate|]. now intros [= <-].
  - intros self r self' [= <- <-]. auto.
  - intros self Hempty. split.
    + now rewrite get_success_rate_spec, Hempty.
    + intros Hws. rewrite should_adapt_spec, Hempty.
      destruct (Z.ltb_spec (len (@nil bool)) (window_size self / 2)) as [_|Hge];
        [reflexivity|].
      unfold len in Hge. simpl in Hge.
      assert (1 <= window_size self / 2) by (apply Z.div_le_lower_bound; lia).
      lia.
Qed.

Lemma C10_no_episodes_witness :
  exists self,
    __init__ 100 0.3%float None = Ok self /\
    get_success_rate self = (Ok 0%float, self) /\
    should_adapt self = (Ok false, self).
Proof.
  destruct (__init__ 100 0.3%float None) as [self|e] eqn:Hinit;
    [|discriminate Hinit].
  exists self. split; [reflexivity|].
  destruct C10_no_episodes as (Hfresh & _ & Hempty).
  destruct (Hempty self (Hfresh _ _ _ _ Hinit)) as [Hrate Hadapt].
  split; [exact Hrate|]. apply Hadapt.
  injection Hinit as <-. simpl. lia.
Defined.

(** With [window_size = 1] the guard [len < window_size // 2] is [0 < 0]:
    a fresh detector goes on to compare the rate 0.0 with the threshold and
    [should_adapt] answers true. *)
Lemma C10_counterexample :
  exists self,
    __init__ 1 0.3%float None = Ok self /\
    episode_successes self = [] /\
    should_adapt self = (Ok true, self).
Proof.
  eexists. split; [reflexivity|]. split; vm_compute; reflexivity.
Qed.

End FailureDetectorFacts.

(* ===================================================================== *)
(** * LLMJudge                                                            *)
(* ===================================================================== *)

Module LLMJudgeFacts.
Import LLMJudge LLMJudgeSpec.

Section WithParser.
Variable json_loads : string -> result json.

Lemma try_body_fails (now : Z) (outcome : api_outcome) (self : t) (e : exn) :
  evaluation_fails json_loads (difficulty self) outcome e ->
  try_body json_loads now outcome self = (Raise e, self).
Proof.
  intros H. unfold try_body.
  inversion H; subst; cbv beta iota delta [bind lift get modify ret index nth_error];
    try reflexivity.
  - now rewrite H0.
  - now rewrite H0, H1.
  - rewrite H0, H1. destruct v; simpl in *; try congruence.
  - rewrite H0, H1. simpl. now rewrite H2.
Qed.

Lemma try_body_succeeds (now : Z) (text : string) (rest : list (option string))
    (inner : string) (items : list (string * json)) (raw : float) (self : t) :
  extract_json text = Ok inner ->
  json_loads (strip inner) = Ok (JObject items) ->
  float_add (difficulty self) (items_get items "difficulty_adjustment" (JInt 0)) = Ok raw ->
  let d' := py_max 0.1 (py_min 1.0 raw) in
  let j := normal_judgment now items d' in
  try_body json_loads now (ApiReturns (Some text :: rest)) self =
    (Ok j, append_history j (set_difficulty d' self)).
Proof.
  intros Hx Hp Ha. unfold try_body.
  cbv beta iota delta [bind lift get modify ret index nth_error].
  rewrite Hx, Hp. simpl. rewrite Ha. reflexivity.
Qed.

(** Every call falls under exactly one of the two lemmas above. *)
Lemma try_body_cases (outcome : api_outcome) (self : t) :
  (exists e, evaluation_fails json_loads (difficulty self) outcome e) \/
  (exists text rest inner items raw,
     outcome = ApiReturns (Some text :: rest) /\
     extract_json text = Ok inner /\
     json_loads (strip inner) = Ok (JObject items) /\
     float_add (difficulty self)
       (items_get items "difficulty_adjustment" (JInt 0)) = Ok raw).
Proof.
  destruct outcome as [e|[|[text|] rest]].
  - left. eexists. constructor.
  - left. eexists. constructor.
  - destruct (extract_json text) as [inner|e] eqn:Hx.
    2:{ left. eexists. eapply fails_extract; eassumption. }
    destruct (json_loads (strip inner)) as [v|e] eqn:Hp.
    2:{ left. eexists. eapply fails_unparsable; eassumption. }
    destruct (py_get v "difficulty_adjustment" (JInt 0)) as [adj|e] eqn:Hg.
    2:{ left. eexists. eapply fails_not_object; eassumption. }
    destruct v; simpl in Hg; try discriminate.
    destruct (float_add (difficulty self)
                (items_get items "difficulty_adjustment" (JInt 0))) as [raw|e] eqn:Ha.
    + right. exists text, rest, inner, items, raw. auto.
    + left. eexists. eapply fails_adjustment; eassumption.
  - left. eexists. constructor.
Qed.


Lemma evaluate_fails (now : Z) (outcome : api_outcome) (self : t) (e : exn) :
  evaluation_fails json_loads (difficulty self) outcome e ->
  evaluate_performance json_loads now outcome self =
    (Ok (fallback_judgment now e (difficulty self)), self).
Proof.
  intros H. unfold evaluate_performance, try_except.
  rewrite (try_body_fails _ _ _ _ H). reflexivity.
Qed.

Lemma evaluate_succeeds (now : Z) (text : string) (rest : list (option string))
    (inner : string) (items : list (string * json)) (raw : float) (self : t) :
  extract_json text = Ok inner ->
  json_loads (strip inner) = Ok (JObject items) ->
  float_add (difficulty self) (items_get items "difficulty_adjustment" (JInt 0)) = Ok raw ->
  let d' := py_max 0.1 (py_min 1.0 raw) in
  let j := normal_judgment now items d' in
  evaluate_performance json_loads now (ApiReturns (Some text :: rest)) self =
    (Ok j, append_history j (set_difficulty d' self)).
Proof.
  intros Hx Hp Ha. unfold evaluate_performance, try_except.
  rewrite (try_body_succeeds _ _ _ _ _ _ _ Hx Hp Ha). reflexivity.
Qed.

Lemma evaluate_returns (now : Z) (outcome : api_outcome) (self : t) :
  exists j self',
    evaluate_performance json_loads now outcome self = (Ok j, self') /\
    (difficulty self' = difficulty self \/ in_range (difficulty self')).
Proof.
  destruct (try_body_cases outcome self)
    as [[e He] | (text & rest & inner & items & raw & -> & Hx & Hp & Ha)].
  - rewrite (evaluate_fails now _ _ _ He). eauto.
  - rewrite (evaluate_succeeds now _ rest _ _ _ _ Hx Hp Ha).
    do 2 eexists. split; [reflexivity|]. right. apply clamp_in_range.
Qed.

Lemma evaluate_all_in_range (calls : list (Z * api_outcome)) (self : t) :
  in_range (difficulty self) ->
  exists self',
    evaluate_all json_loads calls self = (Ok tt, self') /\
    in_range (difficulty self').
Proof.
  revert self. induction calls as [|[now outcome] calls IH]; intros self Hin.
  - exists self. split; [reflexivity | exact Hin].
  - unfold evaluate_all. rewrite for_each_cons. unfold bind at 1. simpl fst. simpl snd.
    destruct (evaluate_returns now outcome self) as (j & self1 & -> & Hd).
    unfold ret at 1.
    apply IH. destruct Hd as [-> | Hd]; assumption.
Qed.

End WithParser.



(** C3 (difficulty stays in range).  A new judge starts at difficulty
    0.3, and after any sequence of calls of [evaluate_performance] --
    whatever the service answers, parsable or not, and whatever
    adjustment a reply carries, NaN and infinities included -- every call
    has returned and the stored difficulty lies in [0.1, 1.0]. *)
Theorem C3_difficulty_in_range :
  (forall p, difficulty (__init__ p) = 0.3%float) /\
  (forall (json_loads : string -> result json) (p : float)
          (calls : list (Z * api_outcome)),
     exists self',
       evaluate_all json_loads calls (__init__ p) = (Ok tt, self') /\
       in_range (difficulty self')).
Proof.
  split; [reflexivity|].
  intros json_loads p calls. apply evaluate_all_in_range.
  split; vm_compute; reflexivity.
Qed.

(** C5, as the code has it.  The adjustment read from the reply is
    added to the difficulty as it is -- there is no step that restricts
    it to [-0.1, 0.1] -- and only the sum is clamped:
    [difficulty := max(0.1, min(1.0, difficulty + x))].  From 0.95 an
    adjustment of +0.10 gives exactly 1.0, and from 0.15 an adjustment
    of -0.10 gives exactly 0.1. *)
Theorem C5_difficulty_update
    (json_loads : string -> result json) (now : Z) (text : string)
    (rest : list (option string)) (inner : string)
    (items : list (string * json)) (x : float) (self : t) :
  extract_json text = Ok inner ->
  json_loads (strip inner) = Ok (JObject items) ->
  items_get items "difficulty_adjustment" (JInt 0) = JFloat x ->
  let self' := snd (evaluate_performance json_loads now
                      (ApiReturns (Some text :: rest)) self) in
  difficulty self' = py_max 0.1 (py_min 1.0 (difficulty self + x)) /\
  (difficulty self = 0.95%float -> x = 0.10%float -> difficulty self' = 1.0%float) /\
  (difficulty self = 0.15%float -> x = (-0.10)%float -> difficulty self' = 0.1%float).
Proof.
  intros Hx Hp Hd self'.
  assert (Ha : float_add (difficulty self)
                 (items_get items "difficulty_adjustment" (JInt 0))
               = Ok (difficulty self + x)%float) by now rewrite Hd.
  assert (Hnew : difficulty self' = py_max 0.1 (py_min 1.0 (difficulty self + x))).
  { subst self'. rewrite (evaluate_succeeds json_loads now _ rest _ _ _ _ Hx Hp Ha).
    reflexivity. }
  split; [exact Hnew|].
  split; intros Hself ->; rewrite Hnew, Hself; vm_compute; reflexivity.
Qed.

Lemma C5_difficulty_update_witness :
  difficulty (snd (evaluate_performance json_loads_examples 1700000000
                     (ApiReturns [Some (delta_reply "-0.1")]) (__init__ 0.1%float)))
  = py_max 0.1 (py_min 1.0 (0.3 + -0.1)).
Proof.
  apply (C5_difficulty_update json_loads_examples 1700000000
           (delta_reply "-0.1") [] (delta_reply "-0.1")
           [("difficulty_adjustment"%string, JFloat (-0.1))] (-0.1)%float
           (__init__ 0.1%float));
    vm_compute; reflexivity.
Defined.

(** Three replies in a row, carrying the adjustments +0.1, +0.1 and
    -0.3, take a new judge from 0.3 to 0.4, to 0.5 and then to 0.2: the
    raw -0.3 is applied in full, where the update of the specification
    would have stopped at 0.4. *)
Lemma C5_counterexample :
  let calls := [ (1, ApiReturns [Some (delta_reply "0.1")]);
                 (2, ApiReturns [Some (delta_reply "0.1")]) ] in
  let self := snd (evaluate_all json_loads_examples calls (__init__ 0.1%float)) in
  let self' := snd (evaluate_performance json_loads_examples 3
                      (ApiReturns [Some (delta_reply "-0.3")]) self) in
  difficulty self = 0.5%float /\
  difficulty self' = 0.2%float /\
  spec_difficulty_update 0.5 (-0.3) = 0.4%float.
Proof. repeat split; vm_compute; reflexivity. Qed.



End LLMJudgeFacts.

(* ===================================================================== *)
(** * The frame buffer of OdysseyEnv                                      *)
(* ===================================================================== *)

Module OdysseyEnvFacts.
Import OdysseyEnv OdysseyEnvSpec.

Section WithFrame.
Variable Frame : Type.
Variable capacity : Z.
Hypothesis capacity_positive : 0 < capacity.

Lemma on_frame_step (pushed : list Frame) (latest : option Frame) (frame : Frame) :
  _on_frame frame
    (mk Frame (Queue.mk capacity (keep_last capacity pushed)) latest
       (take (length pushed - Z.to_nat capacity) pushed))
  = (Ok tt, buffer_after capacity (pushed ++ [frame])).
Proof.
  unfold _on_frame, buffer_after, keep_last.
  rewrite last_snoc, length_app. simpl length.
  cbv beta iota delta [bind modify try_except_class try_except on_queue
                       set_latest_frame note_evicted Queue.put_nowait
                       Queue.get_nowait ret len
                       frame_queue latest_frame evicted Queue.maxsize Queue.items].
  rewrite length_drop.
  destruct (Nat.le_gt_cases (Z.to_nat capacity) (length pushed)) as [Hfull|Hroom].
  - (* the queue is full: evict the oldest frame, then insert *)
    replace (0 <? capacity) with true by (symmetry; apply Z.ltb_lt; lia).
    replace (capacity <=? Z.of_nat (length pushed - (length pushed - Z.to_nat capacity)))
      with true by (symmetry; apply Z.leb_le; lia).
    simpl andb. cbv iota. simpl exn_cls. simpl exn_class_eqb. cbv iota.
    destruct (lookup_lt_is_Some_2 pushed (length pushed - Z.to_nat capacity))
      as [old Hold]; [lia|].
    rewrite (drop_S _ _ _ Hold).
    cbv beta iota.
    replace (0 <? capacity) with true by (symmetry; apply Z.ltb_lt; lia).
    rewrite length_drop.
    replace (capacity <=? Z.of_nat (length pushed - S (length pushed - Z.to_nat capacity)))
      with false by (symmetry; apply Z.leb_gt; lia).
    simpl andb. cbv iota.
    replace (length pushed + 1 - Z.to_nat capacity)%nat
      with (S (length pushed - Z.to_nat capacity)) by lia.
    rewrite drop_app_le by lia.
    rewrite take_app_le by lia.
    rewrite (take_S_r _ _ _ Hold). reflexivity.
  - (* there is room: plain insertion *)
    replace (capacity <=? Z.of_nat (length pushed - (length pushed - Z.to_nat capacity)))
      with false by (symmetry; apply Z.leb_gt; lia).
    rewrite andb_false_r. cbv iota.
    replace (length pushed - Z.to_nat capacity)%nat with 0%nat by lia.
    replace (length pushed + 1 - Z.to_nat capacity)%nat with 0%nat by lia.
    reflexivity.
Qed.

Lemma on_frames_from (pushed frames : list Frame) :
  on_frames frames
    (mk Frame (Queue.mk capacity (keep_last capacity pushed)) (last pushed)
       (take (length pushed - Z.to_nat capacity) pushed))
  = (Ok tt, buffer_after capacity (pushed ++ frames)).
Proof.
  revert pushed. induction frames as [|f fs IH]; intros pushed.
  - rewrite app_nil_r. reflexivity.
  - unfold on_frames. rewrite for_each_cons, on_frame_step.
    unfold buffer_after at 1. unfold on_frames in IH. rewrite IH.
    now rewrite <- app_assoc.
Qed.

End WithFrame.

(** C8 (frame buffer).  For a queue of any capacity above zero, and for
    the queue of ten the environment creates: however many frames
    arrive, every [_on_frame] returns at once without raising
    ([put_nowait] and [get_nowait] never wait); the queue ends up holding
    exactly the newest [capacity] frames in arrival order, the frames
    evicted are exactly the older ones, one eviction per frame beyond
    the capacity, and [latest_frame] is the last frame.  So after
    [capacity + k] frames the queue holds [capacity] frames and [k] have
    been evicted. *)
Theorem C8_frame_buffer (Frame : Type) (capacity : Z) (frames : list Frame) :
  0 < capacity ->
  let r := on_frames frames (with_capacity Frame capacity) in
  fst r = Ok tt /\
  Queue.items (frame_queue (snd r)) = keep_last capacity frames /\
  evicted (snd r) ++ Queue.items (frame_queue (snd r)) = frames /\
  latest_frame (snd r) = last frames /\
  (forall k, 0 <= k -> len frames = capacity + k ->
     len (Queue.items (frame_queue (snd r))) = capacity /\
     len (evicted (snd r)) = k).
Proof.
  intros Hcap r.
  assert (Hr : r = (Ok tt, buffer_after capacity frames)).
  { subst r. exact (on_frames_from Frame capacity Hcap [] frames). }
  rewrite Hr. unfold buffer_after, keep_last. simpl.
  repeat split.
  - apply take_drop.
  - unfold len. rewrite length_drop. unfold len in *. lia.
  - unfold len. rewrite length_take. unfold len in *. lia.
Qed.

Lemma C8_frame_buffer_witness :
  on_frames [1; 2; 3; 4; 5] (with_capacity Z 3) =
    (Ok tt, mk Z (Queue.mk 3 [3; 4; 5]) (Some 5) [1; 2]) /\
  len (Queue.items (frame_queue (snd (on_frames [1; 2; 3; 4; 5] (with_capacity Z 3))))) = 3 /\
  len (evicted (snd (on_frames [1; 2; 3; 4; 5] (with_capacity Z 3)))) = 2.
Proof.
  destruct (C8_frame_buffer Z 3 [1; 2; 3; 4; 5] eq_refl) as (_ & _ & _ & _ & Hk).
  split; [reflexivity|].
  apply (Hk 2); [lia | reflexivity].
Defined.

(** The queue of the environment itself has capacity ten. *)
Lemma init_capacity (Frame : Type) : __init__ Frame = with_capacity Frame 10.
Proof. reflexivity. Qed.

End OdysseyEnvFacts.

(* ===================================================================== *)
(** * CurriculumCallback                                                  *)
(* ===================================================================== *)

Module CurriculumCallbackFacts.
Import CurriculumCallback CurriculumCallbackSpec.

(** The example callback watches the detector that
    [FailureDetector()] builds. *)
Lemma default_detector_init :
  FailureDetector.__init__ FailureDetector.default_window_size
    FailureDetector.default_min_success_rate None
  = Ok default_detector.
Proof. reflexivity. Qed.

(** A step that does not end an episode only accumulates. *)
Lemma on_step_running (reward : float) (controller : result string) (self : t) :
  _on_step reward false controller self =
    (Ok true,
     set_episode (current_episode_reward self + reward)%float
                 (current_episode_length self + 1) self).
Proof. reflexivity. Qed.

(** A step that ends an episode.  The episode is recorded in the
    detector, whatever its outcome.  The controller is then called
    exactly when the length of the success window -- not the number of
    episodes seen -- is a multiple of [adaptation_frequency] and
    [should_adapt] holds; if the call raises, the step still returns
    and the conditions of the environment are left as they were. *)
Lemma on_step_done (reward : float) (controller : result string) (self : t) :
  FailureDetectorSpec.well_formed (failure_detector self) ->
  adaptation_frequency self <> 0 ->
  let total := (current_episode_reward self + reward)%float in
  exists fd',
    FailureDetector.record_episode total (0 <? total)%float
      (current_episode_length self + 1) (Some (env_conditions self))
      (failure_detector self) = (Ok tt, fd') /\
    let window := FailureDetector.episode_successes fd' in
    let due :=
      ((len window mod adaptation_frequency self =? 0)
       && (if len window <? FailureDetector.window_size fd' / 2 then false
           else (FailureDetectorSpec.success_ratio window
                 <? FailureDetector.min_success_rate fd')%float))%bool in
    _on_step reward true controller self =
      (Ok true,
       mk fd'
          (if due then match controller with
                       | Ok perturbation => Some perturbation
                       | Raise _ => env_current_conditions self
                       end
           else env_current_conditions self)
          (adaptation_frequency self) 0%float 0
          (controller_calls self + (if due then 1 else 0))).
Proof.
  destruct self as [fd cond freq r l calls]. simpl.
  intros (_ & _ & _ & _ & Hkeys) Hfreq.
  destruct (FailureDetectorFacts.record_episode_spec fd
              (r + reward)%float (0 <? r + reward)%float (l + 1)
              (Some (default "neutral"%string cond)) Hkeys) as (m' & Hrec & _).
  eexists. split; [exact Hrec|].
  unfold _on_step.
  cbv beta iota delta [bind modify get ret lift on_detector set_episode
                       failure_detector env_current_conditions
                       adaptation_frequency current_episode_reward
                       current_episode_length controller_calls env_conditions].
  rewrite Hrec.
  cbv beta iota delta [py_mod].
  destruct (Z.eqb_spec freq 0) as [H0|_]; [contradiction|].
  cbv beta iota.
  match goal with
  | |- context [len ?w mod freq =? 0] => destruct (len w mod freq =? 0)
  end; simpl andb; cbv beta iota.
  - rewrite FailureDetectorFacts.should_adapt_spec.
    cbv beta iota delta [FailureDetector.episode_successes
                         FailureDetector.window_size
                         FailureDetector.min_success_rate].
    match goal with
    | |- context [if (if ?c then false else ?d) then _ else _] =>
        destruct (if c then false else d)
    end.
    + unfold _adapt_curriculum, try_except.
      destruct controller as [perturbation|e]; reflexivity.
    + rewrite Z.add_0_r. reflexivity.
  - rewrite Z.add_0_r. reflexivity.
Qed.

(** C4 (adaptation cadence), on the code.  With the defaults -- a window
    of 100 episodes, an adaptation every 50 -- and a run of failed
    episodes, the controller is called at episode 50 and at episode 100,
    as the claim says, and then again at episodes 101 and 102, which are
    no multiples of 50: what [_on_step] tests is the length of the
    success window, and that stays at 100 once the window is full.  A
    controller that raises is survived: the step returns, training goes
    on and the conditions of the environment are untouched. *)
Theorem C4_adaptation_cadence :
  controller_calls (after_failed_episodes 49) = 0 /\
  controller_calls (after_failed_episodes 50) = 1 /\
  controller_calls (after_failed_episodes 99) = 1 /\
  controller_calls (after_failed_episodes 100) = 2 /\
  controller_calls (after_failed_episodes 101) = 3 /\
  controller_calls (after_failed_episodes 102) = 4 /\
  len (FailureDetector.episode_successes
         (failure_detector (after_failed_episodes 101))) = 100 /\
  (let r := steps (repeat failing_step 49 ++ [failing_step_controller_down])
              default_callback in
   fst r = Ok tt /\
   controller_calls (snd r) = 1 /\
   env_current_conditions (snd r) = None).
Proof. repeat split; vm_compute; reflexivity. Qed.

End CurriculumCallbackFacts.

(* ===================================================================== *)
(** * The two transports                                                  *)
(* ===================================================================== *)

Module TransportFacts.

(** The real client refuses to interact without a stream identifier, and
    sends nothing. *)
Lemma client_interact_no_stream (prompt : string) (self : OdysseyClient.t) :
  truthy (OdysseyClient.current_stream_id self) = false ->
  OdysseyClient.interact prompt self =
    (Raise (Exception RuntimeError "No active stream to interact with"), self).
Proof.
  intros H. unfold OdysseyClient.interact, bind, get, raise. now rewrite H.
Qed.

(** The mock never looks at its stream: [interact] always returns, and
    leaves the stream fields alone. *)
Lemma mock_interact_returns (prompt : string) (self : MockOdysseyClient.t) :
  exists self',
    MockOdysseyClient.interact prompt self = (Ok tt, self') /\
    MockOdysseyClient.current_stream_id self' =
      MockOdysseyClient.current_stream_id self.
Proof.
  eexists. split; [reflexivity|].
  unfold MockOdysseyClient.relight, MockOdysseyClient.grip, MockOdysseyClient.move.
  repeat match goal with
         | |- context [if ?c then _ else _] => destruct c
         end; reflexivity.
Qed.

(** C9 ([interact] without a stream), on the code.  On a client that has
    never started a stream, the real client raises at once and sends
    nothing.  The mock, in the same situation, raises nothing: it carries
    the instruction out and moves its arm from 320 to 300. *)
Theorem C9_interact_without_stream :
  OdysseyClient.interact "move arm left" OdysseyClient.__init__ =
    (Raise (Exception RuntimeError "No active stream to interact with"),
     OdysseyClient.__init__) /\
  MockOdysseyClient.current_stream_id MockOdysseyClient.__init__ = None /\
  MockOdysseyClient.interact "move arm left" MockOdysseyClient.__init__ =
    (Ok tt,
     MockOdysseyClient.set_arm (Int 300) (Int 400) MockOdysseyClient.__init__).
Proof. repeat split; vm_compute; reflexivity. Qed.

End TransportFacts.

(* ===================================================================== *)
(** * FailureDetector: invariant, reset and the tally queries             *)
(* ===================================================================== *)


(** Dividing zero gives nothing that is below zero: the quotient is a
    zero, or NaN when the divisor is a zero or NaN itself. *)
Lemma zero_div_not_negative (y : float) : (0 / y <? 0)%float = false.
Proof.
  rewrite ltb_spec, div_spec.
  change (Prim2SF 0) with (S754_zero false).
  destruct (Prim2SF y) as [s| s | |s m e]; reflexivity.
Qed.

Lemma size_to_float_0 : size_to_float 0 = 0%float.
Proof. vm_compute. reflexivity. Qed.

Module FailureDetectorMoreFacts.
Import FailureDetector FailureDetectorSpec FailureDetectorHistory.

Lemma deque_append_length {A B} (n : Z) (d : list A) (d' : list B) (x : A) (y : B) :
  length d = length d' ->
  length (deque_append n d x) = length (deque_append n d' y).
Proof.
  intros H. unfold deque_append, len. rewrite !length_app, H. simpl.
  destruct (n <? _).
  - destruct d, d'; simpl in *; try discriminate; try reflexivity.
    rewrite !length_app. injection H as ->. reflexivity.
  - rewrite !length_app, H. reflexivity.
Qed.

Lemma hits_nonneg lowered cats k : 0 <= hits lowered cats k.
Proof. unfold hits. destruct (py_in _ _); lia. Qed.

Lemma tally_increment_nonneg cats success conditions k :
  0 <= tally_increment cats success conditions k.
Proof.
  unfold tally_increment. destruct (_ && _)%bool; [apply hits_nonneg | lia].
Qed.

(** What holds of every detector reached from the one [__init__] built. *)
Definition invariant (self0 self : t) : Prop :=
  window_size self = window_size self0 /\
  min_success_rate self = min_success_rate self0 /\
  categories self = categories self0 /\
  length (episode_rewards self) = length (episode_successes self) /\
  length (episode_lengths self) = length (episode_successes self) /\
  len (episode_successes self) <= window_size self /\
  (forall k, is_Some (failure_counts self !! k) <-> k ∈ categories self) /\
  (forall k n, failure_counts self !! k = Some n -> 0 <= n).

Lemma init_invariant ws msr cats self0 :
  __init__ ws msr cats = Ok self0 -> invariant self0 self0.
Proof.
  unfold __init__. destruct (Z.ltb_spec ws 0); [discriminate|].
  intros [= <-]. unfold invariant, len. simpl.
  repeat split; try lia.
  - rewrite FailureDetectorFacts.zero_counts_lookup.
    destruct (decide _); [auto|]. now intros [? ?].
  - intros Hk. rewrite FailureDetectorFacts.zero_counts_lookup.
    destruct (decide _); [eauto|tauto].
  - intros k n. rewrite FailureDetectorFacts.zero_counts_lookup.
    destruct (decide _); [|discriminate]. intros [= <-]. lia.
Qed.

Lemma invariant_keys self0 self :
  invariant self0 self -> keys_ok (categories self) (failure_counts self).
Proof. intros (_ & _ & _ & _ & _ & _ & Hk & _) c Hc. now apply Hk. Qed.

Lemma record_invariant self0 self reward success length conditions r self' :
  0 <= window_size self0 ->
  invariant self0 self ->
  record_episode reward success length conditions self = (r, self') ->
  invariant self0 self'.
Proof.
  intros Hws0 Hinv Hrun.
  pose proof (invariant_keys _ _ Hinv) as Hkeys.
  destruct Hinv as (Hws & Hmsr & Hcats & Hlr & Hll & Hbound & Hdom & Hnn).
  destruct (FailureDetectorFacts.record_episode_spec self reward success length
              conditions Hkeys) as (m' & Heq & Hm').
  rewrite Heq in Hrun. injection Hrun as <- <-.
  unfold invariant. simpl.
  repeat split; try assumption.
  - now apply deque_append_length.
  - now apply deque_append_length.
  - apply deque_append_bounded; [lia | assumption].
  - intros [n Hn]. rewrite Hm' in Hn. apply Hdom.
    destruct (failure_counts self !! k); [eauto | discriminate].
  - intros Hk. rewrite Hm'. apply Hdom in Hk. destruct Hk as [n ->]. simpl. eauto.
  - intros k n. rewrite Hm'.
    destruct (failure_counts self !! k) as [n0|] eqn:Hk; [|discriminate].
    simpl. intros [= <-]. pose proof (Hnn k n0 Hk).
    pose proof (tally_increment_nonneg (categories self) success conditions k). lia.
Qed.

Lemma reset_invariant self0 self r self' :
  0 <= window_size self0 ->
  invariant self0 self ->
  reset_statistics self = (r, self') ->
  invariant self0 self'.
Proof.
  intros Hws0 (Hws & Hmsr & Hcats & _) [= <- <-].
  unfold invariant, len. simpl.
  repeat split; try assumption; try lia.
  - rewrite FailureDetectorFacts.zero_counts_lookup.
    destruct (decide _); [auto|]. now intros [? ?].
  - intros Hk. rewrite FailureDetectorFacts.zero_counts_lookup.
    destruct (decide _); [eauto|tauto].
  - intros k n. rewrite FailureDetectorFacts.zero_counts_lookup.
    destruct (decide _); [|discriminate]. intros [= <-]. lia.
Qed.

Lemma reachable_from_invariant ws msr cats self0 self :
  __init__ ws msr cats = Ok self0 ->
  reachable_from self0 self -> invariant self0 self.
Proof.
  intros Hinit Hreach.
  assert (Hws0 : 0 <= window_size self0).
  { unfold __init__ in Hinit. destruct (Z.ltb_spec ws 0); [discriminate|].
    injection Hinit as <-. assumption. }
  induction Hreach;
    eauto using init_invariant, record_invariant, reset_invariant.
Qed.

(** X1 (invariant of the detector).  On every detector reached from the
    one [__init__] built, by any calls of [record_episode] and
    [reset_statistics]: the configuration (window size, threshold,
    categories) is the one given at construction; the three windows have
    the same length, which never exceeds [window_size]; the tally has
    exactly the configured categories as keys; and no tally is
    negative. *)
Theorem detector_invariant (ws : Z) (msr : float) (cats : option (list string))
    (self0 self : t) :
  __init__ ws msr cats = Ok self0 ->
  reachable_from self0 self ->
  window_size self = ws /\
  min_success_rate self = msr /\
  categories self = categories self0 /\
  length (episode_rewards self) = length (episode_successes self) /\
  length (episode_lengths self) = length (episode_successes self) /\
  len (episode_successes self) <= ws /\
  (forall k, is_Some (failure_counts self !! k) <-> k ∈ categories self) /\
  (forall k n, failure_counts self !! k = Some n -> 0 <= n).
Proof.
  intros Hinit Hreach.
  destruct (reachable_from_invariant _ _ _ _ _ Hinit Hreach)
    as (Hws & Hmsr & Hcats & Hlr & Hll & Hbound & Hdom & Hnn).
  assert (window_size self0 = ws /\ min_success_rate self0 = msr) as [Hw0 Hm0].
  { unfold __init__ in Hinit. destruct (ws <? 0); [discriminate|].
    injection Hinit as <-. split; reflexivity. }
  rewrite <- Hw0, <- Hm0, <- Hws, <- Hmsr. repeat split; try assumption; apply Hdom.
Qed.

(** X2 ([reset_statistics] starts over).  Resetting any detector reached
    from the one [__init__] built gives that initial detector back, but
    for [current_conditions], which keeps its last value: windows empty,
    every tally at zero, configuration untouched. *)
Theorem reset_statistics_restores (ws : Z) (msr : float)
    (cats : option (list string)) (self0 self : t) :
  __init__ ws msr cats = Ok self0 ->
  reachable_from self0 self ->
  reset_statistics self =
    (Ok tt, set_current_conditions (current_conditions self) self0).
Proof.
  intros Hinit Hreach.
  destruct (reachable_from_invariant _ _ _ _ _ Hinit Hreach)
    as (Hws & Hmsr & Hcats & _).
  unfold reset_statistics, modify, set_current_conditions.
  rewrite Hws, Hmsr, Hcats.
  unfold __init__ in Hinit. destruct (ws <? 0); [discriminate|].
  injection Hinit as <-. reflexivity.
Qed.


(** *** The queries *)

Lemma dict_keys_elem (cats seen : list string) (k : string) :
  k ∈ dict_keys seen cats <-> k ∈ cats /\ k ∉ seen.
Proof.
  revert seen. induction cats as [|c cs IH]; intros seen; simpl.
  - rewrite elem_of_nil. tauto.
  - destruct (decide (c ∈ seen)) as [Hin|Hnin].
    + rewrite IH, elem_of_cons. split; [tauto|].
      intros [[->|H] Hk]; [contradiction | tauto].
    + rewrite !elem_of_cons, IH, elem_of_cons.
      destruct (decide (k = c)) as [->|Hne]; tauto.
Qed.

Lemma dict_keys_nodup_input (cats seen : list string) :
  NoDup cats -> (forall c, c ∈ cats -> c ∉ seen) -> dict_keys seen cats = cats.
Proof.
  revert seen. induction cats as [|c cs IH]; intros seen Hnd Hseen; simpl.
  - reflexivity.
  - apply NoDup_cons in Hnd as [Hc Hnd].
    destruct (decide (c ∈ seen)) as [Hin|_].
    + exfalso. apply (Hseen c); [apply elem_of_cons; now left | assumption].
    + f_equal. apply IH; [assumption|].
      intros c' Hc'. rewrite elem_of_cons. intros [->|H]; [contradiction|].
      apply (Hseen c'); [apply elem_of_cons; now right | assumption].
Qed.

(** The items of the tally are the configured categories, each once, in
    the order of their first declaration, with their tallies. *)
Lemma failure_items_spec (self : t) :
  keys_ok (categories self) (failure_counts self) ->
  failure_items self =
    map (fun c => (c, tally self c)) (dict_keys [] (categories self)).
Proof.
  intros Hkeys. unfold failure_items.
  assert (H : forall c, c ∈ dict_keys [] (categories self) -> c ∈ categories self).
  { intros c Hc. now apply dict_keys_elem in Hc. }
  induction (dict_keys [] (categories self)) as [|c cs IH]; simpl; [reflexivity|].
  destruct (Hkeys c) as [n Hn]; [apply H, elem_of_cons; now left|].
  unfold tally at 1. rewrite Hn. simpl. f_equal.
  apply IH. intros c' Hc'. apply H, elem_of_cons. now right.
Qed.

(** [max] returns the first of the largest. *)
Lemma max_by_count_spec (best : string * Z) (rest : list (string * Z)) :
  exists pre post,
    best :: rest = pre ++ max_by_count best rest :: post /\
    (forall x, x ∈ pre -> snd x < snd (max_by_count best rest)) /\
    (forall x, x ∈ post -> snd x <= snd (max_by_count best rest)).
Proof.
  revert best. induction rest as [|x rest IH]; intros best; simpl.
  - exists [], []. split; [reflexivity|]. split; intros y Hy; now apply elem_of_nil in Hy.
  - destruct (Z.ltb_spec (snd best) (snd x)) as [Hlt|Hge].
    + destruct (IH x) as (pre & post & Heq & Hpre & Hpost).
      exists (best :: pre), post. split; [now rewrite Heq|].
      split; [|exact Hpost].
      intros y Hy. apply elem_of_cons in Hy as [->|Hy]; [|now apply Hpre].
      destruct pre as [|p pre'].
      * injection Heq as <- _. exact Hlt.
      * injection Heq as <- _.
        assert (snd x < snd (max_by_count x rest))
          by (apply Hpre, elem_of_cons; now left). lia.
    + destruct (IH best) as (pre & post & Heq & Hpre & Hpost).
      destruct pre as [|p pre'].
      * injection Heq as Hb Hr. exists [], (x :: post).
        split; [simpl; rewrite <- Hb, <- Hr; reflexivity|].
        split; [intros y Hy; now apply elem_of_nil in Hy|].
        intros y Hy. apply elem_of_cons in Hy as [->|Hy]; [|now apply Hpost].
        rewrite <- Hb. exact Hge.
      * injection Heq as <- Hr. exists (best :: x :: pre'), post.
        split; [simpl; do 2 f_equal; exact Hr|].
        split; [|exact Hpost].
        assert (Hb : snd best < snd (max_by_count best rest))
          by (apply Hpre, elem_of_cons; now left).
        intros y Hy. apply elem_of_cons in Hy as [->|Hy]; [exact Hb|].
        apply elem_of_cons in Hy as [->|Hy]; [lia|].
        apply Hpre, elem_of_cons. now right.
Qed.

Lemma reachable_categories_nonempty (self : t) :
  reachable self -> categories self <> [].
Proof.
  induction 1 as [ws msr cats self Hinit
                 | self reward success length conditions r self' Hreach IH Hrun
                 | self r self' _ IH Hreset].
  - unfold __init__ in Hinit. destruct (ws <? 0); [discriminate|].
    injection Hinit as <-. simpl. destruct cats as [[|c cs]|]; discriminate.
  - pose proof (FailureDetectorFacts.reachable_well_formed self Hreach) as (_ & _ & _ & _ & Hkeys).
    destruct (FailureDetectorFacts.record_episode_spec self reward success length
                conditions Hkeys) as (m' & Heq & _).
    rewrite Heq in Hrun. injection Hrun as <- <-. exact IH.
  - injection Hreset as <- <-. exact IH.
Qed.

Lemma reachable_tally_not_empty (self : t) :
  reachable self -> failure_counts self <> ∅.
Proof.
  intros Hreach Hempty.
  pose proof (reachable_categories_nonempty self Hreach) as Hne.
  pose proof (FailureDetectorFacts.reachable_well_formed self Hreach)
    as (_ & _ & _ & _ & Hkeys).
  destruct (categories self) as [|c cs] eqn:Hcats; [congruence|].
  destruct (Hkeys c) as [n Hn]; [apply elem_of_cons; now left|].
  rewrite Hempty, lookup_empty in Hn. discriminate.
Qed.

(** X3 ([get_weakest_category]).  On every detector the class can
    produce the call returns a configured category whose tally is the
    largest of all; among several with the largest tally it is the one
    declared first: every category declared before it has a strictly
    smaller tally.  ([dict_keys [] cats] is [cats] without repeated
    names, and [cats] itself when no name is repeated.) *)
Theorem weakest_category_is_first_maximum (self : t) :
  reachable self ->
  exists c pre post,
    get_weakest_category self = (Ok c, self) /\
    dict_keys [] (categories self) = pre ++ c :: post /\
    (NoDup (categories self) -> categories self = pre ++ c :: post) /\
    c ∈ categories self /\
    (forall c', c' ∈ categories self -> tally self c' <= tally self c) /\
    (forall c', c' ∈ pre -> tally self c' < tally self c).
Proof.
  intros Hreach.
  pose proof (reachable_tally_not_empty self Hreach) as Hne.
  pose proof (FailureDetectorFacts.reachable_well_formed self Hreach)
    as (_ & _ & _ & _ & Hkeys).
  pose proof (failure_items_spec self Hkeys) as Hitems.
  unfold get_weakest_category, bind, get.
  destruct (decide (failure_counts self = ∅)) as [He|_]; [contradiction|].
  destruct (failure_items self) as [|x rest] eqn:Hfi.
  { exfalso. pose proof (reachable_categories_nonempty self Hreach) as Hc.
    destruct (categories self) as [|c cs] eqn:Hcats; [congruence|].
    assert (Hin : c ∈ dict_keys [] (c :: cs)).
    { apply dict_keys_elem. split; [apply elem_of_cons; now left|].
      intros H. now apply elem_of_nil in H. }
    destruct (dict_keys [] (c :: cs)); [now apply elem_of_nil in Hin | discriminate]. }
  destruct (max_by_count_spec x rest) as (pre & post & Heq & Hpre & Hpost).
  set (best := max_by_count x rest) in *.
  assert (Hkeys_eq : dict_keys [] (categories self) =
                     map fst pre ++ fst best :: map fst post).
  { transitivity (map fst (map (fun c => (c, tally self c))
                               (dict_keys [] (categories self)))).
    - rewrite map_map. simpl. now rewrite map_id.
    - rewrite <- Hitems, Heq, map_app. reflexivity. }
  assert (Hsnd : forall y, y ∈ x :: rest -> snd y = tally self (fst y)).
  { intros y Hy. rewrite Hitems in Hy. apply list_elem_of_In, in_map_iff in Hy.
    destruct Hy as (c & <- & _). reflexivity. }
  assert (Hbest : best ∈ x :: rest).
  { rewrite Heq. apply elem_of_app. right. apply elem_of_cons. now left. }
  exists (fst best), (map fst pre), (map fst post).
  split; [reflexivity|]. split; [exact Hkeys_eq|].
  split.
  { intros Hnd. rewrite <- Hkeys_eq. symmetry.
    apply dict_keys_nodup_input; [exact Hnd|].
    intros c _ H. now apply elem_of_nil in H. }
  split.
  { apply (dict_keys_elem (categories self) [] (fst best)).
    rewrite Hkeys_eq. apply elem_of_app. right. apply elem_of_cons. now left. }
  split.
  - intros c' Hc'.
    assert (Hin : c' ∈ dict_keys [] (categories self)).
    { apply dict_keys_elem. split; [exact Hc'|]. intros H. now apply elem_of_nil in H. }
    assert (Hitem : (c', tally self c') ∈ x :: rest).
    { rewrite Hitems. apply list_elem_of_In, in_map_iff. exists c'.
      split; [reflexivity|]. now apply list_elem_of_In. }
    rewrite <- (Hsnd best Hbest).
    rewrite Heq in Hitem. apply elem_of_app in Hitem as [Hitem|Hitem].
    + apply Hpre in Hitem. simpl in Hitem. lia.
    + apply elem_of_cons in Hitem as [Hitem|Hitem].
      * rewrite <- Hitem. simpl. lia.
      * apply Hpost in Hitem. exact Hitem.
  - intros c' Hc'. apply list_elem_of_In, in_map_iff in Hc'.
    destruct Hc' as (y & <- & Hy). apply list_elem_of_In in Hy.
    rewrite <- (Hsnd best Hbest).
    rewrite <- (Hsnd y).
    + now apply Hpre.
    + rewrite Heq. apply elem_of_app. now left.
Qed.

Lemma weakest_category_witness :
  let r := record_episode 0%float false 1 (Some "behind an occlusion"%string)
             lighting_occlusion_detector in
  get_weakest_category (snd r) = (Ok "occlusion"%string, snd r).
Proof.
  intros r.
  destruct (weakest_category_is_first_maximum (snd r)) as (c & pre & post & Hrun & _).
  - apply (reach_record lighting_occlusion_detector 0%float false 1
             (Some "behind an occlusion"%string) (fst r) (snd r)).
    + exact (reach_init _ _ _ _ FailureDetectorFacts.lighting_occlusion_detector_init).
    + apply surjective_pairing.
  - rewrite Hrun. f_equal.
    assert (H : fst (get_weakest_category (snd r)) = Ok "occlusion"%string)
      by (vm_compute; reflexivity).
    rewrite Hrun in H. exact H.
Defined.

Lemma modes_sublist (P : string * Z -> bool) (f : string -> string * Z)
    (keys : list string) :
  (forall c, fst (f c) = c) ->
  sublist (map fst (filter (fun item => P item = true) (map f keys))) keys.
Proof.
  intros Hf. induction keys as [|c cs IH]; simpl; [constructor|].
  rewrite filter_cons. destruct (decide (P (f c) = true)); simpl.
  - rewrite Hf. now apply sublist_skip.
  - now apply sublist_cons.
Qed.

Lemma sum_of_zeros (xs : list Z) :
  Forall (fun x => x = 0) xs -> fold_left Z.add xs 0 = 0.
Proof.
  induction 1 as [|x xs -> _ IH]; simpl; [reflexivity | exact IH].
Qed.

(** X4 ([get_failure_modes]).  On every detector the class can produce
    the call returns, and what it returns is a selection of the
    configured categories in their order of declaration, none repeated.
    While every tally is zero -- on a new detector and after a reset --
    it returns the empty list. *)
Theorem failure_modes_are_categories (self : t) :
  reachable self ->
  exists modes,
    get_failure_modes self = (Ok modes, self) /\
    sublist modes (dict_keys [] (categories self)) /\
    (forall c, c ∈ modes -> c ∈ categories self) /\
    ((forall k, tally self k = 0) -> modes = []).
Proof.
  intros Hreach.
  pose proof (reachable_tally_not_empty self Hreach) as Hne.
  pose proof (FailureDetectorFacts.reachable_well_formed self Hreach)
    as (_ & _ & _ & _ & Hkeys).
  pose proof (failure_items_spec self Hkeys) as Hitems.
  unfold get_failure_modes, bind, get, ret.
  destruct (decide (failure_counts self = ∅)) as [He|_]; [contradiction|].
  eexists. split; [reflexivity|].
  assert (Hsub : sublist
            (map fst (filter (fun item =>
               int_gt_float (snd item)
                 (np_mean_ints (map snd (failure_items self))) = true)
               (failure_items self)))
            (dict_keys [] (categories self))).
  { rewrite Hitems.
    apply (modes_sublist (fun item => int_gt_float (snd item) _)). reflexivity. }
  split; [exact Hsub|]. split.
  - intros c Hc. pose proof (elem_of_sublist _ _ _ Hc Hsub) as Hin.
    now apply dict_keys_elem in Hin.
  - intros Hzero. rewrite Hitems.
    assert (Hall : map (fun c => (c, tally self c)) (dict_keys [] (categories self))
                   = map (fun c => (c, 0)) (dict_keys [] (categories self))).
    { apply map_ext. intros c. now rewrite Hzero. }
    rewrite Hall.
    set (zeros := map (fun c : string => (c, 0)) (dict_keys [] (categories self))).
    assert (Havg : np_mean_ints (map snd zeros)
                   = (0 / size_to_float (len (map snd zeros)))%float).
    { unfold np_mean_ints. rewrite sum_of_zeros; [now rewrite size_to_float_0|].
      subst zeros. rewrite map_map. simpl. apply Forall_forall. intros x Hx.
      apply list_elem_of_In, in_map_iff in Hx. now destruct Hx as (? & <- & _). }
    rewrite Havg. generalize (size_to_float (len (map snd zeros))). intros y.
    subst zeros. clear Hitems Hsub Hall Havg.
    induction (dict_keys [] (categories self)) as [|c cs IH]; [reflexivity|].
    simpl map at 2. rewrite filter_cons.
    destruct (decide _) as [Hgt|_]; [|exact IH].
    exfalso. unfold int_gt_float in Hgt. simpl snd in Hgt.
    rewrite size_to_float_0 in Hgt.
    rewrite zero_div_not_negative in Hgt. discriminate.
Qed.

Lemma detector_invariant_witness :
  let self := snd (record_episode 0%float false 1 (Some "dim lighting"%string)
                     lighting_occlusion_detector) in
  window_size self = 100 /\
  length (episode_rewards self) = length (episode_successes self) /\
  len (episode_successes self) <= 100.
Proof.
  intros self.
  destruct (detector_invariant 100 0.3%float (Some ["lighting"; "occlusion"]%string)
              lighting_occlusion_detector self)
    as (Hws & _ & _ & Hlen & _ & Hbound & _).
  - exact FailureDetectorFacts.lighting_occlusion_detector_init.
  - eapply from_record; [apply from_start | apply surjective_pairing].
  - repeat split; assumption.
Defined.

Lemma reset_statistics_restores_witness :
  let self := snd (record_episode 0%float false 1 (Some "dim lighting"%string)
                     lighting_occlusion_detector) in
  reset_statistics self =
    (Ok tt, set_current_conditions (current_conditions self)
              lighting_occlusion_detector).
Proof.
  intros self.
  apply (reset_statistics_restores 100 0.3%float
           (Some ["lighting"; "occlusion"]%string)).
  - exact FailureDetectorFacts.lighting_occlusion_detector_init.
  - eapply from_record; [apply from_start | apply surjective_pairing].
Defined.

Lemma failure_modes_are_categories_witness :
  exists modes,
    get_failure_modes lighting_occlusion_detector
      = (Ok modes, lighting_occlusion_detector) /\
    modes = [].
Proof.
  destruct (failure_modes_are_categories lighting_occlusion_detector)
    as (modes & Hrun & _ & _ & Hzero).
  - exact (reach_init _ _ _ _ FailureDetectorFacts.lighting_occlusion_detector_init).
  - exists modes. split; [exact Hrun|]. apply Hzero.
    intros k. unfold tally. simpl.
    rewrite FailureDetectorFacts.zero_counts_lookup.
    destruct (decide _); reflexivity.
Defined.

End FailureDetectorMoreFacts.


(** A share of at most ten outcomes, as a float, lies between 0 and 1; it
    is 1 exactly when all succeeded and 0 exactly when none did. *)
Definition small_ratio_ok (c n : nat) : bool :=
  let r := (size_to_float (Z.of_nat c) / size_to_float (Z.of_nat n))%float in
  ((0 <=? r)%float && (r <=? 1)%float
   && Bool.eqb (r =? 1)%float (Nat.eqb c n)
   && Bool.eqb (r =? 0)%float (Nat.eqb c 0))%bool.

Lemma small_ratio_table :
  forallb (fun n => forallb (fun c => small_ratio_ok c n) (seq 0 (S n))) (seq 1 10) = true.
Proof. vm_compute. reflexivity. Qed.

Lemma small_ratio_is_rate (c n : nat) :
  (1 <= n <= 10)%nat -> (c <= n)%nat -> small_ratio_ok c n = true.
Proof.
  intros Hn Hc. pose proof small_ratio_table as H.
  rewrite forallb_forall in H.
  assert (Hin : In n (seq 1 10)) by (apply in_seq; lia).
  specialize (H n Hin). rewrite forallb_forall in H.
  apply H, in_seq. lia.
Qed.

Module LLMJudgeMoreFacts.
Import LLMJudge LLMJudgeSpec LLMJudgeHistory.

Lemma judge_get_success_rate_spec (self : t) :
  get_success_rate self =
    (Ok (FailureDetectorSpec.success_ratio (success_window self)), self).
Proof.
  unfold get_success_rate, bind, get.
  destruct (success_window self) as [|b bs] eqn:Hw; [reflexivity|].
  unfold lift, int_true_divide, FailureDetectorSpec.success_ratio.
  rewrite py_sum_bools_count.
  destruct (Z.eqb_spec (len (b :: bs)) 0) as [H0|_]; [|reflexivity].
  unfold len in H0. simpl in H0. lia.
Qed.

Lemma update_all_spec (outcomes : list bool) (self : t) :
  len (success_window self) <= window_size self ->
  update_all outcomes self =
    (Ok tt,
     mk (difficulty self) (difficulty_progression self) (evaluation_history self)
        (keep_last (window_size self) (success_window self ++ outcomes))
        (window_size self)).
Proof.
  revert self. induction outcomes as [|b bs IH]; intros self Hlen.
  - rewrite app_nil_r, keep_last_all by assumption. destruct self; reflexivity.
  - unfold update_all. rewrite for_each_cons.
    unfold update_success_window at 1, modify.
    change (if window_size self <? len (success_window self ++ [b])
            then tail (success_window self ++ [b])
            else success_window self ++ [b])
      with (deque_append (window_size self) (success_window self) b).
    unfold update_all in IH. rewrite IH; simpl.
    + rewrite deque_append_keep_last by assumption.
      rewrite keep_last_app, <- app_assoc. reflexivity.
    + assert (0 <= window_size self) by (unfold len in Hlen; lia).
      now apply deque_append_bounded.
Qed.

Lemma success_ratio_is_rate (window : list bool) :
  (length window <= 10)%nat ->
  is_rate (FailureDetectorSpec.success_ratio window).
Proof.
  intros Hlen. destruct window as [|b bs] eqn:Hw.
  - split; vm_compute; reflexivity.
  - rewrite <- Hw in *. unfold FailureDetectorSpec.success_ratio.
    assert (Hn : (1 <= length window <= 10)%nat) by (subst; simpl in *; lia).
    pose proof (count_occ_bound bool_dec true window) as Hc.
    pose proof (small_ratio_is_rate _ _ Hn Hc) as Hok.
    unfold small_ratio_ok in Hok. subst window.
    apply andb_true_iff in Hok as [Hok _].
    apply andb_true_iff in Hok as [Hok _].
    apply andb_true_iff in Hok as [H0 H1].
    split; assumption.
Qed.

(** X5 (the judge's own success window).  After any run of
    [update_success_window] on a new judge, the window holds the newest
    ten outcomes in order, the difficulty and the history are untouched,
    and [get_success_rate] returns without raising a rate between 0.0
    and 1.0: the share of successes among those outcomes, and 0.0 when
    there are none. *)
Theorem judge_success_window (p : float) (outcomes : list bool) :
  exists self,
    update_all outcomes (__init__ p) = (Ok tt, self) /\
    success_window self = keep_last 10 outcomes /\
    difficulty self = 0.3%float /\
    evaluation_history self = [] /\
    get_success_rate self =
      (Ok (FailureDetectorSpec.success_ratio (keep_last 10 outcomes)), self) /\
    is_rate (FailureDetectorSpec.success_ratio (keep_last 10 outcomes)).
Proof.
  eexists. split.
  - apply update_all_spec. unfold len. simpl. lia.
  - simpl. repeat split; try reflexivity.
    + now rewrite judge_get_success_rate_spec.
    + apply success_ratio_is_rate.
      pose proof (keep_last_length 10 outcomes ltac:(lia)) as H.
      unfold len in H. lia.
    + apply success_ratio_is_rate.
      pose proof (keep_last_length 10 outcomes ltac:(lia)) as H.
      unfold len in H. lia.
Qed.

(** X6 ([get_recent_judgments]).  The call never raises and leaves the
    judge alone.  For [n >= 1] it returns the newest [n] judgments in
    order (all of them when there are fewer).  For [n = 0] the slice
    [history[-0:]] is the whole history, not the empty list.  For a
    negative [n] it is the history without its [-n] oldest entries. *)
Theorem recent_judgments_slice (n : Z) (self : t) :
  exists recent,
    get_recent_judgments n self = (Ok recent, self) /\
    (1 <= n -> recent = keep_last n (evaluation_history self)) /\
    (n = 0 -> recent = evaluation_history self) /\
    (n < 0 -> recent = drop (Z.to_nat (- n)) (evaluation_history self)).
Proof.
  eexists. split; [reflexivity|]. unfold slice_from, keep_last, len.
  repeat split.
  - intros Hn. destruct (Z.ltb_spec (- n) 0); [|lia]. f_equal. lia.
  - intros ->. reflexivity.
  - intros Hn. destruct (Z.ltb_spec (- n) 0); [lia|]. reflexivity.
Qed.

(** X7 (the history is append-only).  Whatever the service answers over
    a run of [evaluate_performance] calls, starting from any judge:
    every call returns; the history afterwards is the old history
    followed by the judgments added, at most one per call; each added
    judgment carries a difficulty level in [0.1, 1.0]; the stored
    difficulty is the level of the newest added judgment, or the old
    difficulty when none was added; and the success window is not
    touched. *)
Theorem history_is_append_only
    (json_loads : string -> result json) (calls : list (Z * api_outcome))
    (self : t) :
  exists added self',
    evaluate_all json_loads calls self = (Ok tt, self') /\
    evaluation_history self' = evaluation_history self ++ added /\
    (length added <= length calls)%nat /\
    Forall (fun j => in_range (difficulty_level j)) added /\
    difficulty self' = default (difficulty self) (difficulty_level <$> last added) /\
    success_window self' = success_window self /\
    window_size self' = window_size self.
Proof.
  revert self. induction calls as [|[now outcome] calls IH]; intros self.
  - exists [], self. rewrite app_nil_r. repeat split; auto.
  - unfold evaluate_all. rewrite for_each_cons. unfold bind at 1. simpl fst. simpl snd.
    destruct (LLMJudgeFacts.try_body_cases json_loads outcome self)
      as [[e He] | (text & rest & inner & items & raw & -> & Hx & Hp & Ha)];
      [ rewrite (LLMJudgeFacts.evaluate_fails json_loads now _ _ _ He)
      | rewrite (LLMJudgeFacts.evaluate_succeeds json_loads now _ rest _ _ _ _ Hx Hp Ha) ];
      unfold ret at 1.
    + destruct (IH self) as (added & self' & Hall & Hhist & Hlen & Hrange & Hd & Hw & Hs).
      exists added, self'. unfold evaluate_all in Hall. rewrite Hall.
      repeat split; auto. simpl. lia.
    + set (d' := py_max 0.1 (py_min 1.0 raw)) in *.
      set (j := normal_judgment now items d') in *.
      destruct (IH (append_history j (set_difficulty d' self)))
        as (added & self' & Hall & Hhist & Hlen & Hrange & Hd & Hw & Hs).
      exists (j :: added), self'. unfold evaluate_all in Hall. rewrite Hall.
      split; [reflexivity|]. split.
      { rewrite Hhist. simpl. now rewrite <- app_assoc. }
      split; [simpl; lia|]. split.
      { constructor; [apply clamp_in_range | exact Hrange]. }
      split; [|split; assumption].
      rewrite Hd.
      change (difficulty (append_history j (set_difficulty d' self))) with d'.
      destruct added as [|a added']; [reflexivity|].
      change (last (j :: a :: added')) with (last (a :: added')).
      destruct (last (a :: added')) eqn:Hl; [reflexivity|].
      apply last_None in Hl. discriminate.
Qed.

End LLMJudgeMoreFacts.

Module ExtractJsonFacts.
Import LLMJudge.

Lemma prefix_nil (s : string) : String.prefix EmptyString s = true.
Proof. destruct s; reflexivity. Qed.

Lemma append_cons (c : ascii) (s t : string) :
  String.append (String c s) t = String c (String.append s t).
Proof. reflexivity. Qed.

Lemma append_nil_r (s : string) : String.append s EmptyString = s.
Proof.
  induction s as [|c s IH]; [reflexivity|]. now rewrite append_cons, IH.
Qed.

Lemma append_snoc (cur : string) (c : ascii) (a : string) :
  String.append (String.append cur (String c EmptyString)) a
  = String.append cur (String c a).
Proof.
  induction cur as [|x cur IH]; [reflexivity|]. now rewrite !append_cons, IH.
Qed.

(** [split] always yields at least one piece. *)
Lemma split_from_length (sep : string) (skip : nat) (cur s : string) :
  (1 <= length (split_from sep skip cur s))%nat.
Proof.
  revert skip cur.
  induction s as [|c s IH]; intros skip cur; cbn [split_from]; [simpl; lia|].
  destruct skip as [|k]; [|apply IH].
  destruct (String.prefix sep (String c s)); [cbn [length]; lia | apply IH].
Qed.

(** ... and at least two when the separator occurs. *)
Lemma split_from_length_in (a : ascii) (sep' : string) (cur s : string) :
  py_in (String a sep') s = true ->
  (2 <= length (split_from (String a sep') 0 cur s))%nat.
Proof.
  revert cur. induction s as [|c s IH]; intros cur Hin.
  - discriminate Hin.
  - cbn [py_in] in Hin. cbn [split_from].
    destruct (String.prefix (String a sep') (String c s)) eqn:Hp.
    + cbn [length].
      pose proof (split_from_length (String a sep')
                    (String.length (String a sep') - 1) EmptyString s). lia.
    + now apply IH.
Qed.

Lemma prefix_app_l (a b s : string) :
  String.prefix (String.append a b) s = true -> String.prefix a s = true.
Proof.
  revert s. induction a as [|x a IH]; intros s; [intros _; apply prefix_nil|].
  rewrite append_cons. destruct s as [|y s]; [discriminate|].
  cbn [String.prefix]. destruct (ascii_dec x y); [apply IH | discriminate].
Qed.

(** A text that contains [a ++ b] contains [a]. *)
Lemma py_in_app_l (a b s : string) :
  py_in (String.append a b) s = true -> py_in a s = true.
Proof.
  induction s as [|c s IH].
  - cbn [py_in]. destruct (String.prefix (String.append a b) EmptyString) eqn:Hp;
      [|discriminate].
    intros _. now rewrite (prefix_app_l _ _ _ Hp).
  - cbn [py_in]. destruct (String.prefix (String.append a b) (String c s)) eqn:Hp.
    + intros _. now rewrite (prefix_app_l _ _ _ Hp).
    + intros H. rewrite (IH H). now destruct (String.prefix a (String c s)).
Qed.

Lemma index_ok {A} (xs : list A) (i : nat) :
  (i < length xs)%nat -> exists x, index xs i = Ok x.
Proof.
  intros H. unfold index. destruct (nth_error xs i) eqn:Hn; [eauto|].
  apply nth_error_None in Hn. lia.
Qed.

(** X8 ([IndexError] cannot happen).  The two lines that take the JSON
    out of a Markdown code block index the result of [split] with [1]
    and [0]; whatever the text, both pieces exist, so the extraction
    always yields a text.  A text without any fence is passed on
    unchanged. *)
Theorem extract_json_never_raises (text : string) :
  (exists inner, extract_json text = Ok inner) /\
  (py_in fence text = false -> extract_json text = Ok text).
Proof.
  split.
  - unfold extract_json.
    destruct (py_in fence_json text) eqn:Hj.
    + destruct (index_ok (split text fence_json) 1) as [inner ->].
      { apply (split_from_length_in _ _ EmptyString text Hj). }
      apply index_ok. apply (split_from_length fence 0 EmptyString inner).
    + destruct (py_in fence text) eqn:Hf; [|eauto].
      destruct (index_ok (split text fence) 1) as [inner ->].
      { apply (split_from_length_in _ _ EmptyString text Hf). }
      apply index_ok. apply (split_from_length fence 0 EmptyString inner).
  - intros Hf. unfold extract_json. rewrite Hf.
    destruct (py_in fence_json text) eqn:Hj; [|reflexivity].
    change fence_json with (String.append fence "json") in Hj.
    apply py_in_app_l in Hj. congruence.
Qed.

Lemma append_assoc (a b c : string) :
  (a +:+ b) +:+ c = a +:+ (b +:+ c).
Proof.
  induction a as [|x a IH]; [reflexivity|]. now rewrite !append_cons, IH.
Qed.

Lemma no_backtick_cons (c : ascii) (s : string) :
  no_backtick (String c s) = true -> c <> backtick /\ no_backtick s = true.
Proof.
  cbn [no_backtick]. intros H. apply andb_true_iff in H as [H1 H2].
  split; [|exact H2]. intros ->. now rewrite Ascii.eqb_refl in H1.
Qed.

(** A separator that starts with a backtick does not start at another
    character. *)
Lemma prefix_backtick (sep' : string) (c : ascii) (s : string) :
  c <> backtick -> String.prefix (String backtick sep') (String c s) = false.
Proof.
  intros Hc. cbn [String.prefix].
  destruct (ascii_dec backtick c) as [E|]; [now subst | reflexivity].
Qed.

(** Splitting passes over a stretch without backticks. *)
Lemma split_from_no_backtick (sep' a rest cur : string) :
  no_backtick a = true ->
  split_from (String backtick sep') 0 cur (a +:+ rest)
  = split_from (String backtick sep') 0 (cur +:+ a) rest.
Proof.
  revert cur. induction a as [|c a IH]; intros cur Ha.
  - now rewrite append_nil_r.
  - apply no_backtick_cons in Ha as [Hc Ha].
    rewrite append_cons. cbn [split_from].
    rewrite (prefix_backtick _ _ _ Hc), (IH _ Ha), append_snoc. reflexivity.
Qed.

Lemma split_no_backtick (sep' a : string) :
  no_backtick a = true -> split a (String backtick sep') = [a].
Proof.
  intros Ha. unfold split.
  rewrite <- (append_nil_r a) at 1.
  now rewrite (split_from_no_backtick _ _ _ _ Ha).
Qed.

Lemma split_from_at_fence (cur rest : string) :
  split_from fence 0 cur (fence +:+ rest) = cur :: split_from fence 0 EmptyString rest.
Proof. destruct rest; reflexivity. Qed.

Lemma split_from_at_fence_json (cur rest : string) :
  split_from fence_json 0 cur (fence_json +:+ rest)
  = cur :: split_from fence_json 0 EmptyString rest.
Proof. destruct rest; reflexivity. Qed.

Lemma py_in_app_r (sep a b : string) :
  py_in sep b = true -> py_in sep (a +:+ b) = true.
Proof.
  intros Hb. induction a as [|c a IH]; [exact Hb|].
  rewrite append_cons. cbn [py_in]. rewrite IH.
  now destruct (String.prefix sep (String c (a +:+ b))).
Qed.

Lemma py_in_fence (a rest : string) : py_in fence (a +:+ fence +:+ rest) = true.
Proof. apply py_in_app_r. destruct rest; reflexivity. Qed.

Lemma py_in_fence_json (a rest : string) :
  py_in fence_json (a +:+ fence_json +:+ rest) = true.
Proof. apply py_in_app_r. destruct rest; reflexivity. Qed.

(** The first piece of what follows an opening fence, when the block is
    closed by a plain fence: the body when the closing fence is followed
    by [json], the whole rest otherwise. *)
Lemma split_json_body (body post : string) :
  no_backtick body = true -> no_backtick post = true ->
  exists inner,
    index (split_from fence_json 0 EmptyString (body +:+ fence +:+ post)) 0
    = Ok inner /\
    (inner = body \/ inner = body +:+ fence +:+ post).
Proof.
  intros Hb Hp.
  change fence_json with (String backtick "``json") at 1.
  rewrite (split_from_no_backtick _ _ _ _ Hb).
  change (String backtick "``json") with fence_json.
  change (EmptyString +:+ body) with body.
  destruct (String.prefix fence_json (fence +:+ post)) eqn:Hpre.
  - exists body. split; [|now left].
    change (fence +:+ post) with (String backtick (String backtick (String backtick post))) in *.
    cbn [split_from]. rewrite Hpre. reflexivity.
  - exists (body +:+ fence +:+ post). split; [|now right].
    change (fence +:+ post) with (String backtick (String backtick (String backtick post))) in *.
    cbn [split_from]. rewrite Hpre.
    assert (H2 : String.prefix fence_json (String backtick (String backtick post)) = false).
    { destruct post as [|c post]; [reflexivity|].
      apply no_backtick_cons in Hp as [Hc _].
      change fence_json with (String backtick (String backtick (String backtick "json"))).
      cbn [String.prefix]. destruct (ascii_dec backtick backtick); [|reflexivity].
      destruct (ascii_dec backtick c) as [E|]; [now subst | reflexivity]. }
    assert (H1 : String.prefix fence_json (String backtick post) = false).
    { destruct post as [|c post]; [reflexivity|].
      apply no_backtick_cons in Hp as [Hc _].
      change fence_json with (String backtick (String backtick (String backtick "json"))).
      cbn [String.prefix]. destruct (ascii_dec backtick backtick); [|reflexivity].
      destruct (ascii_dec backtick c) as [E|]; [now subst | reflexivity]. }
    rewrite H2, H1.
    rewrite <- (append_nil_r post) at 1.
    change fence_json with (String backtick "``json").
    rewrite (split_from_no_backtick _ _ _ _ Hp). cbn [split_from index nth_error].
    rewrite !append_snoc.
    change (String backtick (String backtick (String backtick post)))
      with (fence +:+ post).
    reflexivity.
Qed.

Lemma split_fence_body (body post : string) :
  no_backtick body = true ->
  split (body +:+ fence +:+ post) fence
  = body :: split_from fence 0 EmptyString post.
Proof.
  intros Hb. unfold split.
  change fence with (String backtick "``") at 1.
  rewrite (split_from_no_backtick _ _ _ _ Hb).
  change (String backtick "``") with fence.
  apply split_from_at_fence.
Qed.

(** X9 (a fenced block is taken out).  For a reply whose prose before the
    block, JSON body and prose after the block contain no backtick:
    [pre ```json body ``` post] and, when the text has no [```json],
    [pre ``` body ``` post] both yield exactly [body]; so does a block
    that is opened by [```json] and never closed. *)
Theorem extract_json_fenced (pre body post : string) :
  no_backtick pre = true -> no_backtick body = true ->
  no_backtick post = true ->
  extract_json (pre +:+ fence_json +:+ body +:+ fence +:+ post) = Ok body /\
  (py_in fence_json (pre +:+ fence +:+ body +:+ fence +:+ post) = false ->
   extract_json (pre +:+ fence +:+ body +:+ fence +:+ post) = Ok body) /\
  extract_json (pre +:+ fence_json +:+ body) = Ok body.
Proof.
  intros Hpre Hb Hpost.
  assert (Hsplit : forall rest,
    split (pre +:+ fence_json +:+ rest) fence_json
    = pre :: split_from fence_json 0 EmptyString rest).
  { intros rest. unfold split.
    change fence_json with (String backtick "``json") at 1.
    rewrite (split_from_no_backtick _ _ _ _ Hpre).
    change (String backtick "``json") with fence_json.
    apply split_from_at_fence_json. }
  split; [|split].
  - unfold extract_json. rewrite py_in_fence_json, Hsplit.
    destruct (split_json_body body post Hb Hpost) as (inner & Hi & Hcase).
    change (index (pre :: ?l) 1) with (index l 0).
    rewrite Hi.
    destruct Hcase as [-> | ->].
    + change fence with (String backtick "``").
      now rewrite (split_no_backtick _ _ Hb).
    + now rewrite (split_fence_body _ _ Hb).
  - intros Hno. unfold extract_json. rewrite Hno, py_in_fence.
    assert (Hs : split (pre +:+ fence +:+ body +:+ fence +:+ post) fence
                 = pre :: body :: split_from fence 0 EmptyString post).
    { unfold split at 1.
      change fence with (String backtick "``") at 1.
      rewrite (split_from_no_backtick _ _ _ _ Hpre).
      change (String backtick "``") with fence.
      change (EmptyString +:+ pre) with pre.
      rewrite split_from_at_fence. f_equal.
      apply (split_fence_body _ _ Hb). }
    rewrite Hs. cbn [index nth_error].
    change fence with (String backtick "``").
    now rewrite (split_no_backtick _ _ Hb).
  - unfold extract_json. rewrite py_in_app_r by (destruct body; reflexivity).
    rewrite Hsplit. change (index (pre :: ?l) 1) with (index l 0).
    change (split_from fence_json 0 EmptyString body)
      with (split body (String backtick "``json")).
    rewrite (split_no_backtick _ _ Hb). cbn [index nth_error].
    change fence with (String backtick "``").
    now rewrite (split_no_backtick _ _ Hb).
Qed.

Lemma extract_json_fenced_witness :
  extract_json ("Here you are: " +:+ fence_json +:+ "{}" +:+ fence +:+ " bye")
  = Ok "{}".
Proof.
  apply (extract_json_fenced "Here you are: " "{}" " bye"); reflexivity.
Defined.

End ExtractJsonFacts.

Module CurriculumCallbackMoreFacts.
Import CurriculumCallback CurriculumCallbackRuns.

(** What one step can do to the callback, whether or not it ends an
    episode. *)
Lemma on_step_effect (reward : float) (done : bool) (controller : result string)
    (self : t) :
  FailureDetectorSpec.well_formed (failure_detector self) ->
  adaptation_frequency self <> 0 ->
  exists self',
    _on_step reward done controller self = (Ok true, self') /\
    FailureDetectorSpec.well_formed (failure_detector self') /\
    adaptation_frequency self' = adaptation_frequency self /\
    controller_calls self <= controller_calls self' /\
    controller_calls self' <= controller_calls self + (if done then 1 else 0) /\
    (env_current_conditions self' = env_current_conditions self \/
     exists p, controller = Ok p /\ env_current_conditions self' = Some p).
Proof.
  intros Hwf Hfreq. destruct done.
  - destruct (CurriculumCallbackFacts.on_step_done reward controller self Hwf Hfreq)
      as (fd' & Hrec & Hstep).
    cbv zeta in Hstep. rewrite Hstep. eexists. split; [reflexivity|].
    cbn [failure_detector adaptation_frequency controller_calls
         env_current_conditions].
    split; [eapply FailureDetectorFacts.record_episode_well_formed; eauto|].
    split; [reflexivity|].
    match goal with |- context [if ?d then 1 else 0] => destruct d end.
    + repeat split; try lia. destruct controller; eauto.
    + repeat split; try lia. now left.
  - rewrite CurriculumCallbackFacts.on_step_running. eexists. split; [reflexivity|].
    destruct self; cbn in *. split; [exact Hwf|].
    repeat split; try lia; auto.
Qed.

(** X10 (a run of training steps).  With a non-zero adaptation
    frequency, a run of [_on_step] calls never raises, whatever the
    rewards, the [done] flags and the behaviour of the controller; the
    detector stays within its bounds, the frequency is not touched, the
    controller is called at most once per ended episode, and the
    conditions of the environment are either the ones before the run or
    a perturbation the controller returned during it. *)
Theorem steps_never_fail (inputs : list (float * bool * result string))
    (self : t) :
  FailureDetectorSpec.well_formed (failure_detector self) ->
  adaptation_frequency self <> 0 ->
  exists self',
    steps inputs self = (Ok tt, self') /\
    FailureDetectorSpec.well_formed (failure_detector self') /\
    adaptation_frequency self' = adaptation_frequency self /\
    controller_calls self <= controller_calls self' /\
    controller_calls self' <= controller_calls self + episodes_ended inputs /\
    (env_current_conditions self' = env_current_conditions self \/
     exists p, p ∈ offered inputs /\ env_current_conditions self' = Some p).
Proof.
  revert self. induction inputs as [|[[reward done] controller] inputs IH];
    intros self Hwf Hfreq.
  - exists self. unfold episodes_ended, len. cbn [filter length].
    split; [reflexivity|]. split; [exact Hwf|]. repeat split; try lia; auto.
  - destruct (on_step_effect reward done controller self Hwf Hfreq)
      as (self1 & Hstep & Hwf1 & Hf1 & Hc1 & Hc1' & Henv1).
    destruct (IH self1 Hwf1 ltac:(congruence))
      as (self' & Hrun & Hwf' & Hf' & Hc' & Hc'' & Henv').
    exists self'. split.
    { unfold steps in *. rewrite for_each_cons.
      unfold bind at 1. unfold bind at 1. cbn [fst snd]. rewrite Hstep.
      unfold ret at 1. exact Hrun. }
    split; [exact Hwf'|]. split; [congruence|]. split; [lia|].
    split.
    { unfold episodes_ended, len in *. rewrite filter_cons. cbn [fst snd].
      destruct done; [rewrite decide_True by reflexivity
                     | rewrite decide_False by discriminate];
        cbn [length] in *; lia. }
    unfold offered in *. cbn [omap snd].
    destruct Henv' as [E | (p & Hp & E)].
    + destruct Henv1 as [E1 | (p & -> & E1)].
      * left. congruence.
      * right. exists p. split; [apply elem_of_cons; now left | congruence].
    + right. exists p. split; [|exact E].
      destruct controller; [apply elem_of_cons; now right | exact Hp].
Qed.

Lemma steps_never_fail_witness :
  exists self',
    steps [((-0.01)%float, true, Ok "dim the lights"%string);
           (1%float, false, Raise (Exception ServiceError "down"))]
      CurriculumCallbackSpec.default_callback = (Ok tt, self') /\
    FailureDetectorSpec.well_formed (failure_detector self') /\
    adaptation_frequency self' = 50 /\
    0 <= controller_calls self' /\
    controller_calls self' <= 0 + 1 /\
    (env_current_conditions self' = None \/
     exists p, p ∈ ["dim the lights"%string] /\
               env_current_conditions self' = Some p).
Proof.
  apply (steps_never_fail
           [((-0.01)%float, true, Ok "dim the lights"%string);
            (1%float, false, Raise (Exception ServiceError "down"))]
           CurriculumCallbackSpec.default_callback).
  - apply (FailureDetectorFacts.init_well_formed
             FailureDetector.default_window_size
             FailureDetector.default_min_success_rate None).
    reflexivity.
  - discriminate.
Defined.

(** X11 (adaptation frequency 0).  The constructor accepts a frequency
    of 0.  The first step that ends an episode then raises
    [ZeroDivisionError] out of [_on_step], from the modulo in the
    cadence test: the episode has already been recorded in the detector,
    the controller is not called, and the accumulated reward and length
    of the episode are not reset. *)
Theorem zero_frequency_step (reward : float) (controller : result string)
    (self : t) :
  FailureDetectorSpec.well_formed (failure_detector self) ->
  adaptation_frequency self = 0 ->
  let total := (current_episode_reward self + reward)%float in
  exists fd',
    FailureDetector.record_episode total (0 <? total)%float
      (current_episode_length self + 1) (Some (env_conditions self))
      (failure_detector self) = (Ok tt, fd') /\
    _on_step reward true controller self =
      (Raise (Exception ZeroDivisionError "integer modulo by zero"),
       mk fd' (env_current_conditions self) 0 total
          (current_episode_length self + 1) (controller_calls self)).
Proof.
  destruct self as [fd cond freq r l calls]. simpl.
  intros (_ & _ & _ & _ & Hkeys) ->.
  destruct (FailureDetectorFacts.record_episode_spec fd
              (r + reward)%float (0 <? r + reward)%float (l + 1)
              (Some (default "neutral"%string cond)) Hkeys) as (m' & Hrec & _).
  eexists. split; [exact Hrec|].
  unfold _on_step.
  cbv beta iota delta [bind modify get ret lift on_detector set_episode
                       failure_detector env_current_conditions
                       adaptation_frequency current_episode_reward
                       current_episode_length controller_calls env_conditions].
  rewrite Hrec. reflexivity.
Qed.

Lemma zero_frequency_step_witness :
  exists fd',
    FailureDetector.record_episode (0 + -0.01)%float false 1 (Some "neutral"%string)
      CurriculumCallbackSpec.default_detector = (Ok tt, fd') /\
    _on_step (-0.01)%float true (Ok "dim the lights"%string)
      (__init__ CurriculumCallbackSpec.default_detector 0) =
      (Raise (Exception ZeroDivisionError "integer modulo by zero"),
       mk fd' None 0 (0 + -0.01)%float 1 0).
Proof.
  apply (zero_frequency_step (-0.01)%float (Ok "dim the lights"%string)
           (__init__ CurriculumCallbackSpec.default_detector 0)).
  - apply (FailureDetectorFacts.init_well_formed
             FailureDetector.default_window_size
             FailureDetector.default_min_success_rate None).
    reflexivity.
  - reflexivity.
Defined.

End CurriculumCallbackMoreFacts.

Module ClientStreamFacts.
Import OdysseyClient OdysseyClientTrace.

Lemma handle_message_frame (cb : callbacks) (data : server_message) (self : t) :
  exists calls,
    _handle_message cb data self =
      (Ok calls,
       match data with
       | StreamStarted id => set_current_stream_id id self
       | _ => self
       end).
Proof. destruct data; eexists; reflexivity. Qed.

Lemma handle_all_frame (cb : callbacks) (msgs : list server_message) (self : t) :
  exists calls,
    handle_all cb msgs self =
      (Ok calls,
       set_current_stream_id (after_messages msgs (current_stream_id self)) self).
Proof.
  revert self. induction msgs as [|data rest IH]; intros self.
  - exists []. destruct self; reflexivity.
  - cbn [handle_all]. unfold bind at 1.
    destruct (handle_message_frame cb data self) as (calls & ->).
    unfold bind at 1.
    destruct data as [id| | |]; cbn [after_messages];
      match goal with
      | |- context [handle_all cb rest ?s] =>
          destruct (IH s) as (calls' & ->)
      end; eexists; reflexivity.
Qed.

Lemma start_stream_connected (cb : callbacks) (during : list server_message)
    (object_id prompt : string) (portrait : bool)
    (id : option string) (sent : list message) (active : bool) :
  let id' := after_messages during id in
  start_stream cb during object_id prompt portrait (mk id (Some sent) active) =
    (Ok (if truthy id' then default EmptyString id'
         else String.append "stream_" object_id),
     mk id' (Some (sent ++ [StartStream prompt portrait])) active).
Proof.
  cbv zeta. unfold start_stream. unfold bind at 1. unfold send. cbn [ws].
  cbn [current_stream_id media_stream_active].
  unfold bind at 1.
  match goal with
  | |- context [handle_all cb during ?s] =>
      destruct (handle_all_frame cb during s) as (calls & ->)
  end.
  reflexivity.
Qed.

Lemma start_stream_unconnected (cb : callbacks) (during : list server_message)
    (object_id prompt : string) (portrait : bool) (self : t) :
  ws self = None ->
  start_stream cb during object_id prompt portrait self =
    (Raise (Exception AttributeError
              "'NoneType' object has no attribute 'send'"), self).
Proof.
  intros Hws. unfold start_stream. unfold bind at 1. unfold send.
  now rewrite Hws.
Qed.

(** X12 ([end_stream]).  On a connected client [end_stream] returns
    normally: when a stream is active it sends exactly one [end_stream]
    message carrying the identifier and then forgets it, otherwise it
    sends nothing.  Afterwards there is no active stream: a second
    [end_stream] does nothing at all, and every [interact] raises
    [RuntimeError] without sending. *)
Theorem end_stream_closes (self : t) (sent : list message) :
  ws self = Some sent ->
  exists self',
    end_stream self = (Ok tt, self') /\
    truthy (current_stream_id self') = false /\
    media_stream_active self' = media_stream_active self /\
    ws self' =
      Some (sent ++ if truthy (current_stream_id self)
                    then [EndStream (default EmptyString (current_stream_id self))]
                    else []) /\
    end_stream self' = (Ok tt, self') /\
    forall prompt,
      interact prompt self' =
        (Raise (Exception RuntimeError "No active stream to interact with"),
         self').
Proof.
  destruct self as [id w active]. cbn [ws]. intros ->.
  unfold end_stream, interact, bind, get, ret, raise, send, modify.
  cbn [current_stream_id ws media_stream_active].
  destruct (truthy id) eqn:Hid; cbn [negb].
  - eexists. split; [reflexivity|].
    cbn [set_current_stream_id current_stream_id ws media_stream_active truthy negb].
    repeat split.
  - eexists. split; [reflexivity|].
    cbn [current_stream_id ws media_stream_active]. rewrite Hid, app_nil_r.
    repeat split.
Qed.

Lemma end_stream_closes_witness :
  exists self',
    end_stream (mk (Some "s1"%string) (Some []) true) = (Ok tt, self') /\
    truthy (current_stream_id self') = false /\
    media_stream_active self' = true /\
    ws self' = Some [EndStream "s1"] /\
    end_stream self' = (Ok tt, self') /\
    forall prompt,
      interact prompt self' =
        (Raise (Exception RuntimeError "No active stream to interact with"),
         self').
Proof.
  apply (end_stream_closes (mk (Some "s1"%string) (Some []) true) []).
  reflexivity.
Defined.

(** X13 ([start_stream] does not start anything by itself).  On a
    connected client [start_stream] sends one [start_stream] message and
    returns an identifier in every case.  The identifier the client
    holds afterwards is the one of the last [stream_started] message
    that arrived meanwhile (a [stream_ended] message does not clear
    it).  When no identifier has arrived, the caller gets the made-up
    ["stream_" + str(id(self))], the client still has no active stream,
    and every [interact] raises [RuntimeError].  On a client that is not
    connected [start_stream] raises [AttributeError]. *)
Theorem start_stream_needs_reply (cb : callbacks)
    (during : list server_message) (object_id prompt : string)
    (portrait : bool) (self : t) :
  (forall sent, ws self = Some sent ->
     let id' := after_messages during (current_stream_id self) in
     let self' := mk id' (Some (sent ++ [StartStream prompt portrait]))
                     (media_stream_active self) in
     start_stream cb during object_id prompt portrait self =
       (Ok (if truthy id' then default EmptyString id'
            else String.append "stream_" object_id), self') /\
     (truthy id' = false ->
      forall p,
        interact p self' =
          (Raise (Exception RuntimeError "No active stream to interact with"),
           self'))) /\
  (ws self = None ->
     start_stream cb during object_id prompt portrait self =
       (Raise (Exception AttributeError
                 "'NoneType' object has no attribute 'send'"), self)) /\
  (forall id, after_messages (during ++ [StreamEnded]) id = after_messages during id).
Proof.
  split; [|split].
  - intros sent Hws. cbv zeta. destruct self as [id w active].
    cbn [ws current_stream_id media_stream_active] in *. subst w.
    rewrite start_stream_connected. split; [reflexivity|].
    intros Hid p. unfold interact, bind, get, raise.
    cbn [current_stream_id]. now rewrite Hid.
  - apply start_stream_unconnected.
  - intros id. revert id. induction during as [|[id'| | |] rest IH]; intros id;
      cbn [app after_messages]; auto.
Qed.

Lemma after_messages_announced (msgs : list server_message) (id : option string)
    (x : string) :
  after_messages msgs id = Some x -> id = Some x \/ x ∈ announced_in msgs.
Proof.
  revert id. induction msgs as [|data rest IH]; intros id H; [now left|].
  destruct data as [id'| | |]; cbn [after_messages] in H;
    destruct (IH _ H) as [E|E].
  - right. subst id'.
    change (announced_in (StreamStarted (Some x) :: rest))
      with (x :: announced_in rest).
    apply elem_of_cons. now left.
  - right. destruct id' as [i|].
    + change (announced_in (StreamStarted (Some i) :: rest))
        with (i :: announced_in rest).
      apply elem_of_cons. now right.
    + exact E.
  - now left.
  - right. exact E.
  - now left.
  - right. exact E.
  - now left.
  - right. exact E.
Qed.

Lemma do_event_step (cb : callbacks) (e : event) (self : t) (A : list string) :
  id_announced A self ->
  exists add,
    sent_so_far (do_event cb e self) = sent_so_far self ++ add /\
    ids_fine A add /\
    id_announced (A ++ announced [e]) (do_event cb e self).
Proof.
  intros Hinv. destruct self as [id w active].
  unfold id_announced, sent_so_far in *. cbn [current_stream_id ws] in *.
  destruct e as [during object_id prompt portrait | prompt | | data];
    cbn [do_event].
  - (* start_stream *)
    destruct w as [sent|].
    + rewrite start_stream_connected. cbn [snd ws current_stream_id default].
      exists [StartStream prompt portrait]. split; [reflexivity|]. split.
      * intros m x Hm Hx. apply list_elem_of_singleton in Hm. now subst m.
      * intros x Hx Ht. unfold announced. cbn [map concat]. rewrite app_nil_r.
        destruct (after_messages_announced _ _ _ Hx) as [E|E];
          apply elem_of_app; [left; auto | now right].
    + rewrite start_stream_unconnected by reflexivity.
      cbn [snd ws current_stream_id default].
      exists []. split; [now rewrite app_nil_r|]. split.
      * intros m x Hm. now apply elem_of_nil in Hm.
      * intros x Hx Ht. apply elem_of_app. left. auto.
  - (* interact *)
    unfold interact, bind, get, raise, send. cbn [current_stream_id ws].
    destruct (truthy id) eqn:Hid; cbn [negb snd].
    + destruct w as [sent|]; cbn.
      * exists [Interact prompt (default EmptyString id)].
        split; [reflexivity|]. split.
        -- intros m x Hm Hx. apply list_elem_of_singleton in Hm. subst m.
           injection Hx as <-. destruct id as [x|]; [|discriminate].
           split; [exact Hid | auto].
        -- intros x Hx Ht. rewrite app_nil_r. auto.
      * exists []. split; [reflexivity|]. split.
        -- intros m x Hm. now apply elem_of_nil in Hm.
        -- intros x Hx Ht. rewrite app_nil_r. auto.
    + cbn. exists []. split; [now rewrite app_nil_r|]. split.
      * intros m x Hm. now apply elem_of_nil in Hm.
      * intros x Hx Ht. rewrite app_nil_r. auto.
  - (* end_stream *)
    unfold end_stream, bind, get, ret, send, modify. cbn [current_stream_id ws].
    destruct (truthy id) eqn:Hid; cbn [negb snd].
    + destruct w as [sent|]; cbn.
      * exists [EndStream (default EmptyString id)].
        split; [reflexivity|]. split.
        -- intros m x Hm Hx. apply list_elem_of_singleton in Hm. subst m.
           injection Hx as <-. destruct id as [x|]; [|discriminate].
           split; [exact Hid | auto].
        -- intros x Hx. discriminate.
      * exists []. split; [reflexivity|]. split.
        -- intros m x Hm. now apply elem_of_nil in Hm.
        -- intros x Hx Ht. rewrite app_nil_r. auto.
    + cbn. exists []. split; [now rewrite app_nil_r|]. split.
      * intros m x Hm. now apply elem_of_nil in Hm.
      * intros x Hx Ht. rewrite app_nil_r. auto.
  - (* a message of the server *)
    destruct (handle_message_frame cb data (mk id w active)) as (calls & ->).
    cbn [snd]. exists []. split.
    { rewrite app_nil_r. now destruct data. }
    split.
    { intros m x Hm. now apply elem_of_nil in Hm. }
    intros x Hx Ht. apply elem_of_app.
    destruct data as [[id'|]| | |]; cbn in *;
      try (left; now auto); try discriminate.
    right. injection Hx as ->. apply elem_of_cons. now left.
Qed.

Lemma announced_cons (e : event) (events : list event) :
  announced (e :: events) = announced [e] ++ announced events.
Proof. unfold announced. cbn [map concat]. now rewrite app_nil_r. Qed.

Lemma do_events_invariant (cb : callbacks) (events : list event) (self : t)
    (A : list string) :
  id_announced A self ->
  exists add,
    sent_so_far (do_events cb events self) = sent_so_far self ++ add /\
    ids_fine (A ++ announced events) add.
Proof.
  revert self A. induction events as [|e events IH]; intros self A Hinv.
  - exists []. split; [now rewrite app_nil_r|].
    intros m x Hm. now apply elem_of_nil in Hm.
  - destruct (do_event_step cb e self A Hinv) as (add1 & Hlog1 & Hfine1 & Hinv1).
    destruct (IH _ _ Hinv1) as (add2 & Hlog2 & Hfine2).
    exists (add1 ++ add2). split.
    + unfold do_events in *. cbn [fold_left]. rewrite Hlog2, Hlog1.
      now rewrite app_assoc.
    + rewrite announced_cons.
      intros m x Hm Hx. apply elem_of_app in Hm as [Hm|Hm].
      * destruct (Hfine1 m x Hm Hx) as [Ht Hin]. split; [exact Ht|].
        apply elem_of_app. now left.
      * destruct (Hfine2 m x Hm Hx) as [Ht Hin]. split; [exact Ht|].
        now rewrite app_assoc.
Qed.

(** X14 (the client never makes up an identifier on the wire).  Take a
    client with no active stream, connected or not, and any sequence of
    [start_stream], [interact] and [end_stream] calls and of server
    messages.  What was sent before stays in front of what is sent
    during the sequence, and every [interact] and [end_stream] message
    sent carries a non-empty stream identifier that the server has
    announced in a [stream_started] message -- never the made-up one
    [start_stream] may have returned to its caller. *)
Theorem sent_ids_are_announced (cb : callbacks) (events : list event)
    (self : t) :
  truthy (current_stream_id self) = false ->
  exists add,
    sent_so_far (do_events cb events self) = sent_so_far self ++ add /\
    forall m id,
      m ∈ add -> message_stream_id m = Some id ->
      truthy (Some id) = true /\ id ∈ announced events.
Proof.
  intros Hid.
  destruct (do_events_invariant cb events self []) as (add & Hlog & Hfine).
  { intros id E Ht. rewrite E in Hid. congruence. }
  exists add. split; [exact Hlog|]. exact Hfine.
Qed.

Lemma sent_ids_are_announced_witness :
  exists add,
    sent_so_far
      (do_events no_callbacks
         [DoStartStream [] "1" "a robot arm" false; DoInteract "move arm left";
          Receive (StreamStarted (Some "s1"%string)); DoInteract "move arm left";
          DoEndStream]
         (mk None (Some []) true))
    = sent_so_far (mk None (Some []) true) ++ add /\
    forall m id,
      m ∈ add -> message_stream_id m = Some id ->
      truthy (Some id) = true /\
      id ∈ announced
             [DoStartStream [] "1" "a robot arm" false; DoInteract "move arm left";
              Receive (StreamStarted (Some "s1"%string));
              DoInteract "move arm left"; DoEndStream].
Proof.
  apply (sent_ids_are_announced no_callbacks
           [DoStartStream [] "1" "a robot arm" false; DoInteract "move arm left";
            Receive (StreamStarted (Some "s1"%string)); DoInteract "move arm left";
            DoEndStream]
           (mk None (Some []) true)).
  reflexivity.
Defined.

End ClientStreamFacts.

Module OdysseyEnvStepFacts.
Import OdysseyEnvStep OdysseyEnvRuns.

(** X15 (the discrete action table).  With a discrete action space
    [_action_to_prompt] never raises on a scalar action, and the prompt
    is non-empty exactly when the task is navigation or manipulation and
    the index is one of 0..4; any other index, and any other task, gives
    the empty prompt, for which [step] sends nothing. *)
Theorem discrete_prompt_table (task_type : string) (action_idx : Z) :
  exists p,
    _action_to_prompt "discrete" task_type (Scalar action_idx) = Ok p /\
    (non_empty p = true <->
     (task_type = "navigation"%string \/ task_type = "manipulation"%string) /\
     0 <= action_idx <= 4).
Proof.
  unfold _action_to_prompt. cbn [String.eqb Ascii.eqb Bool.eqb].
  change (String.eqb "discrete" "discrete") with true. cbv iota.
  assert (Hidx : action_idx = 0 \/ action_idx = 1 \/ action_idx = 2 \/
                 action_idx = 3 \/ action_idx = 4 \/
                 (action_idx < 0 \/ 4 < action_idx)) by lia.
  assert (Hnav : (action_idx < 0 \/ 4 < action_idx) ->
                 navigation_map action_idx = EmptyString /\
                 manipulation_map action_idx = EmptyString).
  { intros H. destruct action_idx as [|q|q]; [lia| |split; reflexivity].
    destruct q as [[q|q|]|[q|q|]|]; try lia; try (split; reflexivity).
    all: destruct q; try lia; split; reflexivity. }
  destruct (String.eqb_spec task_type "navigation") as [->|Hn].
  - eexists. split; [reflexivity|].
    destruct Hidx as [->|[->|[->|[->|[->|H]]]]];
      try (cbn; split; [intros _; split; [now left | lia] | reflexivity]).
    destruct (Hnav H) as [-> _]. cbn. split; [discriminate | lia].
  - destruct (String.eqb_spec task_type "manipulation") as [->|Hm].
    + eexists. split; [reflexivity|].
      destruct Hidx as [->|[->|[->|[->|[->|H]]]]];
        try (cbn; split; [intros _; split; [now right | lia] | reflexivity]).
      destruct (Hnav H) as [_ ->]. cbn. split; [discriminate | lia].
    + eexists. split; [reflexivity|]. cbn. split; [discriminate|].
      intros [[?|?] _]; contradiction.
Qed.









Section Steps.
Context {Client Obs : Type}.
Variable client_interact : string -> Py Client unit.

(** One step whose prompt and observation are there. *)
Lemma step_spec (a : action) (o : Obs) (p : string) (self : t Client) :
  _action_to_prompt (action_type self) (task_type self) a = Ok p ->
  exists c',
    step client_interact a (Ok o) self =
      (Ok (StepResult o _calculate_reward
             (episode_length self <=? current_step self + 1) false
             (current_step self + 1)
             (episode_reward self + _calculate_reward)%float
             (stream_id self)),
       mk (task_type self) (action_type self) (episode_length self) c'
          (stream_id self) (current_step self + 1)
          (episode_reward self + _calculate_reward)%float) /\
    (c' = client self \/
     exists c r c'', non_empty p = true /\ client self = Some c /\
                     client_interact p c = (r, c'') /\ c' = Some c'').
Proof.
  intros Hp. destruct self as [task atype len c sid cs er].
  cbn [action_type task_type episode_length client stream_id current_step
       episode_reward] in *.
  unfold step. unfold bind at 1. unfold get at 1. cbv iota beta.
  cbn [action_type task_type]. rewrite Hp.
  unfold bind at 1. unfold lift at 1. cbv iota beta.
  destruct (non_empty p) eqn:Hne.
  - unfold bind at 1. unfold try_except, on_client. cbn [client].
    destruct c as [c|].
    + destruct (client_interact p c) as [[[]|e] c''] eqn:Hc;
        (eexists; split; [reflexivity|]; right; exists c; eauto 10).
    + eexists. split; [reflexivity|]. now left.
  - eexists. split; [reflexivity|]. now left.
Qed.

(** X17 (a run of steps).  As long as the actions fit the action
    space and the observations can be read, a run of [step] calls
    never raises, whatever the client does with the prompts -- also
    when there is no client or when it raises at every call: the step
    counter goes up by one per step, every step reports the reward
    -0.01 and [truncated = False], and the [k]-th step reports
    [terminated] exactly when the counter has reached
    [episode_length].  Nothing resets the counter, so every step after
    that one reports [terminated] as well. *)
Theorem steps_count (inputs : list (action * result Obs)) (self : t Client) :
  well_typed (action_type self) (task_type self) inputs = true ->
  exists results self',
    steps client_interact inputs self = (Ok results, self') /\
    length results = length inputs /\
    current_step self' = current_step self + len inputs /\
    task_type self' = task_type self /\
    action_type self' = action_type self /\
    episode_length self' = episode_length self /\
    stream_id self' = stream_id self /\
    forall k r,
      results !! k = Some r ->
      reports (episode_length self) (current_step self) (stream_id self)
              (Z.of_nat k + 1) r.
Proof.
  revert self. induction inputs as [|[a observation] inputs IH]; intros self Hok.
  - exists [], self. split; [reflexivity|]. split; [reflexivity|].
    split; [unfold len; cbn [length]; lia|].
    do 4 (split; [reflexivity|]).
    intros k r Hk. now rewrite lookup_nil in Hk.
  - cbn [well_typed forallb fst snd] in Hok.
    apply andb_true_iff in Hok as [Hhead Hrest].
    apply andb_true_iff in Hhead as [Hprompt Hobs].
    destruct (_action_to_prompt (action_type self) (task_type self) a)
      as [p|] eqn:Hp; [|discriminate].
    destruct observation as [o|]; [|discriminate].
    destruct (step_spec a o p self Hp) as (c' & Hstep & _).
    match type of Hstep with _ = (_, ?s) => set (self1 := s) in * end.
    destruct (IH self1 Hrest) as (results & self' & Hrun & Hlen & Hcs & Ht & Ha
                                  & Hl & Hs & Hrep).
    eexists (_ :: results), self'. split.
    { cbn [steps]. unfold bind at 1. rewrite Hstep.
      unfold bind at 1. rewrite Hrun. reflexivity. }
    split; [cbn [length]; now rewrite Hlen|].
    split.
    { rewrite Hcs. unfold self1, len. cbn [current_step length]. lia. }
    repeat (split; [assumption|]).
    intros [|k] r Hk.
    + cbn in Hk. injection Hk as <-. unfold reports. cbn.
      repeat split.
    + cbn in Hk. specialize (Hrep k r Hk).
      unfold reports, self1 in *.
      cbn [episode_length current_step stream_id] in Hrep.
      destruct Hrep as (H1 & H2 & H3 & H4 & H5).
      repeat split; try assumption.
      * rewrite H2. f_equal. lia.
      * rewrite H4. lia.
Qed.

End Steps.

Lemma steps_count_witness :
  exists results self',
    steps MockOdysseyClient.interact
      [(Scalar 2, Ok tt); (Scalar 7, Ok tt)]
      (mk "manipulation" "discrete" 2 (Some MockOdysseyClient.__init__)
          None 0 0%float)
    = (Ok results, self') /\
    length results = 2%nat /\
    current_step self' = 0 + 2 /\
    task_type self' = "manipulation"%string /\
    action_type self' = "discrete"%string /\
    episode_length self' = 2 /\
    stream_id self' = None /\
    forall k r,
      results !! k = Some r ->
      reports 2 0 None (Z.of_nat k + 1) r.
Proof.
  apply (steps_count MockOdysseyClient.interact
           [(Scalar 2, Ok tt); (Scalar 7, Ok tt)]
           (mk "manipulation" "discrete" 2 (Some MockOdysseyClient.__init__)
               None 0 0%float)).
  reflexivity.
Defined.

(** X18 (acting without a stream).  Behind an environment whose real
    client holds no stream identifier -- as after a [start_stream] that
    the server has not answered -- every [step] returns normally and
    counts, but nothing reaches the socket: [interact] raises
    [RuntimeError], [step] swallows it, and the client is exactly as
    before, however many steps are taken. *)
Theorem steps_without_stream {Obs : Type}
    (inputs : list (action * result Obs)) (self : t OdysseyClient.t)
    (c : OdysseyClient.t) :
  client self = Some c ->
  truthy (OdysseyClient.current_stream_id c) = false ->
  well_typed (action_type self) (task_type self) inputs = true ->
  exists results self',
    steps OdysseyClient.interact inputs self = (Ok results, self') /\
    length results = length inputs /\
    client self' = Some c.
Proof.
  revert self. induction inputs as [|[a observation] inputs IH];
    intros self Hc Hid Hok.
  - exists [], self. repeat split. exact Hc.
  - cbn [well_typed forallb fst snd] in Hok.
    apply andb_true_iff in Hok as [Hhead Hrest].
    apply andb_true_iff in Hhead as [Hprompt Hobs].
    destruct (_action_to_prompt (action_type self) (task_type self) a)
      as [p|] eqn:Hp; [|discriminate].
    destruct observation as [o|]; [|discriminate].
    destruct (step_spec OdysseyClient.interact a o p self Hp)
      as (c' & Hstep & Hc').
    assert (Hsame : c' = Some c).
    { destruct Hc' as [->|(c0 & r & c'' & _ & Hc0 & Hint & ->)]; [exact Hc|].
      rewrite Hc in Hc0. injection Hc0 as <-.
      rewrite (TransportFacts.client_interact_no_stream p c Hid) in Hint.
      now injection Hint as _ <-. }
    subst c'.
    match type of Hstep with _ = (_, ?s) => set (self1 := s) in * end.
    destruct (IH self1 eq_refl Hid Hrest) as (results & self' & Hrun & Hlen & Hcl).
    eexists (_ :: results), self'. split.
    { cbn [steps]. unfold bind at 1. rewrite Hstep.
      unfold bind at 1. rewrite Hrun. reflexivity. }
    split; [cbn [length]; now rewrite Hlen | exact Hcl].
Qed.

Lemma steps_without_stream_witness :
  exists results self',
    steps OdysseyClient.interact
      [(Scalar 2, Ok tt); (Scalar 4, Ok tt)]
      (mk "manipulation" "discrete" 200
          (Some (OdysseyClient.mk None (Some []) true))
          (Some "stream_1"%string) 0 0%float)
    = (Ok results, self') /\
    length results = 2%nat /\
    client self' = Some (OdysseyClient.mk None (Some []) true).
Proof.
  apply (steps_without_stream
           [(Scalar 2, Ok tt); (Scalar 4, Ok tt)]
           (mk "manipulation" "discrete" 200
               (Some (OdysseyClient.mk None (Some []) true))
               (Some "stream_1"%string) 0 0%float)
           (OdysseyClient.mk None (Some []) true)); reflexivity.
Defined.

End OdysseyEnvStepFacts.

Module MockFacts.
Import MockOdysseyClient MockTrace.

Lemma known_neutral : known_lighting "neutral".
Proof. unfold known_lighting. set_solver. Qed.
Lemma known_dim : known_lighting "dim".
Proof. unfold known_lighting. set_solver. Qed.
Lemma known_harsh : known_lighting "harsh".
Proof. unfold known_lighting. set_solver. Qed.
Lemma known_dramatic : known_lighting "dramatic".
Proof. unfold known_lighting. set_solver. Qed.

Lemma move_frame (p : string) (self : t) :
  lighting (move p self) = lighting self /\
  current_stream_id (move p self) = current_stream_id self /\
  should_stream (move p self) = should_stream self /\
  object_x (move p self) = object_x self /\
  object_y (move p self) = object_y self /\
  gripper_open (move p self) = gripper_open self.
Proof.
  unfold move.
  repeat match goal with |- context [if ?c then _ else _] => destruct c end;
    repeat split.
Qed.

Lemma grip_frame (p : string) (self : t) :
  lighting (grip p self) = lighting self /\
  current_stream_id (grip p self) = current_stream_id self /\
  should_stream (grip p self) = should_stream self /\
  arm_x (grip p self) = arm_x self /\
  arm_y (grip p self) = arm_y self.
Proof.
  unfold grip.
  repeat match goal with |- context [if ?c then _ else _] => destruct c end;
    repeat split.
Qed.

Lemma relight_frame (p : string) (self : t) :
  (lighting (relight p self) = lighting self \/
   known_lighting (lighting (relight p self))) /\
  current_stream_id (relight p self) = current_stream_id self /\
  should_stream (relight p self) = should_stream self /\
  arm_x (relight p self) = arm_x self /\
  arm_y (relight p self) = arm_y self /\
  object_x (relight p self) = object_x self /\
  object_y (relight p self) = object_y self /\
  gripper_open (relight p self) = gripper_open self.
Proof.
  unfold relight.
  repeat match goal with |- context [if ?c then _ else _] => destruct c end;
    cbn; repeat split;
    auto using known_dim, known_harsh, known_dramatic.
Qed.

Lemma do_call_consistent (c : call) (self : t) :
  consistent self -> consistent (do_call c self).
Proof.
  intros [Hs Hl]. destruct c as [|hex8 prompt portrait|prompt| |]; cbn [do_call].
  - split; assumption.
  - unfold start_stream, bind, modify, get, ret. cbn [snd]. split.
    + unfold _parse_prompt.
      repeat match goal with |- context [if ?c then _ else _] => destruct c end;
        reflexivity.
    + unfold _parse_prompt.
      repeat match goal with |- context [if ?c then _ else _] => destruct c end;
        cbn; auto using known_dim, known_harsh, known_dramatic, known_neutral.
  - unfold interact, bind, modify. cbn [snd].
    destruct (relight_frame (lower prompt)
                (grip (lower prompt) (move (lower prompt) self)))
      as (Hl1 & Hi1 & Hs1 & _).
    destruct (grip_frame (lower prompt) (move (lower prompt) self))
      as (Hl2 & Hi2 & Hs2 & _).
    destruct (move_frame (lower prompt) self) as (Hl3 & Hi3 & Hs3 & _).
    split; [congruence|].
    destruct Hl1 as [E|K]; [|exact K]. rewrite E, Hl2, Hl3. exact Hl.
  - split; [reflexivity | exact Hl].
  - split; [reflexivity | exact Hl].
Qed.

(** X19 (the mock stays consistent).  From a fresh mock client and
    through any sequence of [connect], [start_stream], [interact],
    [end_stream] and [disconnect] calls, with any prompts: the flag
    [_should_stream] is set exactly when a stream identifier is held,
    and the lighting is one of the four that [_render_frame] knows. *)
Theorem mock_consistent (calls : list call) :
  consistent (do_calls calls __init__).
Proof.
  assert (H0 : consistent __init__) by (split; [reflexivity | apply known_neutral]).
  revert H0. generalize __init__ as self.
  induction calls as [|c calls IH]; intros self H; [exact H|].
  cbn [do_calls fold_left]. apply IH. now apply do_call_consistent.
Qed.


End MockFacts.

Module StrategiesFacts.
Import Strategies CurriculumChoice.

Lemma random_choice_spec {A} (randbelow : Z -> Z) (seq : list A) :
  draws_below randbelow ->
  (seq = [] /\ random_choice randbelow seq = Raise nothing_to_choose) \/
  (exists x, random_choice randbelow seq = Ok x /\ x ∈ seq).
Proof.
  intros Hb. destruct seq as [|a seq]; [left; split; reflexivity|]. right.
  unfold random_choice.
  set (l := a :: seq).
  assert (Hlen : 0 < len l) by (unfold len, l; cbn [length]; lia).
  specialize (Hb _ Hlen).
  destruct (l !! Z.to_nat (randbelow (len l))) as [x|] eqn:Hx.
  - exists x. split; [reflexivity|]. eapply list_elem_of_lookup_2; eauto.
  - apply lookup_ge_None in Hx. unfold len in *. lia.
Qed.

Lemma dict_getitem_has (d : categories_dict) (k : string) :
  dict_has d k = true -> exists ps, dict_getitem d k = Ok ps /\ (k, ps) ∈ d.
Proof.
  induction d as [|[k' v] d IH]; [discriminate|].
  cbn [dict_has existsb dict_getitem fst].
  destruct (String.eqb_spec k' k) as [->|Hne].
  - intros _. exists v. split; [reflexivity | apply elem_of_cons; now left].
  - cbn [orb]. intros H. destruct (IH H) as (ps & -> & Hin).
    exists ps. split; [reflexivity | apply elem_of_cons; now right].
Qed.

Lemma dict_getitem_in (d : categories_dict) (k : string) (ps : list string) :
  dict_getitem d k = Ok ps -> dict_has d k = true /\ (k, ps) ∈ d.
Proof.
  induction d as [|[k' v] d IH]; [discriminate|].
  cbn [dict_has existsb dict_getitem fst].
  destruct (String.eqb_spec k' k) as [->|Hne].
  - intros [= ->]. split; [reflexivity | apply elem_of_cons; now left].
  - intros H. destruct (IH H) as [Hh Hin].
    split; [exact Hh | apply elem_of_cons; now right].
Qed.

Section WithGenerator.
Variable randbelow : Z -> Z.
Hypothesis Hbelow : draws_below randbelow.

Lemma choice_from_category (categories : categories_dict) (k : string)
    (ps : list string) :
  (k, ps) ∈ categories -> chosen_from categories (random_choice randbelow ps).
Proof.
  intros Hin. destruct (random_choice_spec randbelow ps Hbelow)
    as [[_ ->]|(x & -> & Hx)]; [reflexivity|].
  exists k, ps. split; assumption.
Qed.

Lemma random_select_chosen fm sr (categories : categories_dict) :
  chosen_from categories (random_select randbelow fm sr categories).
Proof.
  unfold random_select.
  destruct (random_choice_spec randbelow (concat (map snd categories)) Hbelow)
    as [[_ ->]|(x & -> & Hx)]; [reflexivity|].
  apply list_elem_of_In, in_concat in Hx as (ps & Hps & Hx).
  apply in_map_iff in Hps as ([k ps'] & <- & Hin).
  exists k, ps'. split; apply list_elem_of_In; assumption.
Qed.

Lemma targeted_select_chosen fm sr (categories : categories_dict) :
  chosen_from categories (targeted_select randbelow fm sr categories).
Proof.
  unfold targeted_select. destruct fm as [|m rest];
    [apply random_select_chosen|].
  destruct (dict_has categories m) eqn:Hh; [|apply random_select_chosen].
  destruct (dict_getitem_has _ _ Hh) as (ps & -> & Hin).
  eapply choice_from_category; eauto.
Qed.

(** Aiming at a band is targeting its category. *)
Lemma progressive_is_targeted fm sr (categories : categories_dict) :
  progressive_select randbelow fm sr categories
  = targeted_select randbelow [progressive_category sr] sr categories.
Proof. reflexivity. Qed.

(** X21 (a strategy never makes up a perturbation).  Whatever the
    failure modes, the success rate and the categories, each of the
    three strategies either returns a perturbation that is listed
    under one of the categories, or raises the [IndexError] of
    [random.choice] on an empty list -- it raises no [KeyError].  The
    random strategy raises exactly when no category lists anything. *)
Theorem strategies_choose_listed (failure_modes : list string)
    (success_rate : float) (categories : categories_dict) :
  chosen_from categories
    (random_select randbelow failure_modes success_rate categories) /\
  chosen_from categories
    (targeted_select randbelow failure_modes success_rate categories) /\
  chosen_from categories
    (progressive_select randbelow failure_modes success_rate categories) /\
  (random_select randbelow failure_modes success_rate categories
   = Raise nothing_to_choose
   <-> concat (map snd categories) = []).
Proof.
  split; [apply random_select_chosen|].
  split; [apply targeted_select_chosen|].
  split; [rewrite progressive_is_targeted; apply targeted_select_chosen|].
  unfold random_select.
  destruct (random_choice_spec randbelow (concat (map snd categories)) Hbelow)
    as [[E ->]|(x & -> & Hx)].
  - split; auto.
  - split; [discriminate|]. intros E. rewrite E in Hx.
    now apply elem_of_nil in Hx.
Qed.

(** X22 (what the targeted and the progressive strategy aim at).  The
    targeted strategy looks at the first failure mode only: the
    others, and the success rate, do not matter.  If that mode is a
    category, the choice is made from its list alone -- and an empty
    list there raises [IndexError] rather than falling back to the
    other categories; the fallback to the random strategy is taken
    only when the mode is no category, or when there is no failure
    mode.  The progressive strategy is the targeted one aimed at the
    category of the band of the success rate: [visual] below 0.3,
    [lighting] below 0.6, [occlusion] otherwise -- also for a NaN. *)
Theorem targeted_aims_at_first_mode (mode : string) (others : list string)
    (success_rate : float) (categories : categories_dict) :
  (forall others' success_rate',
     targeted_select randbelow (mode :: others) success_rate categories
     = targeted_select randbelow (mode :: others') success_rate' categories) /\
  (forall ps,
     dict_getitem categories mode = Ok ps ->
     targeted_select randbelow (mode :: others) success_rate categories
     = random_choice randbelow ps /\
     match ps with
     | [] => random_choice randbelow ps = Raise nothing_to_choose
     | _ => exists p, random_choice randbelow ps = Ok p /\ p ∈ ps
     end) /\
  (dict_has categories mode = false ->
     targeted_select randbelow (mode :: others) success_rate categories
     = random_select randbelow [] success_rate categories) /\
  progressive_select randbelow (mode :: others) success_rate categories
  = targeted_select randbelow [progressive_category success_rate]
      success_rate categories /\
  progressive_category nan = "occlusion"%string.
Proof.
  split; [reflexivity|]. split.
  { intros ps Hps. destruct (dict_getitem_in _ _ _ Hps) as [Hh _].
    split.
    - unfold targeted_select. now rewrite Hh, Hps.
    - destruct (random_choice_spec randbelow ps Hbelow)
        as [[-> E]|(x & E & Hx)]; [exact E|].
      destruct ps; [now apply elem_of_nil in Hx | eauto]. }
  split.
  { intros Hh. unfold targeted_select. now rewrite Hh. }
  split; reflexivity.
Qed.

End WithGenerator.

Lemma strategies_choose_listed_witness :
  chosen_from CurriculumController._default_perturbations
    (random_select (fun n => n - 1) ["lighting"%string] 0.5
       CurriculumController._default_perturbations) /\
  chosen_from CurriculumController._default_perturbations
    (targeted_select (fun n => n - 1) ["lighting"%string] 0.5
       CurriculumController._default_perturbations) /\
  chosen_from CurriculumController._default_perturbations
    (progressive_select (fun n => n - 1) ["lighting"%string] 0.5
       CurriculumController._default_perturbations) /\
  (random_select (fun n => n - 1) ["lighting"%string] 0.5
     CurriculumController._default_perturbations
   = Raise nothing_to_choose
   <-> concat (map snd CurriculumController._default_perturbations) = []).
Proof.
  apply (strategies_choose_listed (fun n => n - 1)).
  intros n Hn. lia.
Defined.

Lemma targeted_aims_at_first_mode_witness :
  targeted_select (fun n => n - 1) ["occlusion"; "visual"]%string 0.2
    CurriculumController._default_perturbations
  = random_choice (fun n => n - 1)
      ["place a transparent object partially blocking the view";
       "add some clutter near the target"]%string.
Proof.
  apply (targeted_aims_at_first_mode (fun n => n - 1) ltac:(intros n Hn; lia)
           "occlusion" ["visual"%string] 0.2
           CurriculumController._default_perturbations).
  reflexivity.
Defined.

End StrategiesFacts.

Module CurriculumControllerFacts.
Import CurriculumController CurriculumChoice.

Lemma init_categories_not_empty (model : string)
    (given : option categories_dict) :
  exists k ps rest,
    perturbation_categories (__init__ model given) = (k, ps) :: rest.
Proof.
  destruct given as [[|[k ps] rest]|]; cbn; unfold _default_perturbations; eauto.
Qed.

(** X23 ([select_perturbation] on a controller built by [__init__]).
    The constructor never leaves the categories empty (a missing or
    empty dict is replaced by the four defaults), so the fallback
    [list(keys())[0]] always exists.  The selection is always made from
    the list of one category of the controller -- the one asked for if
    it is known, the first one otherwise; it raises no [KeyError], and
    an [IndexError] only when that list is empty.  The [intensity] has
    no influence.  With the default categories it always returns one of
    the ten default prompts. *)
Theorem select_perturbation_chooses (randbelow : Z -> Z) (model : string)
    (given : option categories_dict) (failure_category : string)
    (intensity : float) :
  draws_below randbelow ->
  let self := __init__ model given in
  let d := perturbation_categories self in
  exists category ps,
    (category, ps) ∈ d /\
    category = (if dict_has d failure_category then failure_category
                else default EmptyString (head (map fst d))) /\
    select_perturbation randbelow failure_category intensity self
    = random_choice randbelow ps /\
    chosen_from d (random_choice randbelow ps) /\
    (forall intensity',
       select_perturbation randbelow failure_category intensity' self
       = select_perturbation randbelow failure_category intensity self) /\
    (given = None ->
     exists p, random_choice randbelow ps = Ok p /\
               p ∈ concat (map snd _default_perturbations)).
Proof.
  intros Hbelow self d.
  destruct (init_categories_not_empty model given) as (k0 & ps0 & rest & Hd).
  fold self in Hd. fold d in Hd.
  assert (Hsel : exists category ps,
             (category, ps) ∈ d /\
             category = (if dict_has d failure_category then failure_category
                         else default EmptyString (head (map fst d))) /\
             select_perturbation randbelow failure_category intensity self
             = random_choice randbelow ps).
  { unfold select_perturbation. fold d.
    destruct (dict_has d failure_category) eqn:Hh; cbn [negb].
    - destruct (StrategiesFacts.dict_getitem_has _ _ Hh) as (ps & Hget & Hin).
      exists failure_category, ps. rewrite Hget. auto.
    - rewrite Hd. cbn [map fst head default index nth_error].
      cbn [dict_getitem]. rewrite String.eqb_refl.
      exists k0, ps0. split; [apply elem_of_cons; now left | auto]. }
  destruct Hsel as (category & ps & Hin & Hcat & Hsel).
  exists category, ps. split; [exact Hin|]. split; [exact Hcat|].
  split; [exact Hsel|].
  split; [eapply StrategiesFacts.choice_from_category; eauto|].
  split; [reflexivity|].
  intros ->.
  destruct (StrategiesFacts.random_choice_spec randbelow ps Hbelow)
    as [[-> _]|(p & E & Hp)].
  - exfalso. unfold d, self in Hin. cbn in Hin. unfold _default_perturbations in Hin.
    repeat (apply elem_of_cons in Hin as [Hin|Hin]; [discriminate Hin|]).
    now apply elem_of_nil in Hin.
  - exists p. split; [exact E|].
    apply list_elem_of_In, in_concat. exists ps.
    split; [|now apply list_elem_of_In].
    apply in_map_iff. exists (category, ps).
    split; [reflexivity | now apply list_elem_of_In].
Qed.

Lemma select_perturbation_chooses_witness :
  exists category ps,
    (category, ps) ∈ _default_perturbations /\
    category = "lighting"%string /\
    select_perturbation (fun n => n - 1) "glare" 0.5 (__init__ default_model None)
    = random_choice (fun n => n - 1) ps /\
    chosen_from _default_perturbations (random_choice (fun n => n - 1) ps) /\
    (forall intensity',
       select_perturbation (fun n => n - 1) "glare" intensity'
         (__init__ default_model None)
       = select_perturbation (fun n => n - 1) "glare" 0.5
           (__init__ default_model None)) /\
    (@None categories_dict = None ->
     exists p, random_choice (fun n => n - 1) ps = Ok p /\
               p ∈ concat (map snd _default_perturbations)).
Proof.
  apply (select_perturbation_chooses (fun n => n - 1) default_model None
           "glare" 0.5).
  intros n Hn. lia.
Defined.

End CurriculumControllerFacts.

Module SpecLoaderFacts.
Import SpecLoader SpecLoaderVocabulary.

Lemma missing_among_object (items : list (string * json)) (fields : list string) :
  missing_among (JObject items) fields =
    Ok (filter (fun field =>
                  existsb (fun item => String.eqb (fst item) field) items = false)
               fields).
Proof.
  induction fields as [|f fields IH]; [reflexivity|].
  cbn [missing_among contains]. rewrite IH, filter_cons.
  destruct (existsb _ items); [rewrite decide_False by discriminate
                              | rewrite decide_True by reflexivity]; reflexivity.
Qed.

Lemma items_getitem_present (items : list (string * json)) (key : string) :
  existsb (fun item => String.eqb (fst item) key) items = true ->
  forall default, items_getitem items key = Ok (items_get items key default).
Proof.
  induction items as [|[k v] items IH]; [discriminate|].
  cbn [existsb fst items_getitem items_get]. intros H default.
  destruct (String.eqb k key); [reflexivity | now apply IH].
Qed.

Lemma not_missing (items : list (string * json)) (field : string) :
  missing_fields items = [] -> field ∈ required_fields ->
  existsb (fun item => String.eqb (fst item) field) items = true.
Proof.
  intros Hm Hin. unfold missing_fields in Hm.
  destruct (existsb _ items) eqn:E; [reflexivity|].
  assert (H : field ∈ filter
                (fun f => existsb (fun item => String.eqb (fst item) f) items = false)
                required_fields)
    by (apply list_elem_of_filter; auto).
  rewrite Hm in H. now apply elem_of_nil in H.
Qed.

(** X24 (validation of a specification object).  When the file parses
    to a JSON object, [load_training_spec] returns a specification
    exactly when all seven required fields are present, with every field
    taken over unchecked and [reward_structure] defaulting to the
    built-in one; otherwise it raises [SpecificationError], and the
    message lists exactly the required fields that are missing, in the
    order of the list of required fields.  No other exception can come
    out of an object. *)
Theorem load_object_validates (config_path : string)
    (items : list (string * json)) :
  load_training_spec config_path (Some (Ok (JObject items))) =
    match missing_fields items with
    | [] => Loaded (spec_of_items items)
    | missing =>
        SpecificationError
          (String.append "Specification missing required fields: "
             (join ", " missing))
    end.
Proof.
  cbn [load_training_spec]. unfold build.
  rewrite missing_among_object. fold (missing_fields items).
  destruct (missing_fields items) as [|m ms] eqn:Hm; [|reflexivity].
  cbn [getitem py_get].
  rewrite !(fun f H => items_getitem_present items f
                         (not_missing items f Hm H) JNull)
    by (unfold required_fields; set_solver).
  reflexivity.
Qed.

Lemma missing_among_iterable (spec_data : json) (fields : list string) :
  is_object spec_data = false -> is_scalar spec_data = false ->
  exists missing, missing_among spec_data fields = Ok missing.
Proof.
  intros Ho Hs. induction fields as [|f fields [missing IH]]; [now eexists|].
  cbn [missing_among]. rewrite IH.
  destruct spec_data; try discriminate; cbn [contains]; eauto.
Qed.

(** X25 (a specification that is no object).  The docstring promises
    [SpecificationError] for an invalid specification, but for a file
    that is valid JSON and not an object the loader never returns a
    specification and raises either [SpecificationError] or
    [TypeError]: always [TypeError] for [null], a boolean or a number
    (the membership test fails), and [TypeError] again for an array or
    a text in which all seven field names occur, as for the array of the
    seven names (the subscript fails). *)
Theorem load_rejects_non_objects (config_path : string) (spec_data : json) :
  is_object spec_data = false ->
  let r := load_training_spec config_path (Some (Ok spec_data)) in
  ((exists message, r = SpecificationError message) \/
   (exists e, r = OtherError e /\ exn_cls e = TypeError)) /\
  (is_scalar spec_data = true ->
   exists e, r = OtherError e /\ exn_cls e = TypeError) /\
  load_training_spec config_path
    (Some (Ok (JArray (map JString required_fields))))
  = OtherError (Exception TypeError
                  "list indices must be integers or slices, not str").
Proof.
  intros Ho. cbv zeta. cbn [load_training_spec].
  split; [|split; [|reflexivity]].
  - destruct (is_scalar spec_data) eqn:Hs.
    + right. destruct spec_data; try discriminate; eexists; split; reflexivity.
    + destruct (missing_among_iterable spec_data required_fields Ho Hs)
        as (missing & Hm).
      unfold build. rewrite Hm. destruct missing as [|m ms].
      * right. destruct spec_data; try discriminate;
          cbn [getitem]; eexists; split; reflexivity.
      * left. eauto.
  - intros Hs. destruct spec_data; try discriminate; eexists; split; reflexivity.
Qed.

Lemma load_rejects_non_objects_witness :
  exists e,
    load_training_spec "config/training_spec.json" (Some (Ok (JInt 42)))
    = OtherError e /\ exn_cls e = TypeError.
Proof.
  apply (load_rejects_non_objects "config/training_spec.json" (JInt 42));
    reflexivity.
Defined.

(** X26 (what [to_dict] writes, the loader reads back).  For every
    specification, loading a file whose content is the dictionary
    [to_dict] makes of it gives the same specification again; in
    particular the default specification passes the validation. *)
Theorem to_dict_round_trip (config_path : string) (spec : TrainingSpec) :
  load_training_spec config_path (Some (Ok (to_dict spec))) = Loaded spec /\
  load_training_spec config_path (Some (Ok (to_dict get_default_spec)))
  = Loaded get_default_spec.
Proof. destruct spec; split; reflexivity. Qed.

End SpecLoaderFacts.

Module SimulatorFacts.
Import TrainingSimulator SimulatorRuns.

Lemma clamp_rate_ok (x : float) : rate_ok (py_max_int 0 (py_min_int 1 x)).
Proof.
  unfold rate_ok, LLMJudgeHistory.is_rate, py_max_int, py_min_int.
  change (num_to_float (Int 1)) with 1%float.
  change (num_to_float (Int 0)) with 0%float.
  destruct (x <? 1)%float eqn:H1.
  - cbn [num_to_float]. destruct (0 <? x)%float eqn:H0.
    + cbn [num_to_float]. split; now apply float_ltb_leb.
    + split; reflexivity.
  - change (num_to_float (Int 1)) with 1%float.
    change (0 <? 1)%float with true. cbv iota.
    change (num_to_float (Int 1)) with 1%float. split; reflexivity.
Qed.

Lemma get_metrics_eq (g1 g2 u : float) (now : string) (self : t) :
  let sr' :=
    py_max_int 0
      (py_min_int 1
         (num_to_float
            (num_add
               (num_add (success_rate self)
                  (num_mul (num_sub (Flt (py_min 0.95 (five_hundredth (episode self + 1))))
                                    (success_rate self))
                           (Flt 0.05)))
               (Flt g1)))) in
  let success := ((0.5 <? num_to_float sr')%float
                  && (u <? num_to_float sr')%float)%bool in
  let reward := num_to_float (num_add (num_mul sr' (Int 10)) (Flt g2)) in
  get_metrics g1 g2 u now self =
    (Ok (Metrics (episode self + 1) sr' reward now),
     mk (episode self + 1) sr' reward (curriculum_phase self)
        (if success then recent_failures self
         else let fs := recent_failures self ++ [failure_message (episode self + 1)] in
              if 10 <? len fs then tail fs else fs)
        (match llm_judge self with
         | Some judge => Some (snd (LLMJudge.update_success_window success judge))
         | None => None
         end)).
Proof.
  cbv zeta. unfold get_metrics.
  match goal with |- context [negb ?b] => destruct b end; reflexivity.
Qed.

Lemma fed_one_more (n : Z) (success : bool) (judge : LLMJudge.t) :
  0 <= n -> judge_fed n judge ->
  judge_fed (n + 1) (snd (LLMJudge.update_success_window success judge)).
Proof.
  intros Hn (Hws & Hlen & Hd & Hh). unfold judge_fed.
  unfold LLMJudge.update_success_window, modify.
  cbn [snd LLMJudge.window_size LLMJudge.success_window LLMJudge.difficulty
       LLMJudge.evaluation_history].
  repeat split; try assumption.
  rewrite Hws. unfold len in *. rewrite length_app. cbn [length].
  destruct (Z.ltb_spec 10 (Z.of_nat (length (LLMJudge.success_window judge) + 1))).
  - destruct (LLMJudge.success_window judge ++ [success]) eqn:E.
    + apply (f_equal length) in E. rewrite length_app in E. cbn in E. lia.
    + apply (f_equal length) in E. rewrite length_app in E. cbn in E.
      cbn [tail]. lia.
  - rewrite length_app. cbn [length]. lia.
Qed.

Lemma get_metrics_keeps (g1 g2 u : float) (now : string) (n : Z) (self : t) :
  after_episodes n self ->
  exists m self',
    get_metrics g1 g2 u now self = (Ok m, self') /\
    metrics_episode m = n + 1 /\
    metrics_success_rate m = success_rate self' /\
    after_episodes (n + 1) self'.
Proof.
  intros (He & Hn & Hr & Hlen & Hmsgs & Hj).
  pose proof (get_metrics_eq g1 g2 u now self) as E. cbv zeta in E.
  rewrite E. clear E. do 2 eexists. split; [reflexivity|].
  cbn [metrics_episode metrics_success_rate]. rewrite He.
  split; [reflexivity|]. split; [reflexivity|].
  unfold after_episodes.
  cbn [episode success_rate recent_failures llm_judge].
  split; [reflexivity|]. split; [lia|].
  split; [apply clamp_rate_ok|].
  assert (Hold : Forall (fun msg => exists k, 1 <= k <= n + 1 /\
                                             msg = failure_message k)
                        (recent_failures self)).
  { eapply Forall_impl; [exact Hmsgs|].
    intros msg (k & Hk & ->). exists k. split; [lia | reflexivity]. }
  match goal with |- context [if ?b then recent_failures self else _] =>
    destruct b end.
  - split; [exact Hlen|]. split; [exact Hold|].
    destruct (llm_judge self); [now apply fed_one_more | exact I].
  - assert (Hnew : Forall (fun msg => exists k, 1 <= k <= n + 1 /\
                                               msg = failure_message k)
                          (recent_failures self ++ [failure_message (n + 1)])).
    { apply Forall_app. split; [exact Hold|].
      constructor; [|constructor]. exists (n + 1). split; [lia | reflexivity]. }
    unfold len in *.
    destruct (Z.ltb_spec 10
                (Z.of_nat (length (recent_failures self ++ [failure_message (n + 1)]))))
      as [Hlong|Hshort].
    + destruct (recent_failures self ++ [failure_message (n + 1)]) as [|f fs] eqn:Efs.
      * cbn in Hlong. lia.
      * apply (f_equal length) in Efs. rewrite length_app in Efs. cbn in Efs.
        cbn [tail]. split; [lia|]. split; [now inversion Hnew|].
        destruct (llm_judge self); [now apply fed_one_more | exact I].
    + split; [lia|]. split; [exact Hnew|].
      destruct (llm_judge self); [now apply fed_one_more | exact I].
Qed.

Lemma run_keeps (draws : list draw) (n : Z) (self : t) :
  after_episodes n self ->
  exists ms self',
    run draws self = (Ok ms, self') /\
    map metrics_episode ms = seqZ (n + 1) (len draws) /\
    after_episodes (n + len draws) self'.
Proof.
  revert n self. induction draws as [|d draws IH]; intros n self Hinv.
  - exists [], self. split; [reflexivity|]. split; [reflexivity|].
    unfold len. cbn [length]. now rewrite Z.add_0_r.
  - destruct (get_metrics_keeps (gauss1 d) (gauss2 d) (uniform d) (now d) n self Hinv)
      as (m & self1 & Hstep & Hm & _ & Hinv1).
    destruct (IH _ _ Hinv1) as (ms & self' & Hrun & Hms & Hinv').
    exists (m :: ms), self'. split.
    { cbn [run]. unfold bind at 1. rewrite Hstep. unfold bind at 1.
      rewrite Hrun. reflexivity. }
    unfold len in *. cbn [length map]. split.
    + rewrite Hm, Hms. rewrite Nat2Z.inj_succ.
      rewrite (seqZ_cons (n + 1)) by lia. f_equal. f_equal; lia.
    + replace (n + Z.of_nat (S (length draws)))
        with (n + 1 + Z.of_nat (length draws)) by lia.
      exact Hinv'.
Qed.

(** X27 (one call of [get_metrics]).  Whatever the state of the
    simulator and whatever is drawn -- also NaN and infinities -- the
    call returns, counts the episode, and leaves a success rate between
    0 and 1.  An episode counts as a success only if the new rate is
    above 0.5 and the uniform draw is below it; in every other case the
    failure message of this episode is appended, and after the call the
    list is no longer than 10 or than it was.  The judge, if there is
    one, is told the outcome. *)
Theorem get_metrics_step (g1 g2 u : float) (now : string) (self : t) :
  exists m self',
    get_metrics g1 g2 u now self = (Ok m, self') /\
    episode self' = episode self + 1 /\
    metrics_episode m = episode self' /\
    metrics_success_rate m = success_rate self' /\
    rate_ok (success_rate self') /\
    let success := ((0.5 <? num_to_float (success_rate self'))%float
                    && (u <? num_to_float (success_rate self'))%float)%bool in
    (if success then recent_failures self' = recent_failures self
     else last (recent_failures self') = Some (failure_message (episode self'))) /\
    len (recent_failures self') <= Z.max 10 (len (recent_failures self)) /\
    llm_judge self'
    = (fun judge => snd (LLMJudge.update_success_window success judge))
        <$> llm_judge self.
Proof.
  pose proof (get_metrics_eq g1 g2 u now self) as E. cbv zeta in E.
  rewrite E. clear E. do 2 eexists. split; [reflexivity|].
  cbn [episode metrics_episode metrics_success_rate success_rate
       recent_failures llm_judge].
  do 3 (split; [reflexivity|]). split; [apply clamp_rate_ok|].
  cbv zeta.
  match goal with |- context [if ?b then recent_failures self else _] =>
    destruct b end.
  - split; [reflexivity|]. split; [lia|]. now destruct (llm_judge self).
  - unfold len.
    destruct (Z.ltb_spec 10
                (Z.of_nat (length (recent_failures self
                                   ++ [failure_message (episode self + 1)]))))
      as [Hlong|Hshort].
    + destruct (recent_failures self) as [|f fs] eqn:Efs.
      * cbn in Hlong. lia.
      * cbn [app tail]. split; [|split].
        -- destruct fs; [cbn in Hlong; lia|]. now rewrite last_snoc.
        -- rewrite length_app. cbn [length]. lia.
        -- now destruct (llm_judge self).
    + split; [now rewrite last_snoc|]. split; [lia|].
      now destruct (llm_judge self).
Qed.

(** X28 (a run of the simulator).  From the state [__init__] sets up,
    with or without a judge, after any [n] calls of [get_metrics]: the
    episode counter is [n] and the metrics report the episodes 1..n in
    order; the success rate lies between 0 and 1; [recent_failures]
    holds at most 10 messages, each the failure message of an episode of
    this run; and the judge's window holds [min(n, 10)] outcomes while
    its difficulty and its history are untouched. *)
Theorem metrics_run (progression : option float) (draws : list draw) :
  exists ms self',
    run draws (initial (LLMJudge.__init__ <$> progression)) = (Ok ms, self') /\
    map metrics_episode ms = seqZ 1 (len draws) /\
    after_episodes (len draws) self'.
Proof.
  destruct (run_keeps draws 0 (initial (LLMJudge.__init__ <$> progression)))
    as (ms & self' & Hrun & Hms & Hinv).
  { unfold after_episodes, initial. cbn [episode success_rate recent_failures
                                           llm_judge].
    split; [reflexivity|]. split; [lia|].
    split; [split; reflexivity|]. split; [unfold len; cbn; lia|].
    split; [constructor|].
    destruct progression; cbn; [|exact I]. repeat split. }
  exists ms, self'. split; [exact Hrun|]. split; [exact Hms|]. exact Hinv.
Qed.

Section WithParser.
Variable json_loads : string -> result json.

(** X29 ([get_llm_judgment]).  Without a judge the answer is [None].
    With a judge the call never raises and never answers [None] -- the
    [except] branch cannot be reached, because neither
    [get_success_rate] nor [evaluate_performance] raises: the answer
    carries the judgment of [evaluate_performance], the rolling
    success rate of the judge and the type ["llm"].  When the
    evaluation fails, the answer is the fallback judgment, whose
    [curriculum_prompt] is [None]: the socket loop then sends no
    perturbation, and the judge is as before. *)
Theorem llm_judgment_answers (now : Z) (outcome : LLMJudge.api_outcome)
    (self : t) :
  (llm_judge self = None ->
   get_llm_judgment json_loads now outcome self = (Ok None, self)) /\
  (forall judge,
     llm_judge self = Some judge ->
     exists j judge',
       LLMJudge.evaluate_performance json_loads now outcome judge
       = (Ok j, judge') /\
       let d := JudgmentDict (LLMJudge.observation j) (LLMJudge.failure_mode j)
                  (LLMJudge.reasoning j) (LLMJudge.curriculum_prompt j)
                  (LLMJudge.difficulty_level j)
                  (FailureDetectorSpec.success_ratio
                     (LLMJudge.success_window judge))
                  (LLMJudge.timestamp j) "llm" in
       get_llm_judgment json_loads now outcome self
       = (Ok (Some d), set_llm_judge (Some judge') self) /\
       (forall e,
          LLMJudgeSpec.evaluation_fails json_loads (LLMJudge.difficulty judge)
            outcome e ->
          sends_perturbation (Some d) = false /\ judge' = judge)).
Proof.
  split.
  - intros Hj. unfold get_llm_judgment, bind, get. now rewrite Hj.
  - intros judge Hj.
    destruct (LLMJudgeFacts.evaluate_returns json_loads now outcome judge)
      as (j & judge' & Heval & _).
    exists j, judge'. split; [exact Heval|]. cbv zeta. split.
    + unfold get_llm_judgment. unfold bind at 1. unfold get at 1.
      cbv beta iota. rewrite Hj. unfold try_except.
      unfold bind at 1. unfold on_judge at 1. rewrite Hj.
      rewrite LLMJudgeMoreFacts.judge_get_success_rate_spec.
      unfold bind at 1. unfold on_judge. cbn [llm_judge set_llm_judge].
      rewrite Heval. reflexivity.
    + intros e He.
      rewrite (LLMJudgeFacts.evaluate_fails json_loads now outcome judge e He)
        in Heval.
      injection Heval as <- <-. split; reflexivity.
Qed.

End WithParser.

End SimulatorFacts.
